(** * The customer-service chat front end ([main.py])

    [main.py] is sequential glue around three collaborators: the session
    service, the agent runner and the terminal.  The development below embeds
    [main_async] as a function in a small state-and-exception monad.  The
    collaborators are an interface ([Collaborators]) over an arbitrary state
    of the outside world; every call the program makes to them, every line it
    reads and every line it prints is recorded in a trace of events. *)

From Stdlib Require Import String Ascii List Bool Arith Lia.
From stdpp Require Import base list.
Import ListNotations.
Open Scope string_scope.

(** ** Text

    A Python [str] is modelled by [string]; the character with number [n]
    stands for the code point [n], so the strings covered are those over the
    code points 0..255. *)

Module PyStr.
(** [str.isspace] on one character, for the code points below 256: the
    controls 9..13 and 28..31, the space, NEL (133) and the no-break
    space (160). *)
Definition is_space (c : ascii) : bool :=
  let n := nat_of_ascii c in
  (((9 <=? n) && (n <=? 13)) || ((28 <=? n) && (n <=? 31))
   || (n =? 32) || (n =? 133) || (n =? 160))%nat.

Fixpoint lstrip (s : string) : string :=
  match s with
  | String c s' => if is_space c then lstrip s' else s
  | EmptyString => EmptyString
  end.

Fixpoint rstrip (s : string) : string :=
  match s with
  | EmptyString => EmptyString
  | String c s' =>
      match rstrip s' with
      | EmptyString => if is_space c then EmptyString else String c EmptyString
      | r => String c r
      end
  end.

(** [s.strip()] *)
Definition strip (s : string) : string := rstrip (lstrip s).

(** Every character of [s] is whitespace (true of the empty string). *)
Fixpoint all_space (s : string) : bool :=
  match s with
  | EmptyString => true
  | String c s' => is_space c && all_space s'
  end.

Definition is_empty (s : string) : bool :=
  match s with EmptyString => true | String _ _ => false end.

Definition first_char (s : string) : option ascii :=
  match s with EmptyString => None | String c _ => Some c end.

Fixpoint last_char (s : string) : option ascii :=
  match s with
  | EmptyString => None
  | String c EmptyString => Some c
  | String _ s' => last_char s'
  end.

(** [str.lower] on one character, for the code points below 256: the
    letters A..Z and the capital letters 192..222 of Latin-1 (215, the
    multiplication sign, is not a letter) move up by 32. *)
Definition lower_char (c : ascii) : ascii :=
  let n := nat_of_ascii c in
  if (((65 <=? n) && (n <=? 90))
      || ((192 <=? n) && (n <=? 222) && negb (n =? 215)))%nat
  then ascii_of_nat (n + 32)
  else c.

(** [s.lower()] *)
Fixpoint lower (s : string) : string :=
  match s with
  | EmptyString => EmptyString
  | String c s' => String (lower_char c) (lower s')
  end.

(** The capital of a letter a..z; any other character is left alone. *)
Definition upper_char (c : ascii) : ascii :=
  let n := nat_of_ascii c in
  if ((97 <=? n) && (n <=? 122))%nat then ascii_of_nat (n - 32) else c.

(** [line] spells [word] in some mixture of upper and lower case. *)
Fixpoint mixed_case (word line : string) : bool :=
  match word, line with
  | EmptyString, EmptyString => true
  | String c word', String d line' =>
      (Ascii.eqb d c || Ascii.eqb d (upper_char c)) && mixed_case word' line'
  | _, _ => false
  end.

(** [x in xs] for a list of strings. *)
Fixpoint str_in (x : string) (xs : list string) : bool :=
  match xs with
  | [] => false
  | y :: ys => String.eqb x y || str_in x ys
  end.

Definition newline : string := String (ascii_of_nat 10) EmptyString.

End PyStr.

(** ** Values, dictionaries and the object store *)

(** What a session's state map holds, as far as [main.py] looks at it: a
    string, a list, or some other object (named by a tag). *)
#[warnings="-register-all"] Inductive PyData : Type :=
| DStr (s : string)
| DList (xs : list PyData)
| DOther (tag : string).

(** A [dict] with string keys, in insertion order. *)
Definition Dict (V : Type) : Type := list (string * V).

(** [d.get(k)] *)
Fixpoint dict_get {V : Type} (d : Dict V) (k : string) : option V :=
  match d with
  | [] => None
  | (k', v) :: d' => if String.eqb k k' then Some v else dict_get d' k
  end.

(** [d.get(k, default)] *)
Definition dict_get_default {V : Type} (d : Dict V) (k : string) (default : V) : V :=
  match dict_get d k with
  | Some v => v
  | None => default
  end.

(** [d[k] = v]: an existing key keeps its position, a new key goes last. *)
Fixpoint dict_set {V : Type} (d : Dict V) (k : string) (v : V) : Dict V :=
  match d with
  | [] => [(k, v)]
  | (k', v') :: d' =>
      if String.eqb k k' then (k', v) :: d' else (k', v') :: dict_set d' k v
  end.

(** The objects [main.py] itself creates live in a store, so that two names
    for one object are told apart from two equal objects.  A dictionary
    value is a string or a reference to a list object. *)
Abbreviation loc := nat (only parsing).

Inductive PyVal : Type :=
| VStr (s : string)
| VRef (l : loc).

Inductive PyObj : Type :=
| ODict (items : Dict PyVal)
| OList (items : list PyData).

Abbreviation Heap := (list PyObj).

(** What a reader of the dictionary at [l] sees, references followed. *)
Definition view_val (h : Heap) (v : PyVal) : PyData :=
  match v with
  | VStr s => DStr s
  | VRef r =>
      match h !! r with
      | Some (OList xs) => DList xs
      | Some (ODict _) => DOther "dict"
      | None => DOther "dangling"
      end
  end.

Definition view_dict (h : Heap) (l : loc) : Dict PyData :=
  match h !! l with
  | Some (ODict items) => map (fun kv => (fst kv, view_val h (snd kv))) items
  | _ => []
  end.

(** The store once the module is loaded: the dictionary literal of
    [initial_state_template] evaluates its two list displays, then builds
    the dictionary. *)
Definition module_heap : Heap :=
  [ OList [];
    OList [];
    ODict [ ("user_name", VStr "");
            ("purchased_courses", VRef 0);
            ("interaction_history", VRef 1) ] ].

Definition initial_state_template : loc := 2.

(** ** Sessions, exceptions, outcomes *)

(** A session as the service returns it.  [main.py] reads the id and the
    state of a session right after the call that returned it (only the
    construction of the runner, which stores its arguments, may come in
    between), so a session is the value it had when it was returned. *)
Module Session.

Record t : Type := mk { id : string; state : Dict PyData }.

End Session.

Inductive ExnClass : Type :=
| SessionNotFoundError
| AttributeError
| EOFError
| OtherException.

(** An exception (all four classes derive from [Exception]); [exn_text] is
    what [str(e)] gives. *)
Record PyExn : Type := { exn_class : ExnClass; exn_text : string }.

Inductive Outcome (A : Type) : Type :=
| Returns (a : A)
| Raises (e : PyExn).

Arguments Returns {A} a.
Arguments Raises {A} e.

Definition is_session_not_found (e : PyExn) : bool :=
  match exn_class e with SessionNotFoundError => true | _ => false end.

Definition is_attribute_error (e : PyExn) : bool :=
  match exn_class e with AttributeError => true | _ => false end.

(** ** The collaborators

    Everything [main_async] calls and does not define, over a state [World]
    of the outside (the session store, the agent, the random generator).
    A call returns, or raises an exception; [get_session] may also return
    [None].  [create_session] is given the state as its reader sees it at
    the call; what the service does later with that dictionary, or with the
    two lists it shares with the template, is the service's business, and
    no collaborator is ever handed the template dictionary itself. *)
Record Environment (World : Type) : Type := {
  (** [session_service.get_session(app_name, user_id, session_id)] *)
  get_session : World -> string -> string -> string ->
                World * Outcome (option Session.t);
  (** [session_service.create_session(app_name, user_id, session_id, state)] *)
  create_session : World -> string -> string -> string -> Dict PyData ->
                   World * Outcome Session.t;
  (** [session_service._generate_id()] *)
  _generate_id : World -> World * Outcome string;
  (** [''.join(random.choices(population, k))] *)
  random_choices : World -> string -> nat -> World * string;
  (** [Runner(agent, app_name, session_service)] *)
  Runner : World -> string -> World * Outcome unit;
  (** [utils.add_user_query_to_history(session_service, app_name, user_id,
      session_id, query)] *)
  add_user_query_to_history : World -> string -> string -> string -> string ->
                              World * Outcome unit;
  (** [await utils.call_agent_async(runner, user_id, session_id, query)] *)
  call_agent_async : World -> string -> string -> string ->
                     World * Outcome unit;
  (** [str(v)] for a value that is not a string *)
  render : PyData -> string
}.

Arguments get_session {World} _ _ _ _ _.
Arguments create_session {World} _ _ _ _ _ _.
Arguments _generate_id {World} _ _.
Arguments random_choices {World} _ _ _ _.
Arguments Runner {World} _ _ _.
Arguments add_user_query_to_history {World} _ _ _ _ _ _.
Arguments call_agent_async {World} _ _ _ _ _.
Arguments render {World} _ _.

(** What an observer of one run sees, in order. *)
Inductive Event : Type :=
| Input (prompt : string) (line : option string)
| Print (text : string)
| GetSession (app_name user_id session_id : string)
             (r : Outcome (option Session.t))
| CreateSession (app_name user_id session_id : string) (state : Dict PyData)
                (r : Outcome Session.t)
| GenerateId (r : Outcome string)
| RandomChoices (population : string) (k : nat) (chosen : string)
| NewRunner (app_name : string) (r : Outcome unit)
| AddUserQueryToHistory (app_name user_id session_id query : string)
                        (r : Outcome unit)
| CallAgent (user_id session_id query : string) (r : Outcome unit).

Record Machine (World : Type) : Type := {
  world : World;
  heap : Heap;
  trace : list Event
}.

Arguments world {World} _.
Arguments heap {World} _.
Arguments trace {World} _.

(** ** The monad of [main_async]

    A computation takes the machine (outside world, object store, trace so
    far) and gives the machine afterwards with a value or a raised
    exception. *)
Definition M (World A : Type) : Type :=
  Machine World -> Machine World * Outcome A.

Definition ret {World A : Type} (a : A) : M World A :=
  fun m => (m, Returns a).

Definition raise {World A : Type} (e : PyExn) : M World A :=
  fun m => (m, Raises e).

Definition bind {World A B : Type} (c : M World A) (k : A -> M World B)
  : M World B :=
  fun m =>
    match c m with
    | (m', Returns a) => k a m'
    | (m', Raises e) => (m', Raises e)
    end.

(** [try: c  except ...: handler]; the handler declines ([None]) an
    exception that none of its clauses matches, which then goes on up. *)
Definition try_except {World A : Type} (c : M World A)
    (handler : PyExn -> option (M World A)) : M World A :=
  fun m =>
    match c m with
    | (m', Returns a) => (m', Returns a)
    | (m', Raises e) =>
        match handler e with
        | Some k => k m'
        | None => (m', Raises e)
        end
    end.

Declare Scope py_scope.
Delimit Scope py_scope with py.
Notation "x <- c ;; k" := (bind c (fun x => k))
  (at level 100, c at next level, right associativity) : py_scope.
Notation "c ;;; k" := (bind c (fun _ => k))
  (at level 100, right associativity) : py_scope.

Definition log {World : Type} (es : list Event) (m : Machine World)
  : Machine World :=
  {| world := world m; heap := heap m; trace := trace m ++ es |}.

Definition set_world {World : Type} (w : World) (m : Machine World)
  : Machine World :=
  {| world := w; heap := heap m; trace := trace m |}.

Definition set_heap {World : Type} (h : Heap) (m : Machine World)
  : Machine World :=
  {| world := world m; heap := h; trace := trace m |}.

(** [print(text)] *)
Definition print {World : Type} (text : string) : M World unit :=
  fun m => (log [Print text] m, Returns tt).

(** [input(prompt)]: the next line of standard input, [EOFError] at its
    end. *)
Definition input {World : Type} (prompt : string) (line : option string)
  : M World string :=
  fun m =>
    (log [Input prompt line] m,
     match line with
     | Some l => Returns l
     | None => Raises {| exn_class := EOFError;
                         exn_text := "EOF when reading a line" |}
     end).

(** [d.copy()] for the dictionary at [l]: a new dictionary object with the
    same keys and the same values (a shallow copy). *)
Definition dict_copy {World : Type} (l : loc) : M World loc :=
  fun m =>
    match heap m !! l with
    | Some (ODict items) =>
        (set_heap (heap m ++ [ODict items])%list m, Returns (length (heap m)))
    | _ => (m, Raises {| exn_class := AttributeError;
                         exn_text := "object has no attribute 'copy'" |})
    end.

(** [d[k] = v] for the dictionary at [l]. *)
Definition dict_setitem {World : Type} (l : loc) (k : string) (v : PyVal)
  : M World unit :=
  fun m =>
    match heap m !! l with
    | Some (ODict items) =>
        (set_heap (<[l := ODict (dict_set items k v)]> (heap m)) m, Returns tt)
    | _ => (m, Raises {| exn_class := OtherException;
                         exn_text := "object does not support item assignment" |})
    end.

(** [s.state] for the result of [get_session], which may be [None]. *)
Definition state_of {World : Type} (s : option Session.t)
  : M World (Dict PyData) :=
  match s with
  | Some s => ret (Session.state s)
  | None => raise {| exn_class := AttributeError;
                     exn_text := "'NoneType' object has no attribute 'state'" |}
  end.

(** [s.id], likewise. *)
Definition id_of {World : Type} (s : option Session.t) : M World string :=
  match s with
  | Some s => ret (Session.id s)
  | None => raise {| exn_class := AttributeError;
                     exn_text := "'NoneType' object has no attribute 'id'" |}
  end.

(** [for x in xs: body(x)] *)
Fixpoint for_each {World A : Type} (xs : list A) (body : A -> M World unit)
  : M World unit :=
  match xs with
  | [] => ret tt
  | x :: xs' => bind (body x) (fun _ => for_each xs' body)
  end.

(** ** [main_async] *)

Section Program.

Context {World : Type} (E : Environment World).

Local Open Scope py_scope.

(** One call to a collaborator: the world moves on, the call is recorded. *)
Definition call_get_session (app_name user_id session_id : string)
  : M World (option Session.t) :=
  fun m =>
    let (w, r) := get_session E (world m) app_name user_id session_id in
    (log [GetSession app_name user_id session_id r] (set_world w m), r).

Definition call_create_session (app_name user_id session_id : string)
    (state : loc) : M World Session.t :=
  fun m =>
    let st := view_dict (heap m) state in
    let (w, r) := create_session E (world m) app_name user_id session_id st in
    (log [CreateSession app_name user_id session_id st r] (set_world w m), r).

Definition call_generate_id : M World string :=
  fun m =>
    let (w, r) := _generate_id E (world m) in
    (log [GenerateId r] (set_world w m), r).

Definition call_random_choices (population : string) (k : nat)
  : M World string :=
  fun m =>
    let (w, s) := random_choices E (world m) population k in
    (log [RandomChoices population k s] (set_world w m), Returns s).

Definition call_Runner (app_name : string) : M World unit :=
  fun m =>
    let (w, r) := Runner E (world m) app_name in
    (log [NewRunner app_name r] (set_world w m), r).

Definition call_add_user_query_to_history
    (app_name user_id session_id query : string) : M World unit :=
  fun m =>
    let (w, r) :=
      add_user_query_to_history E (world m) app_name user_id session_id query in
    (log [AddUserQueryToHistory app_name user_id session_id query r]
         (set_world w m), r).

Definition call_call_agent_async (user_id session_id query : string)
  : M World unit :=
  fun m =>
    let (w, r) := call_agent_async E (world m) user_id session_id query in
    (log [CallAgent user_id session_id query r] (set_world w m), r).

(** [f"{v}"] *)
Definition fmt (v : PyData) : string :=
  match v with
  | DStr s => s
  | _ => render E v
  end.

Definition APP_NAME : string := "Customer Support".

Definition ascii_lowercase : string := "abcdefghijklmnopqrstuvwxyz".
Definition digits : string := "0123456789".

(** Lines 29-34: the user name from the first line typed. *)
Definition current_user_name (current_user_name_input : string) : string :=
  if PyStr.is_empty (PyStr.strip current_user_name_input)
  then "Guest"
  else PyStr.strip current_user_name_input.

Definition read_user_name (line : option string) : M World string :=
  current_user_name_input <- input "Please enter your name: " line ;;
  if PyStr.is_empty (PyStr.strip current_user_name_input)
  then print "No valid name entered, proceeding as 'Guest'." ;;;
       ret "Guest"
  else ret (PyStr.strip current_user_name_input).

(** Line 40. *)
Definition session_id_for (USER_ID : string) : string :=
  USER_ID ++ "_main_session".

(** Lines 54-65 and 82-90: a copy of the template, named for the user,
    handed to [create_session]. *)
Definition create_for (USER_ID SESSION_ID : string) : M World Session.t :=
  user_initial_state <- dict_copy initial_state_template ;;
  dict_setitem user_initial_state "user_name" (VStr USER_ID) ;;;
  call_create_session APP_NAME USER_ID SESSION_ID user_initial_state.

(** Lines 73-78. *)
Definition error_id_suffix : M World string :=
  try_except call_generate_id
    (fun e =>
       if is_attribute_error e
       then Some (call_random_choices (ascii_lowercase ++ digits) 6)
       else None).

(** Lines 43-90 (PART 3): the current session, and [USER_ID], which the
    error fallback replaces. *)
Definition session_setup (USER_ID : string)
  : M World (string * option Session.t) :=
  let SESSION_ID := session_id_for USER_ID in
  try_except
    (current_session <- call_get_session APP_NAME USER_ID SESSION_ID ;;
     state <- state_of current_session ;;
     id <- id_of current_session ;;
     let loaded_user_name := dict_get_default state "user_name" (DStr USER_ID) in
     print ("Welcome back, " ++ fmt loaded_user_name
            ++ "! Loaded existing session: " ++ id) ;;;
     ret (USER_ID, current_session))
    (fun e =>
       if is_session_not_found e
       then Some
         (print ("Welcome, " ++ USER_ID ++ "! Creating new session...") ;;;
          current_session <- create_for USER_ID SESSION_ID ;;
          print ("New session created: " ++ Session.id current_session) ;;;
          ret (USER_ID, Some current_session))
       else Some
         (print ("An unexpected error occurred during session handling: "
                 ++ exn_text e) ;;;
          print "Proceeding with a temporary guest session due to error." ;;;
          error_id_suffix <- error_id_suffix ;;
          let USER_ID := "Guest_Error_" ++ error_id_suffix in
          let SESSION_ID := session_id_for USER_ID in
          current_session <- create_for USER_ID SESSION_ID ;;
          print ("Error fallback session created: "
                 ++ Session.id current_session) ;;;
          ret (USER_ID, Some current_session))).

(** How one pass through the refresh of lines 130-143 ends. *)
Inductive Refresh : Type :=
| Refreshed (s : option Session.t)
| Break.

Definition refresh_session (USER_ID active_session_id : string)
  : M World Refresh :=
  try_except
    (s <- call_get_session APP_NAME USER_ID active_session_id ;;
     ret (Refreshed s))
    (fun e =>
       if is_session_not_found e
       then Some (print "Error: Session lost during interaction. Exiting." ;;;
                  ret Break)
       else Some (print ("Error refreshing session state: " ++ exn_text e
                         ++ ". Exiting.") ;;;
                  ret Break)).

(** Lines 108-143 (PART 5): the loop, over the lines still to be read; it
    gives [current_session] as the loop leaves it. *)
Fixpoint conversation_loop (USER_ID : string) (current_session : Session.t)
    (stdin : list string) : M World (option Session.t) :=
  let prompt_user_name :=
    dict_get_default (Session.state current_session) "user_name"
                     (DStr USER_ID) in
  match stdin with
  | [] =>
      input (fmt prompt_user_name ++ ": ") None ;;;
      ret (Some current_session)
  | line :: stdin' =>
      user_input <- input (fmt prompt_user_name ++ ": ") (Some line) ;;
      if PyStr.str_in (PyStr.lower user_input) ["exit"; "quit"]
      then print "Ending conversation. Goodbye!" ;;;
           ret (Some current_session)
      else
        let active_session_id := Session.id current_session in
        call_add_user_query_to_history APP_NAME USER_ID active_session_id
                                       user_input ;;;
        call_call_agent_async USER_ID active_session_id user_input ;;;
        refreshed <- refresh_session USER_ID active_session_id ;;
        match refreshed with
        | Break => ret (Some current_session)
        | Refreshed None =>
            print "Critical error: Session became None during loop. Exiting." ;;;
            ret None
        | Refreshed (Some s) => conversation_loop USER_ID s stdin'
        end
  end.

(** Lines 147-161 (PART 6). *)
Definition state_examination (USER_ID : string)
    (current_session : option Session.t) : M World unit :=
  match current_session with
  | Some s =>
      let final_active_session_id := Session.id s in
      try_except
        (final_session <-
           call_get_session APP_NAME USER_ID final_active_session_id ;;
         print (PyStr.newline ++ "Final Session State:") ;;;
         state <- state_of final_session ;;
         for_each state
           (fun kv => print (fst kv ++ ": " ++ fmt (snd kv))))
        (fun e =>
           if is_session_not_found e
           then Some (print ("Could not retrieve final session state for "
                             ++ final_active_session_id
                             ++ ". It might have been deleted or an error occurred."))
           else Some (print ("Error retrieving final session state: "
                             ++ exn_text e)))
  | None => print "No active session to examine at the end."
  end.

(** Lines 92-161: what follows PART 3, given the [USER_ID] and the
    [current_session] it leaves. *)
Definition after_setup (USER_ID : string) (current_session : option Session.t)
    (stdin : list string) : M World unit :=
  match current_session with
  | None => print "Critical error: Session could not be established. Exiting."
  | Some current_session =>
      call_Runner APP_NAME ;;;
      print (PyStr.newline ++ "Welcome to Customer Service Chat!") ;;;
      print ("Type 'exit' or 'quit' to end the conversation." ++ PyStr.newline) ;;;
      current_session <- conversation_loop USER_ID current_session stdin ;;
      state_examination USER_ID current_session
  end.

(** Lines 27-161. *)
Definition main_async (stdin : list string) : M World unit :=
  current_user_name <- read_user_name (head stdin) ;;
  let USER_ID := current_user_name in
  setup <- session_setup USER_ID ;;
  let (USER_ID, current_session) := setup : string * option Session.t in
  after_setup USER_ID current_session (tail stdin).

End Program.

(** The machine when [main_async] starts: the module is loaded, nothing has
    been observed yet. *)
Definition boot {World : Type} (w : World) : Machine World :=
  {| world := w; heap := module_heap; trace := [] |}.

(** One run of the program: the machine at the end and how it ended. *)
Definition run {World : Type} (E : Environment World) (w : World)
    (stdin : list string) : Machine World * Outcome unit :=
  main_async E stdin (boot w).

(** ** A stand-in for the collaborators

    An in-memory session service and a scripted agent, of the kind a test of
    [main.py] would plug in.  The sessions are kept under (app name, user
    id, session id); an [outage] is an exception the next [get_session]
    raises; the agent obeys three phrases. *)
Module Stub.

Definition Key : Type := (string * string * string)%type.

Definition key_eqb (a b : Key) : bool :=
  let '(a1, a2, a3) := a in
  let '(b1, b2, b3) := b in
  String.eqb a1 b1 && String.eqb a2 b2 && String.eqb a3 b3.

Record World : Type := {
  sessions : list (Key * Session.t);
  outage : option PyExn;
  id_source : option string;
  runner_app : string
}.

Fixpoint find (k : Key) (ss : list (Key * Session.t)) : option Session.t :=
  match ss with
  | [] => None
  | (k', s) :: ss' => if key_eqb k k' then Some s else find k ss'
  end.

Fixpoint put (k : Key) (s : Session.t) (ss : list (Key * Session.t))
  : list (Key * Session.t) :=
  match ss with
  | [] => [(k, s)]
  | (k', s') :: ss' =>
      if key_eqb k k' then (k', s) :: ss' else (k', s') :: put k s ss'
  end.

Fixpoint remove (k : Key) (ss : list (Key * Session.t))
  : list (Key * Session.t) :=
  match ss with
  | [] => []
  | (k', s') :: ss' =>
      if key_eqb k k' then ss' else (k', s') :: remove k ss'
  end.

Definition with_sessions (ss : list (Key * Session.t)) (w : World) : World :=
  {| sessions := ss; outage := outage w; id_source := id_source w;
     runner_app := runner_app w |}.

Definition with_outage (o : option PyExn) (w : World) : World :=
  {| sessions := sessions w; outage := o; id_source := id_source w;
     runner_app := runner_app w |}.

Definition not_found : PyExn :=
  {| exn_class := SessionNotFoundError; exn_text := "Session not found" |}.

Definition unavailable : PyExn :=
  {| exn_class := OtherException; exn_text := "service unavailable" |}.

Definition stub_get_session (w : World) (app_name user_id session_id : string)
  : World * Outcome (option Session.t) :=
  match outage w with
  | Some e => (with_outage None w, Raises e)
  | None =>
      match find (app_name, user_id, session_id) (sessions w) with
      | Some s => (w, Returns (Some s))
      | None => (w, Raises not_found)
      end
  end.

Definition stub_create_session (w : World)
    (app_name user_id session_id : string) (state : Dict PyData)
  : World * Outcome Session.t :=
  let s := Session.mk session_id state in
  (with_sessions (put (app_name, user_id, session_id) s (sessions w)) w,
   Returns s).

Definition stub_generate_id (w : World) : World * Outcome string :=
  match id_source w with
  | Some i => (w, Returns i)
  | None =>
      (w, Raises {| exn_class := AttributeError;
                    exn_text := "object has no attribute '_generate_id'" |})
  end.

(** Not random at all: the first [k] characters of the population. *)
Definition stub_random_choices (w : World) (population : string) (k : nat)
  : World * string :=
  (w, String.substring 0 k population).

Definition stub_Runner (w : World) (app_name : string)
  : World * Outcome unit :=
  ({| sessions := sessions w; outage := outage w; id_source := id_source w;
      runner_app := app_name |}, Returns tt).

Definition append_history (query : string) (s : Session.t) : Session.t :=
  let history :=
    match dict_get (Session.state s) "interaction_history" with
    | Some (DList xs) => xs
    | _ => []
    end in
  Session.mk (Session.id s)
    (dict_set (Session.state s) "interaction_history"
              (DList (history ++ [DStr query]))).

Definition stub_add_user_query_to_history (w : World)
    (app_name user_id session_id query : string) : World * Outcome unit :=
  match find (app_name, user_id, session_id) (sessions w) with
  | Some s =>
      (with_sessions (put (app_name, user_id, session_id)
                          (append_history query s) (sessions w)) w,
       Returns tt)
  | None => (w, Returns tt)
  end.

Definition forget_name (s : Session.t) : Session.t :=
  Session.mk (Session.id s)
    (filter (fun kv => negb (String.eqb (fst kv) "user_name"))
            (Session.state s)).

(** The agent: "forget my name" drops the key [user_name] from the state,
    "close my account" deletes the session, "hang up" makes the service fail
    at its next lookup; anything else leaves the store alone. *)
Definition stub_call_agent_async (w : World) (user_id session_id query : string)
  : World * Outcome unit :=
  let k := (runner_app w, user_id, session_id) in
  if String.eqb query "forget my name" then
    match find k (sessions w) with
    | Some s => (with_sessions (put k (forget_name s) (sessions w)) w,
                 Returns tt)
    | None => (w, Returns tt)
    end
  else if String.eqb query "close my account" then
    (with_sessions (remove k (sessions w)) w, Returns tt)
  else if String.eqb query "hang up" then
    (with_outage (Some unavailable) w, Returns tt)
  else (w, Returns tt).

Definition stub_render (v : PyData) : string :=
  match v with
  | DStr s => s
  | DList [] => "[]"
  | DList _ => "[...]"
  | DOther tag => tag
  end.

Definition env : Environment World := {|
  get_session := stub_get_session;
  create_session := stub_create_session;
  _generate_id := stub_generate_id;
  random_choices := stub_random_choices;
  Runner := stub_Runner;
  add_user_query_to_history := stub_add_user_query_to_history;
  call_agent_async := stub_call_agent_async;
  render := stub_render
|}.

(** A service that has just been started. *)
Definition fresh : World :=
  {| sessions := []; outage := None; id_source := None; runner_app := "" |}.

(** A service that fails at its first lookup and has [_generate_id]. *)
Definition failing : World :=
  {| sessions := []; outage := Some unavailable; id_source := Some "7f3a";
     runner_app := "" |}.

End Stub.

(** ** A second stand-in

    Collaborators that answer each call the same way every time, whatever
    the arguments: one setting per call of [main.py]. *)
Module Fixed.

Record Answers : Type := {
  lookup : Outcome (option Session.t);
  creation : option PyExn;
  generated : Outcome string;
  runner : option PyExn;
  history : option PyExn;
  agent : option PyExn
}.

Definition answer (failure : option PyExn) : Outcome unit :=
  match failure with
  | None => Returns tt
  | Some e => Raises e
  end.

Definition env : Environment Answers := {|
  get_session := fun w _ _ _ => (w, lookup w);
  create_session := fun w _ _ session_id state =>
    (w, match creation w with
        | None => Returns (Session.mk session_id state)
        | Some e => Raises e
        end);
  _generate_id := fun w => (w, generated w);
  random_choices := fun w population k => (w, String.substring 0 k population);
  Runner := fun w _ => (w, answer (runner w));
  add_user_query_to_history := fun w _ _ _ _ => (w, answer (history w));
  call_agent_async := fun w _ _ _ => (w, answer (agent w));
  render := Stub.stub_render
|}.

Definition timeout : PyExn :=
  {| exn_class := OtherException; exn_text := "timed out" |}.

Definition no_such_method : PyExn :=
  {| exn_class := AttributeError;
     exn_text := "object has no attribute '_generate_id'" |}.

(** Nothing is known, nothing fails. *)
Definition calm : Answers :=
  {| lookup := Raises Stub.not_found; creation := None;
     generated := Raises no_such_method; runner := None; history := None;
     agent := None |}.

Definition with_lookup (r : Outcome (option Session.t)) (w : Answers)
  : Answers :=
  {| lookup := r; creation := creation w; generated := generated w;
     runner := runner w; history := history w; agent := agent w |}.


End Fixed.

(** ** Reading a trace *)

(** The session key of the first lookup a trace shows. *)
Fixpoint first_lookup (t : list Event) : option (string * string * string) :=
  match t with
  | [] => None
  | GetSession app_name user_id session_id _ :: _ =>
      Some (app_name, user_id, session_id)
  | _ :: t' => first_lookup t'
  end.

Definition is_creation (e : Event) : bool :=
  match e with CreateSession _ _ _ _ _ => true | _ => false end.

(** A call of [add_user_query_to_history] or of [call_agent_async]. *)
Definition is_turn_call (e : Event) : bool :=
  match e with
  | AddUserQueryToHistory _ _ _ _ _ | CallAgent _ _ _ _ => true
  | _ => false
  end.

Definition is_input (e : Event) : bool :=
  match e with Input _ _ => true | _ => false end.

(** What PART 6 may do: look a session up, print. *)
Definition is_lookup_or_print (e : Event) : bool :=
  match e with GetSession _ _ _ _ | Print _ => true | _ => false end.

(** The state a new session is seeded with, in the words of the
    specification: the three default keys, [user_name] set to the user id,
    the two lists empty. *)
Definition seeded_state (user_id : string) : Dict PyData :=
  [ ("user_name", DStr user_id);
    ("purchased_courses", DList []);
    ("interaction_history", DList []) ].

(** The events of the name prompt for the typed line [name]. *)
Definition name_prompt (name : string) : list Event :=
  Input "Please enter your name: " (Some name)
  :: (if PyStr.all_space name
      then [Print "No valid name entered, proceeding as 'Guest'."]
      else []).

(** The name shown for a session, in the words of the specification: what
    the state keeps under [user_name], and [USER_ID] when it keeps
    nothing. *)
Definition displayed_name {World : Type} (E : Environment World)
    (USER_ID : string) (s : Session.t) : string :=
  match dict_get (Session.state s) "user_name" with
  | Some v => fmt E v
  | None => USER_ID
  end.

(** The reading of the prompt rule that ties the fallback to the name typed
    at the start: whenever a lookup has just returned a session whose state
    has no [user_name] and the next thing is a prompt, the prompt shows the
    user id made from that name. *)
Definition prompt_falls_back_to_entered_name : Prop :=
  forall (World : Type) (E : Environment World) (w : World)
         (name : string) (lines : list string)
         (pre post : list Event) (a u i : string) (s : Session.t)
         (p : string) (l : option string),
    trace (fst (run E w (name :: lines)))
    = (pre ++ GetSession a u i (Returns (Some s)) :: Input p l :: post)%list ->
    dict_get (Session.state s) "user_name" = None ->
    p = current_user_name name ++ ": ".

(** The template dictionary is the object the module built. *)
Definition template_intact (h : Heap) : Prop :=
  h !! initial_state_template = module_heap !! initial_state_template.

(** ** What a part of the program may do *)

(** [emits P c]: running [c] leaves the object store alone and adds to the
    trace only events that satisfy [P]. *)
Definition emits {World : Type} (P : Event -> Prop) {A : Type}
    (c : M World A) : Prop :=
  forall m, exists es,
    trace (fst (c m)) = (trace m ++ es)%list
    /\ heap (fst (c m)) = heap m
    /\ Forall P es.

(** [grows c]: running [c] only adds to the trace, and keeps the template
    dictionary as the module built it. *)
Definition grows {World A : Type} (c : M World A) : Prop :=
  forall m,
    (exists es, trace (fst (c m)) = (trace m ++ es)%list)
    /\ (template_intact (heap m) -> template_intact (heap (fst (c m)))).

(** [gives P c]: whatever [c] returns satisfies [P]. *)
Definition gives {World A : Type} (P : A -> Prop) (c : M World A) : Prop :=
  forall m m' a, c m = (m', Returns a) -> P a.





(** [traces P c]: running [c] adds to the trace only events that satisfy
    [P] (the object store may change). *)
Definition traces {World A : Type} (P : Event -> Prop) (c : M World A)
  : Prop :=
  forall m, exists es,
    trace (fst (c m)) = (trace m ++ es)%list /\ Forall P es.

(** The number of [create_session] calls a trace shows. *)
Fixpoint creations (t : list Event) : nat :=
  match t with
  | [] => 0
  | e :: t' => (if is_creation e then 1 else 0) + creations t'
  end.

(** [creates_at_most n c]: running [c] adds at most [n] calls of
    [create_session] to the trace. *)
Definition creates_at_most {World A : Type} (n : nat) (c : M World A)
  : Prop :=
  forall m, exists es,
    trace (fst (c m)) = (trace m ++ es)%list /\ creations es <= n.

(** The event is no call under an app name other than [app]. *)
Definition under_app (app : string) (e : Event) : Prop :=
  match e with
  | GetSession a _ _ _ | CreateSession a _ _ _ _ | NewRunner a _
  | AddUserQueryToHistory a _ _ _ _ => a = app
  | _ => True
  end.

(** What the loop may emit for the user [USER_ID] with the lines [stdin]
    left to read: lookups, history updates and agent calls under that user
    id (and [app], where the call has one), the history updates and agent
    calls for a query that is one of the lines as typed and does not lower
    to exit or quit; no creation, no new runner, no suffix generation. *)
Definition loop_event (app USER_ID : string) (stdin : list string) (e : Event)
  : Prop :=
  match e with
  | Input _ _ | Print _ => True
  | GetSession a u _ _ => a = app /\ u = USER_ID
  | AddUserQueryToHistory a u _ q _ =>
      a = app /\ u = USER_ID /\ In q stdin
      /\ PyStr.str_in (PyStr.lower q) ["exit"; "quit"] = false
  | CallAgent u _ q _ =>
      u = USER_ID /\ In q stdin
      /\ PyStr.str_in (PyStr.lower q) ["exit"; "quit"] = false
  | _ => False
  end.

(** * Properties *)

Open Scope list_scope.

(** ** Text *)

Section StripFacts.

Import PyStr.

Lemma lstrip_is_empty (s : string) : is_empty (lstrip s) = all_space s.
Proof.
  induction s as [|c s IH]; simpl; [reflexivity|].
  destruct (is_space c); simpl; [exact IH | reflexivity].
Qed.

Lemma rstrip_is_empty (s : string) : is_empty (rstrip s) = all_space s.
Proof.
  induction s as [|c s IH]; simpl; [reflexivity|].
  destruct (rstrip s) as [|d r]; simpl in *.
  - rewrite <- IH. destruct (is_space c); reflexivity.
  - rewrite <- IH. rewrite andb_false_r. reflexivity.
Qed.

Lemma lstrip_first_char (s : string) (c : ascii) :
  first_char (lstrip s) = Some c -> is_space c = false.
Proof.
  induction s as [|d s IH]; simpl; [discriminate|].
  destruct (is_space d) eqn:Hd; simpl; [exact IH|].
  intros [= <-]. exact Hd.
Qed.

Lemma rstrip_first_char (s : string) (c : ascii) :
  first_char (rstrip s) = Some c -> first_char s = Some c.
Proof.
  destruct s as [|d s]; simpl; [discriminate|].
  destruct (rstrip s); [destruct (is_space d)|]; simpl; congruence.
Qed.

Lemma rstrip_last_char (s : string) (c : ascii) :
  last_char (rstrip s) = Some c -> is_space c = false.
Proof.
  induction s as [|d s IH]; simpl; [discriminate|].
  destruct (rstrip s) as [|e r] eqn:Hr.
  - destruct (is_space d) eqn:Hd; simpl; [discriminate|].
    intros [= <-]. exact Hd.
  - simpl. exact IH.
Qed.

Lemma all_space_app (p q : string) :
  all_space (p ++ q)%string = all_space p && all_space q.
Proof.
  induction p as [|c p IH]; simpl; [reflexivity|].
  rewrite IH, andb_assoc. reflexivity.
Qed.

Lemma lstrip_split (s : string) :
  exists p, s = (p ++ lstrip s)%string /\ all_space p = true.
Proof.
  induction s as [|c s [p [Hs Hp]]]; simpl.
  - exists "". split; reflexivity.
  - destruct (is_space c) eqn:Hc.
    + exists (String c p). simpl. rewrite Hc, Hp.
      split; [f_equal; exact Hs | reflexivity].
    + exists "". split; reflexivity.
Qed.

Lemma rstrip_split (s : string) :
  exists q, s = (rstrip s ++ q)%string /\ all_space q = true.
Proof.
  induction s as [|c s [q [Hs Hq]]]; simpl.
  - exists "". split; reflexivity.
  - destruct (rstrip s) as [|e r] eqn:Hr.
    + simpl in Hs. subst q.
      destruct (is_space c) eqn:Hc.
      * exists (String c s). simpl. rewrite Hc, Hq. split; reflexivity.
      * exists s. split; [reflexivity | exact Hq].
    + exists q. split; [simpl; f_equal; exact Hs | exact Hq].
Qed.

Lemma strip_is_empty (s : string) : is_empty (strip s) = all_space s.
Proof.
  unfold strip. rewrite rstrip_is_empty.
  destruct (lstrip_split s) as [p [Hs Hp]].
  rewrite Hs at 2. rewrite all_space_app, Hp. reflexivity.
Qed.

(** [strip] takes a run of whitespace off each end, and no more could be
    taken. *)
Lemma strip_spec (s : string) :
  (exists p q, s = (p ++ strip s ++ q)%string
               /\ all_space p = true /\ all_space q = true)
  /\ (forall c, first_char (strip s) = Some c -> is_space c = false)
  /\ (forall c, last_char (strip s) = Some c -> is_space c = false).
Proof.
  unfold strip. split; [|split].
  - destruct (lstrip_split s) as [p [Hs Hp]].
    destruct (rstrip_split (lstrip s)) as [q [Ht Hq]].
    exists p, q. split; [|split; assumption].
    rewrite <- Ht. exact Hs.
  - intros c H. apply rstrip_first_char in H.
    exact (lstrip_first_char s c H).
  - intros c. apply rstrip_last_char.
Qed.

Lemma lower_char_mixed (c d : ascii) :
  (97 <=? nat_of_ascii c)%nat && (nat_of_ascii c <=? 122)%nat = true ->
  Ascii.eqb d c || Ascii.eqb d (upper_char c) = true ->
  lower_char d = c.
Proof.
  intros Hc Hd.
  apply andb_true_iff in Hc as [Hlo Hhi].
  apply Nat.leb_le in Hlo. apply Nat.leb_le in Hhi.
  apply orb_true_iff in Hd as [Hd | Hd]; apply Ascii.eqb_eq in Hd; subst d.
  - unfold lower_char.
    replace ((65 <=? nat_of_ascii c) && (nat_of_ascii c <=? 90))%nat
      with false
      by (symmetry; apply andb_false_iff; right; apply Nat.leb_gt; lia).
    replace ((192 <=? nat_of_ascii c))%nat with false
      by (symmetry; apply Nat.leb_gt; lia).
    reflexivity.
  - unfold upper_char.
    replace ((97 <=? nat_of_ascii c) && (nat_of_ascii c <=? 122))%nat
      with true
      by (symmetry; apply andb_true_iff; split; apply Nat.leb_le; lia).
    unfold lower_char. rewrite nat_ascii_embedding by lia.
    replace ((65 <=? nat_of_ascii c - 32) && (nat_of_ascii c - 32 <=? 90))%nat
      with true
      by (symmetry; apply andb_true_iff; split; apply Nat.leb_le; lia).
    cbn [orb].
    replace (nat_of_ascii c - 32 + 32) with (nat_of_ascii c) by lia.
    apply ascii_nat_embedding.
Qed.

(** Every spelling of exit and of quit, in any mixture of cases, lowers to
    the word. *)
Lemma mixed_case_exit_quit (line : string) :
  mixed_case "exit" line = true \/ mixed_case "quit" line = true ->
  lower line = "exit" \/ lower line = "quit".
Proof.
  intros [H | H]; [left | right];
    destruct line as [|c1 [|c2 [|c3 [|c4 [|c5 line]]]]];
    try discriminate H; cbn [mixed_case] in H;
    repeat (apply andb_true_iff in H as [? H]);
    try discriminate H;
    cbn [lower]; repeat f_equal;
    apply lower_char_mixed; (reflexivity || assumption).
Qed.

Lemma str_in_exit_quit (s : string) :
  s = "exit" \/ s = "quit" -> str_in s ["exit"; "quit"] = true.
Proof. intros [-> | ->]; reflexivity. Qed.

End StripFacts.

(** ** The monad *)

Section Laws.

Context {World : Type}.

Implicit Types (m : Machine World) (es : list Event).

Lemma log_nil m : log [] m = m.
Proof. destruct m. unfold log. simpl. rewrite app_nil_r. reflexivity. Qed.

Lemma log_log es1 es2 m : log es2 (log es1 m) = log (es1 ++ es2) m.
Proof. unfold log. simpl. rewrite <- app_assoc. reflexivity. Qed.

Lemma bind_returns {A B : Type} (c : M World A) (k : A -> M World B) m m' a :
  c m = (m', Returns a) -> bind c k m = k a m'.
Proof. intros H. unfold bind. rewrite H. reflexivity. Qed.

Lemma for_each_print {A : Type} (f : A -> string) (xs : list A) m :
  for_each xs (fun x => print (f x)) m
  = (log (map (fun x => Print (f x)) xs) m, Returns tt).
Proof.
  revert m. induction xs as [|x xs IH]; intros m; simpl.
  - unfold ret. rewrite log_nil. reflexivity.
  - unfold bind, print. rewrite IH, log_log. reflexivity.
Qed.

Lemma emits_ret P {A : Type} (a : A) : emits P (@ret World A a).
Proof. intros m. exists []. simpl. rewrite app_nil_r. auto. Qed.

Lemma emits_raise P {A : Type} (e : PyExn) : emits P (@raise World A e).
Proof. intros m. exists []. simpl. rewrite app_nil_r. auto. Qed.

Lemma emits_bind P {A B : Type} (c : M World A) (k : A -> M World B) :
  emits P c -> (forall a, emits P (k a)) -> emits P (bind c k).
Proof.
  intros Hc Hk m. unfold bind.
  destruct (Hc m) as [es1 [Ht1 [Hh1 HP1]]].
  destruct (c m) as [m1 [a|e]]; simpl in *.
  - destruct (Hk a m1) as [es2 [Ht2 [Hh2 HP2]]].
    exists (es1 ++ es2). rewrite Ht2, Ht1, Hh2, Hh1, app_assoc.
    split; [reflexivity | split; [reflexivity | apply Forall_app; auto]].
  - exists es1. auto.
Qed.

Lemma emits_try P {A : Type} (c : M World A)
    (handler : PyExn -> option (M World A)) :
  emits P c ->
  (forall e k, handler e = Some k -> emits P k) ->
  emits P (try_except c handler).
Proof.
  intros Hc Hh m. unfold try_except.
  destruct (Hc m) as [es1 [Ht1 [Hh1 HP1]]].
  destruct (c m) as [m1 [a|e]]; simpl in *.
  - exists es1. auto.
  - destruct (handler e) as [k|] eqn:Hk; simpl.
    + destruct (Hh e k Hk m1) as [es2 [Ht2 [Hh2 HP2]]].
      exists (es1 ++ es2). rewrite Ht2, Ht1, Hh2, Hh1, app_assoc.
      split; [reflexivity | split; [reflexivity | apply Forall_app; auto]].
    + exists es1. auto.
Qed.

Lemma emits_weaken (P Q : Event -> Prop) {A : Type} (c : M World A) :
  (forall e, P e -> Q e) -> emits P c -> emits Q c.
Proof.
  intros HPQ Hc m. destruct (Hc m) as [es [Ht [Hh HP]]].
  exists es. split; [exact Ht | split; [exact Hh |]].
  eapply Forall_impl; eauto.
Qed.

Lemma emits_print (P : Event -> Prop) (text : string) :
  P (Print text) -> emits P (@print World text).
Proof. intros H m. exists [Print text]. simpl. auto. Qed.

Lemma emits_input (P : Event -> Prop) (prompt : string) (line : option string) :
  P (Input prompt line) -> emits P (@input World prompt line).
Proof. intros H m. exists [Input prompt line]. simpl. auto. Qed.

Lemma emits_state_of P (s : option Session.t) : emits P (@state_of World s).
Proof. destruct s; [apply emits_ret | apply emits_raise]. Qed.

Lemma emits_id_of P (s : option Session.t) : emits P (@id_of World s).
Proof. destruct s; [apply emits_ret | apply emits_raise]. Qed.

Lemma emits_for_each P {A : Type} (xs : list A) (body : A -> M World unit) :
  (forall x, emits P (body x)) -> emits P (for_each xs body).
Proof.
  intros Hb. induction xs as [|x xs IH]; simpl.
  - apply emits_ret.
  - apply emits_bind; [apply Hb | intros _; exact IH].
Qed.

End Laws.

(** ** The parts of [main_async] *)

Section ProgramFacts.

Context {World : Type} (E : Environment World).

Implicit Types (m : Machine World) (es : list Event) (P : Event -> Prop).

Lemma emits_call_get_session P a u s :
  (forall r, P (GetSession a u s r)) -> emits P (call_get_session E a u s).
Proof.
  intros H m. unfold call_get_session.
  destruct (get_session E (world m) a u s) as [w r].
  exists [GetSession a u s r]. simpl. auto.
Qed.

Lemma emits_call_Runner P a :
  (forall r, P (NewRunner a r)) -> emits P (call_Runner E a).
Proof.
  intros H m. unfold call_Runner.
  destruct (Runner E (world m) a) as [w r].
  exists [NewRunner a r]. simpl. auto.
Qed.

Lemma emits_call_add_user_query_to_history P a u s q :
  (forall r, P (AddUserQueryToHistory a u s q r)) ->
  emits P (call_add_user_query_to_history E a u s q).
Proof.
  intros H m. unfold call_add_user_query_to_history.
  destruct (add_user_query_to_history E (world m) a u s q) as [w r].
  exists [AddUserQueryToHistory a u s q r]. simpl. auto.
Qed.

Lemma emits_call_call_agent_async P u s q :
  (forall r, P (CallAgent u s q r)) -> emits P (call_call_agent_async E u s q).
Proof.
  intros H m. unfold call_call_agent_async.
  destruct (call_agent_async E (world m) u s q) as [w r].
  exists [CallAgent u s q r]. simpl. auto.
Qed.

(** Unfolds the primitive steps and brings the trace to the shape
    [t ++ events]. *)
Ltac machine_simpl :=
  unfold print, input, ret, raise, state_of, id_of;
  unfold log, set_world, set_heap;
  cbn; rewrite <- ?app_assoc; cbn.

(** One step of a proof that a part of the program only emits events of a
    given kind. *)
Ltac emits_side := intros; first [reflexivity | exact I].

Ltac emits_step :=
  first
    [ apply emits_ret
    | apply emits_raise
    | apply emits_print; emits_side
    | apply emits_input; emits_side
    | apply emits_state_of
    | apply emits_id_of
    | apply emits_call_get_session; emits_side
    | apply emits_call_Runner; emits_side
    | apply emits_call_add_user_query_to_history; emits_side
    | apply emits_call_call_agent_async; emits_side
    | apply emits_for_each; intros ?
    | apply emits_bind; [| intros ?]
    | apply emits_try;
      [| let e := fresh "e" in
         let k := fresh "k" in
         let H := fresh "H" in
         intros e k H;
         destruct (is_session_not_found e); inversion H; subst; clear H ] ].

(** The refresh looks the session up and prints; it creates nothing. *)
Lemma refresh_session_emits USER_ID active_session_id :
  emits (fun e => is_lookup_or_print e = true)
        (refresh_session E USER_ID active_session_id).
Proof. unfold refresh_session. repeat emits_step. Qed.

(** PART 6 looks the session up and prints. *)
Lemma state_examination_emits USER_ID current_session :
  emits (fun e => is_lookup_or_print e = true)
        (state_examination E USER_ID current_session).
Proof.
  unfold state_examination. destruct current_session; repeat emits_step.
Qed.

(** What follows the prompt in one iteration, given what the rest of the
    loop does ([IH]). *)
Ltac loop_turn_emits IH :=
  match goal with |- context [if ?b then _ else _] => destruct b end;
  [ repeat emits_step
  | apply emits_bind; [emits_step | intros _];
    apply emits_bind; [emits_step | intros _];
    apply emits_bind;
    [ eapply emits_weaken; [| apply refresh_session_emits];
      intros [] H; simpl in *; congruence
    | let refreshed := fresh "refreshed" in
      intros refreshed;
      destruct refreshed as [[?|]|]; [apply IH | repeat emits_step ..] ] ].

(** The conversation loop never creates a session. *)
Lemma conversation_loop_emits USER_ID current_session stdin :
  emits (fun e => is_creation e = false)
        (conversation_loop E USER_ID current_session stdin).
Proof.
  revert current_session.
  induction stdin as [|line stdin IH]; intros current_session; simpl.
  - repeat emits_step.
  - apply emits_bind; [emits_step | intros user_input].
    loop_turn_emits IH.
Qed.

Lemma after_setup_emits USER_ID current_session stdin :
  emits (fun e => is_creation e = false)
        (after_setup E USER_ID current_session stdin).
Proof.
  unfold after_setup. destruct current_session as [s|]; [| repeat emits_step].
  do 3 (apply emits_bind; [emits_step | intros _]).
  apply emits_bind; [apply conversation_loop_emits | intros s'].
  eapply emits_weaken; [| apply state_examination_emits].
  intros [] H; simpl in *; congruence.
Qed.

(** Lines 29-34 read one line, say so when they fall back on Guest, and
    give the user name. *)
Lemma read_user_name_eq name m :
  read_user_name (Some name) m
  = (log (name_prompt name) m, Returns (current_user_name name)).
Proof.
  unfold read_user_name, current_user_name, name_prompt, bind, input.
  simpl. rewrite <- strip_is_empty.
  destruct (PyStr.is_empty (PyStr.strip name)); simpl.
  - unfold print. rewrite log_log. reflexivity.
  - reflexivity.
Qed.

Lemma run_unfold w name lines :
  run E w (name :: lines)
  = bind (session_setup E (current_user_name name))
         (fun setup => after_setup E (fst setup) (snd setup) lines)
         (log (name_prompt name) (boot w)).
Proof.
  unfold run, main_async. simpl head.
  rewrite (bind_returns _ _ _ _ _ (read_user_name_eq name (boot w))).
  unfold bind. simpl tail.
  destruct (session_setup E (current_user_name name)
              (log (name_prompt name) (boot w))) as [m' [[U cs]|e]];
    reflexivity.
Qed.

(** The copy of the template, renamed, is what [create_session] gets; the
    template itself stays as the module built it. *)
Lemma create_for_boot USER_ID SESSION_ID m :
  heap m = module_heap ->
  exists h',
    template_intact h'
    /\ create_for E USER_ID SESSION_ID m
       = let (w, r) := create_session E (world m) APP_NAME USER_ID SESSION_ID
                                      (seeded_state USER_ID) in
         ({| world := w; heap := h';
             trace := trace m ++ [CreateSession APP_NAME USER_ID SESSION_ID
                                                (seeded_state USER_ID) r] |},
          r).
Proof.
  intros Hh. destruct m as [w h t]. simpl in Hh. subst h.
  exists (module_heap
          ++ [ODict [("user_name", VStr USER_ID);
                     ("purchased_courses", VRef 0);
                     ("interaction_history", VRef 1)]]).
  split; [reflexivity|].
  unfold create_for, bind, dict_copy, dict_setitem, call_create_session.
  cbn.
  destruct (create_session E w APP_NAME USER_ID SESSION_ID
              (seeded_state USER_ID)) as [w' r] eqn:Hc.
  unfold seeded_state in Hc. rewrite Hc. destruct r; reflexivity.
Qed.

Lemma grows_of_emits P {A : Type} (c : M World A) : emits P c -> grows c.
Proof.
  intros Hc m. destruct (Hc m) as [es [Ht [Hh _]]].
  split; [exists es; exact Ht | rewrite Hh; auto].
Qed.

Lemma grows_bind {A B : Type} (c : M World A) (k : A -> M World B) :
  grows c -> (forall a, grows (k a)) -> grows (bind c k).
Proof.
  intros Hc Hk m. unfold bind.
  destruct (Hc m) as [[es1 Ht1] Hi1].
  destruct (c m) as [m1 [a|e]]; simpl in *.
  - destruct (Hk a m1) as [[es2 Ht2] Hi2]. split.
    + exists (es1 ++ es2). rewrite Ht2, Ht1, app_assoc. reflexivity.
    + auto.
  - split; [exists es1; exact Ht1 | exact Hi1].
Qed.

Lemma grows_try {A : Type} (c : M World A)
    (handler : PyExn -> option (M World A)) :
  grows c ->
  (forall e k, handler e = Some k -> grows k) ->
  grows (try_except c handler).
Proof.
  intros Hc Hh m. unfold try_except.
  destruct (Hc m) as [[es1 Ht1] Hi1].
  destruct (c m) as [m1 [a|e]]; simpl in *.
  - split; [exists es1; exact Ht1 | exact Hi1].
  - destruct (handler e) as [k|] eqn:Hk; simpl.
    + destruct (Hh e k Hk m1) as [[es2 Ht2] Hi2]. split.
      * exists (es1 ++ es2). rewrite Ht2, Ht1, app_assoc. reflexivity.
      * auto.
    + split; [exists es1; exact Ht1 | exact Hi1].
Qed.

(** The copy is a new object, and the assignment goes to the copy. *)
Lemma grows_create_for USER_ID SESSION_ID :
  grows (create_for E USER_ID SESSION_ID).
Proof.
  intros m. unfold create_for, bind, dict_copy.
  destruct (heap m !! initial_state_template) as [[items|xs]|] eqn:Hl;
    simpl; try (split; [exists []; rewrite app_nil_r; reflexivity | auto]).
  unfold dict_setitem. cbn [heap set_heap].
  rewrite (list_lookup_middle (heap m) [] (ODict items) (length (heap m)) eq_refl).
  unfold call_create_session. cbn [heap set_heap world].
  match goal with
  | |- context [create_session E ?w ?a ?u ?i ?st] =>
      destruct (create_session E w a u i st) as [w' r]
  end.
  cbn [fst trace heap log set_world]. split.
  - eexists. reflexivity.
  - unfold template_intact. intros Hi.
    pose proof (lookup_lt_Some _ _ _ Hl) as Hlt.
    cbn [heap set_heap]. rewrite list_lookup_insert_ne by lia.
    rewrite lookup_app_l by exact Hlt. exact Hi.
Qed.

Lemma emits_call_generate_id P :
  (forall r, P (GenerateId r)) -> emits P (call_generate_id E).
Proof.
  intros H m. unfold call_generate_id.
  destruct (_generate_id E (world m)) as [w r].
  exists [GenerateId r]. simpl. auto.
Qed.

Lemma emits_call_random_choices P population k :
  (forall s, P (RandomChoices population k s)) ->
  emits P (call_random_choices E population k).
Proof.
  intros H m. unfold call_random_choices.
  destruct (random_choices E (world m) population k) as [w r].
  exists [RandomChoices population k r]. simpl. auto.
Qed.

(** Lines 73-78 create no session. *)
Lemma error_id_suffix_emits :
  emits (fun e => is_creation e = false) (error_id_suffix E).
Proof.
  unfold error_id_suffix. apply emits_try.
  - apply emits_call_generate_id. reflexivity.
  - intros e k H. destruct (is_attribute_error e); inversion H; subst.
    apply emits_call_random_choices. reflexivity.
Qed.

Ltac grows_step :=
  first
    [ apply grows_create_for
    | eapply grows_of_emits; apply error_id_suffix_emits
    | apply grows_bind; [| intros ?]
    | apply grows_try;
      [| let e := fresh "e" in
         let k := fresh "k" in
         let H := fresh "H" in
         intros e k H;
         destruct (is_session_not_found e); inversion H; subst; clear H ]
    | apply (grows_of_emits (fun _ => True)); solve [repeat emits_step] ].

Lemma grows_session_setup USER_ID : grows (session_setup E USER_ID).
Proof. unfold session_setup. repeat grows_step. Qed.

Lemma grows_main_async stdin : grows (main_async E stdin).
Proof.
  unfold main_async. apply grows_bind.
  - unfold read_user_name. eapply grows_of_emits.
    apply (emits_bind (fun _ => True)); [apply emits_input; exact I |].
    intros s. destruct (PyStr.is_empty (PyStr.strip s)).
    + apply emits_bind; [apply emits_print; exact I | intros _; apply emits_ret].
    + apply emits_ret.
  - intros n. apply grows_bind; [apply grows_session_setup |].
    intros [U cs]. eapply grows_of_emits. apply after_setup_emits.
Qed.

(** PART 3 when the lookup finds the session. *)
Lemma session_setup_found USER_ID m w1 s :
  get_session E (world m) APP_NAME USER_ID (session_id_for USER_ID)
  = (w1, Returns (Some s)) ->
  session_setup E USER_ID m
  = (log [ GetSession APP_NAME USER_ID (session_id_for USER_ID)
                      (Returns (Some s));
           Print ("Welcome back, " ++ displayed_name E USER_ID s
                  ++ "! Loaded existing session: " ++ Session.id s) ]
         (set_world w1 m),
     Returns (USER_ID, Some s)).
Proof.
  intros Hg.
  unfold session_setup, try_except, bind, call_get_session. rewrite Hg.
  unfold displayed_name, dict_get_default. machine_simpl.
  destruct (dict_get (Session.state s) "user_name"); reflexivity.
Qed.

(** PART 3 when the lookup raises [SessionNotFoundError]. *)
Lemma session_setup_not_found USER_ID m w1 e :
  heap m = module_heap ->
  get_session E (world m) APP_NAME USER_ID (session_id_for USER_ID)
  = (w1, Raises e) ->
  is_session_not_found e = true ->
  exists h',
    template_intact h'
    /\ session_setup E USER_ID m
       = let (w2, r) := create_session E w1 APP_NAME USER_ID
                          (session_id_for USER_ID) (seeded_state USER_ID) in
         let t := trace m
                  ++ [ GetSession APP_NAME USER_ID (session_id_for USER_ID)
                                  (Raises e);
                       Print ("Welcome, " ++ USER_ID
                              ++ "! Creating new session...");
                       CreateSession APP_NAME USER_ID (session_id_for USER_ID)
                                     (seeded_state USER_ID) r ] in
         match r with
         | Returns s =>
             ({| world := w2; heap := h';
                 trace := t ++ [Print ("New session created: "
                                       ++ Session.id s)] |},
              Returns (USER_ID, Some s))
         | Raises e' => ({| world := w2; heap := h'; trace := t |}, Raises e')
         end.
Proof.
  intros Hh Hg He. destruct m as [w h t]. simpl in Hh, Hg. subst h.
  exists (module_heap
          ++ [ODict [("user_name", VStr USER_ID);
                     ("purchased_courses", VRef 0);
                     ("interaction_history", VRef 1)]]).
  split; [reflexivity|].
  unfold session_setup, try_except, bind at 1, call_get_session.
  cbn [world]. rewrite Hg. cbn [fst snd]. rewrite He.
  unfold create_for, bind, dict_copy, dict_setitem, call_create_session.
  machine_simpl.
  destruct (create_session E w1 APP_NAME USER_ID (session_id_for USER_ID)
              (seeded_state USER_ID)) as [w2 r] eqn:Hc.
  unfold seeded_state in Hc. rewrite Hc.
  destruct r; cbn; rewrite <- ?app_assoc; reflexivity.
Qed.

(** Lines 73-78: the suffix comes from [_generate_id], and from the random
    generator when the service has no such method. *)
Lemma error_id_suffix_eq m :
  error_id_suffix E m
  = match _generate_id E (world m) with
    | (w2, Returns suffix) =>
        (log [GenerateId (Returns suffix)] (set_world w2 m), Returns suffix)
    | (w2, Raises e) =>
        if is_attribute_error e
        then let (w3, suffix) :=
               random_choices E w2 (ascii_lowercase ++ digits) 6 in
             (log [ GenerateId (Raises e);
                    RandomChoices (ascii_lowercase ++ digits) 6 suffix ]
                  (set_world w3 m),
              Returns suffix)
        else (log [GenerateId (Raises e)] (set_world w2 m), Raises e)
    end.
Proof.
  unfold error_id_suffix, try_except, call_generate_id, call_random_choices.
  destruct (_generate_id E (world m)) as [w2 [suffix|e]]; [reflexivity|].
  destruct (is_attribute_error e); [| reflexivity].
  cbn [world set_world log].
  destruct (random_choices E w2 (ascii_lowercase ++ digits) 6) as [w3 suffix].
  machine_simpl. reflexivity.
Qed.

(** PART 3 when the lookup raises something else and a suffix comes out. *)
Lemma session_setup_fallback USER_ID m w1 e m2 suffix :
  heap m = module_heap ->
  get_session E (world m) APP_NAME USER_ID (session_id_for USER_ID)
  = (w1, Raises e) ->
  is_session_not_found e = false ->
  error_id_suffix E
    (log [ GetSession APP_NAME USER_ID (session_id_for USER_ID) (Raises e);
           Print ("An unexpected error occurred during session handling: "
                  ++ exn_text e);
           Print "Proceeding with a temporary guest session due to error." ]
         (set_world w1 m))
  = (m2, Returns suffix) ->
  exists h',
    template_intact h'
    /\ session_setup E USER_ID m
       = let guest := ("Guest_Error_" ++ suffix)%string in
         let (w3, r) := create_session E (world m2) APP_NAME guest
                          (session_id_for guest) (seeded_state guest) in
         let t := trace m2
                  ++ [ CreateSession APP_NAME guest (session_id_for guest)
                                     (seeded_state guest) r ] in
         match r with
         | Returns s =>
             ({| world := w3; heap := h';
                 trace := t ++ [Print ("Error fallback session created: "
                                       ++ Session.id s)] |},
              Returns (guest, Some s))
         | Raises e' => ({| world := w3; heap := h'; trace := t |}, Raises e')
         end.
Proof.
  intros Hh Hg He Hs.
  assert (Hh2 : heap m2 = module_heap).
  { destruct (error_id_suffix_emits
                (log [ GetSession APP_NAME USER_ID (session_id_for USER_ID)
                                  (Raises e);
                       Print ("An unexpected error occurred during session handling: "
                              ++ exn_text e);
                       Print "Proceeding with a temporary guest session due to error." ]
                     (set_world w1 m))) as [es [_ [H _]]].
    rewrite Hs in H. simpl in H. rewrite H. exact Hh. }
  destruct (create_for_boot ("Guest_Error_" ++ suffix)
              (session_id_for ("Guest_Error_" ++ suffix)) m2 Hh2)
    as [h' [Hi Hc]].
  exists h'. split; [exact Hi|].
  unfold session_setup, try_except, bind at 1, call_get_session.
  rewrite Hg. cbn [fst snd]. rewrite He.
  unfold bind at 1. unfold print at 1. cbn [fst snd].
  unfold bind at 1. unfold print at 1. cbn [fst snd].
  rewrite !log_log. cbn [app].
  unfold bind at 1. rewrite Hs.
  unfold bind at 1. rewrite Hc.
  destruct (create_session E (world m2) APP_NAME ("Guest_Error_" ++ suffix)
              (session_id_for ("Guest_Error_" ++ suffix))
              (seeded_state ("Guest_Error_" ++ suffix))) as [w3 [s|e']].
  - machine_simpl. reflexivity.
  - reflexivity.
Qed.

(** Whatever the service answers, PART 3 begins with the lookup under the
    session id made from the user id. *)
Lemma session_setup_trace USER_ID m :
  exists r es,
    trace (fst (session_setup E USER_ID m))
    = trace m ++ GetSession APP_NAME USER_ID (session_id_for USER_ID) r :: es.
Proof.
  pose proof (grows_session_setup USER_ID) as Hgrow.
  unfold session_setup in *.
  match goal with
  | |- context [try_except (bind ?c0 ?K) ?H] =>
      assert (HK : forall a, grows (K a)) by (intros a; repeat grows_step);
      assert (HH : forall e k, H e = Some k -> grows k)
        by (intros e k Hk; destruct (is_session_not_found e);
            inversion Hk; subst; repeat grows_step);
      set (body := K) in *; set (handler := H) in *
  end.
  unfold try_except, bind, call_get_session.
  destruct (get_session E (world m) APP_NAME USER_ID (session_id_for USER_ID))
    as [w1 r].
  exists r.
  set (m1 := log [GetSession APP_NAME USER_ID (session_id_for USER_ID) r]
                 (set_world w1 m)).
  destruct r as [a|e].
  - destruct (HK a m1) as [[es1 Ht1] _].
    destruct (body a m1) as [m2 [x|e]]; simpl in *.
    + exists es1. rewrite Ht1, <- app_assoc. reflexivity.
    + destruct (handler e) as [k|] eqn:Hk; simpl.
      * destruct (HH e k Hk m2) as [[es2 Ht2] _].
        exists (es1 ++ es2). rewrite Ht2, Ht1, <- !app_assoc. reflexivity.
      * exists es1. rewrite Ht1, <- app_assoc. reflexivity.
  - destruct (handler e) as [k|] eqn:Hk; simpl.
    + destruct (HH e k Hk m1) as [[es2 Ht2] _].
      exists es2. rewrite Ht2. simpl. rewrite <- app_assoc. reflexivity.
    + exists []. reflexivity.
Qed.

(** One run begins with the name prompt and the lookup. *)
Lemma run_trace_lookup w name lines :
  exists r es,
    trace (fst (run E w (name :: lines)))
    = name_prompt name
      ++ GetSession APP_NAME (current_user_name name)
                    (session_id_for (current_user_name name)) r :: es.
Proof.
  rewrite run_unfold.
  destruct (session_setup_trace (current_user_name name)
              (log (name_prompt name) (boot w))) as [r [es1 Ht1]].
  exists r. unfold bind.
  destruct (session_setup E (current_user_name name)
              (log (name_prompt name) (boot w))) as [m1 [[U cs]|e]];
    simpl in Ht1 |- *.
  - destruct (after_setup_emits U cs lines m1) as [es2 [Ht2 _]].
    exists (es1 ++ es2). rewrite Ht2, Ht1. cbn [app].
    rewrite <- app_assoc. reflexivity.
  - exists es1. exact Ht1.
Qed.

Lemma first_lookup_name_prompt name a u i r es :
  first_lookup (name_prompt name ++ GetSession a u i r :: es) = Some (a, u, i).
Proof.
  unfold name_prompt. destruct (PyStr.all_space name); reflexivity.
Qed.

(** With a session in hand the program goes on to build the runner. *)
Lemma after_setup_trace USER_ID s stdin m :
  exists r es,
    trace (fst (after_setup E USER_ID (Some s) stdin m))
    = trace m ++ NewRunner APP_NAME r :: es
    /\ Forall (fun ev => is_creation ev = false) es.
Proof.
  unfold after_setup, bind at 1, call_Runner.
  destruct (Runner E (world m) APP_NAME) as [w1 r].
  exists r.
  set (m1 := log [NewRunner APP_NAME r] (set_world w1 m)).
  assert (Hm1 : trace m1 = trace m ++ [NewRunner APP_NAME r]) by reflexivity.
  destruct r as [[]|e].
  - match goal with
    | |- exists es, trace (fst (?k m1)) = _ /\ _ =>
        assert (Hk : emits (fun ev => is_creation ev = false) k)
    end.
    { do 2 (apply emits_bind; [emits_step | intros _]).
      apply emits_bind; [apply conversation_loop_emits | intros s'].
      eapply emits_weaken; [| apply state_examination_emits].
      intros [] H; simpl in *; congruence. }
    destruct (Hk m1) as [es [Ht' [_ HP']]].
    exists es. split; [| exact HP'].
    rewrite Ht', Hm1, <- app_assoc. reflexivity.
  - exists []. split; [exact Hm1 | constructor].
Qed.

(** One run when the first lookup raises [SessionNotFoundError]. *)
Lemma run_not_found w w1 name lines e :
  get_session E w APP_NAME (current_user_name name)
              (session_id_for (current_user_name name)) = (w1, Raises e) ->
  is_session_not_found e = true ->
  exists w2 r es,
    create_session E w1 APP_NAME (current_user_name name)
                   (session_id_for (current_user_name name))
                   (seeded_state (current_user_name name)) = (w2, r)
    /\ trace (fst (run E w (name :: lines)))
       = name_prompt name
         ++ [ GetSession APP_NAME (current_user_name name)
                         (session_id_for (current_user_name name)) (Raises e);
              Print ("Welcome, " ++ current_user_name name
                     ++ "! Creating new session...");
              CreateSession APP_NAME (current_user_name name)
                            (session_id_for (current_user_name name))
                            (seeded_state (current_user_name name)) r ]
         ++ es
    /\ Forall (fun ev => is_creation ev = false) es
    /\ (forall s, r = Returns s ->
          snd (session_setup E (current_user_name name)
                 (log (name_prompt name) (boot w)))
          = Returns (current_user_name name, Some s)
          /\ exists r' es',
               es = Print ("New session created: " ++ Session.id s)
                    :: NewRunner APP_NAME r' :: es').
Proof.
  intros Hg He. rewrite run_unfold.
  set (USER_ID := current_user_name name).
  set (m0 := log (name_prompt name) (boot w)).
  destruct (session_setup_not_found USER_ID m0 w1 e eq_refl Hg He)
    as [h' [_ Hs]].
  destruct (create_session E w1 APP_NAME USER_ID (session_id_for USER_ID)
              (seeded_state USER_ID)) as [w2 r].
  exists w2, r. unfold bind. rewrite Hs. clear Hs.
  destruct r as [s|e'].
  - cbn [fst snd].
    match goal with
    | |- context [after_setup E USER_ID (Some s) lines ?m] =>
        destruct (after_setup_trace USER_ID s lines m) as [r' [es' [Ht HP]]];
        rewrite Ht
    end.
    exists (Print ("New session created: " ++ Session.id s)
            :: NewRunner APP_NAME r' :: es').
    split; [reflexivity|]. split; [| split].
    + cbn [trace m0 log boot app]. rewrite <- !app_assoc. reflexivity.
    + constructor; [reflexivity|]. constructor; [reflexivity | exact HP].
    + intros s0 [= <-]. split; [reflexivity | eauto].
  - exists []. split; [reflexivity|]. split; [| split].
    + cbn [fst trace m0 log boot app]. rewrite ?app_nil_r. reflexivity.
    + constructor.
    + intros s0 [=].
Qed.

Lemma fmt_user_name USER_ID s :
  fmt E (dict_get_default (Session.state s) "user_name" (DStr USER_ID))
  = displayed_name E USER_ID s.
Proof.
  unfold displayed_name, dict_get_default.
  destruct (dict_get (Session.state s) "user_name"); reflexivity.
Qed.

(** One run when the first lookup finds the session. *)
Lemma run_found w w1 name lines s :
  get_session E w APP_NAME (current_user_name name)
              (session_id_for (current_user_name name))
  = (w1, Returns (Some s)) ->
  exists es,
    trace (fst (run E w (name :: lines)))
    = name_prompt name
      ++ [ GetSession APP_NAME (current_user_name name)
                      (session_id_for (current_user_name name))
                      (Returns (Some s));
           Print ("Welcome back, "
                  ++ displayed_name E (current_user_name name) s
                  ++ "! Loaded existing session: " ++ Session.id s) ]
      ++ es
    /\ Forall (fun ev => is_creation ev = false) es.
Proof.
  intros Hg. rewrite run_unfold. unfold bind.
  rewrite (session_setup_found (current_user_name name)
             (log (name_prompt name) (boot w)) w1 s Hg).
  cbn [fst snd].
  match goal with
  | |- context [after_setup E ?U (Some s) lines ?m] =>
      destruct (after_setup_emits U (Some s) lines m) as [es [Ht [_ HP]]]
  end.
  exists es. split; [| exact HP].
  rewrite Ht. cbn [trace log set_world boot app].
  rewrite <- !app_assoc. reflexivity.
Qed.

(** An iteration that reads exit or quit. *)
Lemma conversation_loop_exit USER_ID current_session line rest m :
  PyStr.str_in (PyStr.lower line) ["exit"; "quit"] = true ->
  conversation_loop E USER_ID current_session (line :: rest) m
  = (log [ Input (displayed_name E USER_ID current_session ++ ": ")
                 (Some line);
           Print "Ending conversation. Goodbye!" ] m,
     Returns (Some current_session)).
Proof.
  intros Hx. cbn [conversation_loop]. rewrite fmt_user_name.
  unfold bind at 1. unfold input at 1. cbn [fst snd].
  rewrite Hx. machine_simpl. reflexivity.
Qed.

(** An iteration whose two calls return and whose refresh raises. *)
Lemma conversation_loop_refresh_raises USER_ID current_session line rest m
    w1 w2 w3 e :
  PyStr.str_in (PyStr.lower line) ["exit"; "quit"] = false ->
  add_user_query_to_history E (world m) APP_NAME USER_ID
    (Session.id current_session) line = (w1, Returns tt) ->
  call_agent_async E w1 USER_ID (Session.id current_session) line
  = (w2, Returns tt) ->
  get_session E w2 APP_NAME USER_ID (Session.id current_session)
  = (w3, Raises e) ->
  conversation_loop E USER_ID current_session (line :: rest) m
  = ({| world := w3; heap := heap m;
        trace :=
          trace m
          ++ [ Input (displayed_name E USER_ID current_session ++ ": ")
                     (Some line);
               AddUserQueryToHistory APP_NAME USER_ID
                 (Session.id current_session) line (Returns tt);
               CallAgent USER_ID (Session.id current_session) line
                         (Returns tt);
               GetSession APP_NAME USER_ID (Session.id current_session)
                          (Raises e);
               Print (if is_session_not_found e
                      then "Error: Session lost during interaction. Exiting."
                      else "Error refreshing session state: " ++ exn_text e
                           ++ ". Exiting.") ] |},
     Returns (Some current_session)).
Proof.
  intros Hx Ha Hc Hg. cbn [conversation_loop]. rewrite fmt_user_name.
  unfold bind at 1. unfold input at 1. cbn [fst snd]. rewrite Hx.
  unfold bind at 1. unfold call_add_user_query_to_history.
  cbn [world log]. rewrite Ha.
  unfold bind at 1. unfold call_call_agent_async.
  cbn [world log set_world]. rewrite Hc.
  unfold bind at 1. unfold refresh_session, try_except, bind at 1.
  unfold call_get_session. cbn [world log set_world]. rewrite Hg.
  cbn [fst snd].
  destruct (is_session_not_found e); machine_simpl; reflexivity.
Qed.

(** PART 6 when the final lookup returns a session. *)
Lemma state_examination_dump USER_ID current_session m w1 final_session :
  get_session E (world m) APP_NAME USER_ID (Session.id current_session)
  = (w1, Returns (Some final_session)) ->
  state_examination E USER_ID (Some current_session) m
  = (log ([ GetSession APP_NAME USER_ID (Session.id current_session)
                       (Returns (Some final_session));
            Print (PyStr.newline ++ "Final Session State:") ]
          ++ map (fun kv => Print (fst kv ++ ": " ++ fmt E (snd kv)))
                 (Session.state final_session))
         (set_world w1 m),
     Returns tt).
Proof.
  intros Hg. unfold state_examination, try_except, bind at 1.
  unfold call_get_session. rewrite Hg. cbn [fst snd].
  unfold bind at 1. unfold print at 1. cbn [fst snd].
  unfold bind at 1. unfold state_of, ret at 1. cbn [fst snd].
  rewrite (for_each_print (fun kv => (fst kv ++ ": " ++ fmt E (snd kv))%string)).
  rewrite !log_log. reflexivity.
Qed.

(** PART 6 when the final lookup raises. *)
Lemma state_examination_raises USER_ID current_session m w1 e :
  get_session E (world m) APP_NAME USER_ID (Session.id current_session)
  = (w1, Raises e) ->
  state_examination E USER_ID (Some current_session) m
  = (log [ GetSession APP_NAME USER_ID (Session.id current_session)
                      (Raises e);
           Print (if is_session_not_found e
                  then "Could not retrieve final session state for "
                       ++ Session.id current_session
                       ++ ". It might have been deleted or an error occurred."
                  else "Error retrieving final session state: "
                       ++ exn_text e) ]
         (set_world w1 m),
     Returns tt).
Proof.
  intros Hg. unfold state_examination, try_except, bind at 1.
  unfold call_get_session. rewrite Hg. cbn [fst snd].
  destruct (is_session_not_found e); machine_simpl; reflexivity.
Qed.

(** PART 6 when the final lookup returns [None]: the heading is out before
    the state is asked for. *)
Lemma state_examination_none USER_ID current_session m w1 :
  get_session E (world m) APP_NAME USER_ID (Session.id current_session)
  = (w1, Returns None) ->
  state_examination E USER_ID (Some current_session) m
  = (log [ GetSession APP_NAME USER_ID (Session.id current_session)
                      (Returns None);
           Print (PyStr.newline ++ "Final Session State:");
           Print "Error retrieving final session state: 'NoneType' object has no attribute 'state'" ]
         (set_world w1 m),
     Returns tt).
Proof.
  intros Hg. unfold state_examination, try_except, bind at 1.
  unfold call_get_session. rewrite Hg. cbn [fst snd].
  machine_simpl. reflexivity.
Qed.

(** From the end of the loop on, the program looks the session up and
    prints, and does nothing else. *)
Lemma loop_then_examination USER_ID (m m' : Machine World) current_session c :
  c m = (m', Returns current_session) ->
  exists es,
    trace (fst (bind c (state_examination E USER_ID) m)) = trace m' ++ es
    /\ Forall (fun ev => is_lookup_or_print ev = true) es.
Proof.
  intros Hc. rewrite (bind_returns _ _ _ _ _ Hc).
  destruct (state_examination_emits USER_ID current_session m')
    as [es [Ht [_ HP]]].
  exists es. split; assumption.
Qed.

(** One run when the first lookup raises something else than
    [SessionNotFoundError] and a suffix comes out, by [_generate_id] or by
    the random generator. *)
Lemma run_fallback w w1 w2 name lines e suffix :
  get_session E w APP_NAME (current_user_name name)
              (session_id_for (current_user_name name)) = (w1, Raises e) ->
  is_session_not_found e = false ->
  (_generate_id E w1 = (w2, Returns suffix)
   \/ exists w1' e',
        _generate_id E w1 = (w1', Raises e')
        /\ is_attribute_error e' = true
        /\ random_choices E w1' (ascii_lowercase ++ digits) 6 = (w2, suffix)) ->
  exists gen r es,
    trace (fst (run E w (name :: lines)))
    = name_prompt name
      ++ [ GetSession APP_NAME (current_user_name name)
                      (session_id_for (current_user_name name)) (Raises e);
           Print ("An unexpected error occurred during session handling: "
                  ++ exn_text e);
           Print "Proceeding with a temporary guest session due to error." ]
      ++ gen
      ++ [ CreateSession APP_NAME ("Guest_Error_" ++ suffix)
                         (session_id_for ("Guest_Error_" ++ suffix))
                         (seeded_state ("Guest_Error_" ++ suffix)) r ]
      ++ es
    /\ Forall (fun ev => is_creation ev = false) gen
    /\ Forall (fun ev => is_creation ev = false) es
    /\ (forall s, r = Returns s ->
          snd (session_setup E (current_user_name name)
                 (log (name_prompt name) (boot w)))
          = Returns (("Guest_Error_" ++ suffix)%string, Some s)).
Proof.
  intros Hg He Hgen. rewrite run_unfold.
  set (USER_ID := current_user_name name) in *.
  set (m0 := log (name_prompt name) (boot w)).
  set (m1 := log [ GetSession APP_NAME USER_ID (session_id_for USER_ID)
                              (Raises e);
                   Print ("An unexpected error occurred during session handling: "
                          ++ exn_text e);
                   Print "Proceeding with a temporary guest session due to error." ]
                 (set_world w1 m0)).
  assert (Hsuffix : exists gen,
             error_id_suffix E m1 = (log gen (set_world w2 m1), Returns suffix)
             /\ Forall (fun ev => is_creation ev = false) gen).
  { rewrite error_id_suffix_eq. cbn [world m1 log set_world].
    destruct Hgen as [H | [w1' [e' [H [Ha Hr]]]]]; rewrite H.
    - eexists. split; [reflexivity | repeat constructor].
    - rewrite Ha, Hr. eexists. split; [reflexivity | repeat constructor]. }
  destruct Hsuffix as [gen [Hs Hgen']].
  destruct (session_setup_fallback USER_ID m0 w1 e _ suffix eq_refl Hg He Hs)
    as [h' [_ Hsetup]].
  exists gen. unfold bind. rewrite Hsetup. clear Hsetup.
  cbn [world log set_world].
  destruct (create_session E w2 APP_NAME ("Guest_Error_" ++ suffix)
              (session_id_for ("Guest_Error_" ++ suffix))
              (seeded_state ("Guest_Error_" ++ suffix))) as [w3 [s|e']].
  - cbn [fst snd].
    match goal with
    | |- context [after_setup E ?U (Some s) lines ?m] =>
        destruct (after_setup_emits U (Some s) lines m) as [es [Ht [_ HP]]];
        rewrite Ht
    end.
    exists (Returns s),
           (Print ("Error fallback session created: " ++ Session.id s) :: es).
    split; [| split; [exact Hgen' | split]].
    + cbn [trace m1 m0 log set_world boot app]. rewrite <- !app_assoc.
      reflexivity.
    + constructor; [reflexivity | exact HP].
    + intros s0 [= <-]. reflexivity.
  - exists (Raises e'), []. split; [| split; [exact Hgen' | split]].
    + cbn [fst trace m1 m0 log set_world boot app]. rewrite <- !app_assoc.
      rewrite ?app_nil_r. reflexivity.
    + constructor.
    + intros s0 [=].
Qed.

(** The assignment of line 56 (and 83) lands in the copy, a new object;
    the template keeps the empty name. *)
Lemma create_for_copy USER_ID SESSION_ID m :
  template_intact (heap m) ->
  length (heap m) <> initial_state_template
  /\ (exists items,
        heap (fst (create_for E USER_ID SESSION_ID m)) !! length (heap m)
        = Some (ODict items)
        /\ dict_get items "user_name" = Some (VStr USER_ID))
  /\ (exists items,
        heap (fst (create_for E USER_ID SESSION_ID m))
        !! initial_state_template = Some (ODict items)
        /\ dict_get items "user_name" = Some (VStr ""))
  /\ (exists state r,
        trace (fst (create_for E USER_ID SESSION_ID m))
        = trace m ++ [CreateSession APP_NAME USER_ID SESSION_ID state r]
        /\ dict_get state "user_name" = Some (DStr USER_ID)).
Proof.
  intros Hi. unfold template_intact in Hi. cbn in Hi.
  pose proof (lookup_lt_Some _ _ _ Hi) as Hlt.
  unfold create_for, bind, dict_copy. rewrite Hi.
  unfold dict_setitem. cbn [heap set_heap].
  rewrite (list_lookup_middle (heap m) [] _ (length (heap m)) eq_refl).
  unfold call_create_session. cbn [heap set_heap world].
  match goal with
  | |- context [create_session E ?w ?a ?u ?i ?st] =>
      destruct (create_session E w a u i st) as [w' r] eqn:Hc
  end.
  cbn [fst trace heap log set_world set_heap].
  split; [lia | split; [| split]].
  - eexists. split.
    + apply list_lookup_insert_eq. rewrite length_app. simpl. lia.
    + reflexivity.
  - eexists. split.
    + rewrite list_lookup_insert_ne by lia.
      rewrite lookup_app_l by exact Hlt. exact Hi.
    + reflexivity.
  - eexists. exists r. split; [reflexivity|].
    unfold view_dict. rewrite list_lookup_insert_eq
      by (rewrite length_app; simpl; lia).
    reflexivity.
Qed.

Lemma gives_ret {A : Type} (P : A -> Prop) (a : A) :
  P a -> gives P (@ret World A a).
Proof. intros H m m' a' [= _ <-]. exact H. Qed.

Lemma gives_bind {A B : Type} (P : B -> Prop) (c : M World A)
    (k : A -> M World B) :
  (forall a, gives P (k a)) -> gives P (bind c k).
Proof.
  intros Hk m m' b. unfold bind.
  destruct (c m) as [m1 [a|e]]; [apply Hk | discriminate].
Qed.

Lemma gives_try {A : Type} (P : A -> Prop) (c : M World A)
    (handler : PyExn -> option (M World A)) :
  gives P c ->
  (forall e k, handler e = Some k -> gives P k) ->
  gives P (try_except c handler).
Proof.
  intros Hc Hh m m' a. unfold try_except.
  destruct (c m) as [m1 [a1|e]] eqn:Hcm.
  - intros [= <- <-]. exact (Hc _ _ _ Hcm).
  - destruct (handler e) as [k|] eqn:Hk; [| discriminate].
    apply (Hh e k Hk).
Qed.

(** PART 3 ends under the user id it was given, or under a guest id. *)
Lemma session_setup_user_id USER_ID :
  gives (fun setup : string * option Session.t =>
           fst setup = USER_ID
           \/ exists suffix, fst setup = ("Guest_Error_" ++ suffix)%string)
        (session_setup E USER_ID).
Proof.
  unfold session_setup. apply gives_try.
  - repeat (apply gives_bind; intros ?). apply gives_ret. left. reflexivity.
  - intros e k H. destruct (is_session_not_found e); inversion H; subst.
    + repeat (apply gives_bind; intros ?). apply gives_ret. left. reflexivity.
    + repeat (apply gives_bind; intros ?). apply gives_ret. right.
      eexists. reflexivity.
Qed.

(** Every iteration begins with the prompt for the current session. *)
Lemma conversation_loop_prompt USER_ID current_session stdin m :
  exists es,
    trace (fst (conversation_loop E USER_ID current_session stdin m))
    = trace m
      ++ Input (displayed_name E USER_ID current_session ++ ": ") (head stdin)
         :: es.
Proof.
  destruct stdin as [|line rest]; cbn [conversation_loop head];
    rewrite fmt_user_name; unfold bind at 1; unfold input at 1;
    cbn [fst snd].
  - exists []. reflexivity.
  - match goal with
    | |- exists es, trace (fst (?k ?m1)) = _ =>
        assert (Hk : emits (fun e => is_creation e = false) k)
    end.
    { loop_turn_emits (conversation_loop_emits USER_ID). }
    match goal with
    | |- exists es, trace (fst (_ ?m1)) = _ =>
        destruct (Hk m1) as [es [Ht _]]
    end.
    exists es. rewrite Ht. cbn [trace log]. rewrite <- app_assoc. reflexivity.
Qed.

(** An iteration whose two calls return and whose refresh returns a
    session goes round again with that session, under the same user id. *)
Lemma conversation_loop_continues USER_ID current_session line rest m
    w1 w2 w3 s :
  PyStr.str_in (PyStr.lower line) ["exit"; "quit"] = false ->
  add_user_query_to_history E (world m) APP_NAME USER_ID
    (Session.id current_session) line = (w1, Returns tt) ->
  call_agent_async E w1 USER_ID (Session.id current_session) line
  = (w2, Returns tt) ->
  get_session E w2 APP_NAME USER_ID (Session.id current_session)
  = (w3, Returns (Some s)) ->
  conversation_loop E USER_ID current_session (line :: rest) m
  = conversation_loop E USER_ID s rest
      {| world := w3; heap := heap m;
         trace :=
           trace m
           ++ [ Input (displayed_name E USER_ID current_session ++ ": ")
                      (Some line);
                AddUserQueryToHistory APP_NAME USER_ID
                  (Session.id current_session) line (Returns tt);
                CallAgent USER_ID (Session.id current_session) line
                          (Returns tt);
                GetSession APP_NAME USER_ID (Session.id current_session)
                           (Returns (Some s)) ] |}.
Proof.
  intros Hx Ha Hc Hg. cbn [conversation_loop]. rewrite fmt_user_name.
  unfold bind at 1. unfold input at 1. cbn [fst snd]. rewrite Hx.
  unfold bind at 1. unfold call_add_user_query_to_history.
  cbn [world log]. rewrite Ha.
  unfold bind at 1. unfold call_call_agent_async.
  cbn [world log set_world]. rewrite Hc.
  unfold bind at 1. unfold refresh_session, try_except, bind at 1.
  unfold call_get_session. cbn [world log set_world]. rewrite Hg.
  cbn [fst snd]. unfold ret at 1. cbn [fst snd].
  unfold log, set_world. cbn [world heap trace].
  rewrite <- !app_assoc. reflexivity.
Qed.

(** PART 3 when the lookup returns [None] without raising: reading the
    state raises [AttributeError], which the second handler takes. *)
Lemma session_setup_none USER_ID m w1 :
  get_session E (world m) APP_NAME USER_ID (session_id_for USER_ID)
  = (w1, Returns None) ->
  exists es,
    trace (fst (session_setup E USER_ID m))
    = trace m
      ++ [ GetSession APP_NAME USER_ID (session_id_for USER_ID)
                      (Returns None);
           Print "An unexpected error occurred during session handling: 'NoneType' object has no attribute 'state'";
           Print "Proceeding with a temporary guest session due to error." ]
      ++ es.
Proof.
  intros Hg.
  unfold session_setup, try_except, bind at 1, call_get_session.
  rewrite Hg. cbn [fst snd state_of]. unfold bind at 1, raise at 1.
  cbn [fst snd is_session_not_found exn_class].
  unfold bind at 1. unfold print at 1. cbn [fst snd].
  unfold bind at 1. unfold print at 1. cbn [fst snd].
  rewrite !log_log. cbn [app exn_text].
  match goal with
  | |- exists es, trace (fst (?k ?m1)) = _ =>
      assert (Hk : grows k) by repeat grows_step;
      destruct (Hk m1) as [[es Ht] _]
  end.
  exists es. rewrite Ht. cbn [trace log set_world].
  rewrite <- !app_assoc. reflexivity.
Qed.

(** What follows PART 3 once the runner is built: the banner, then the loop
    with the session PART 3 left, then PART 6 with the session the loop
    leaves. *)
Lemma after_setup_built USER_ID s stdin m w1 :
  Runner E (world m) APP_NAME = (w1, Returns tt) ->
  after_setup E USER_ID (Some s) stdin m
  = bind (conversation_loop E USER_ID s stdin) (state_examination E USER_ID)
      {| world := w1; heap := heap m;
         trace :=
           trace m
           ++ [ NewRunner APP_NAME (Returns tt);
                Print (PyStr.newline ++ "Welcome to Customer Service Chat!");
                Print ("Type 'exit' or 'quit' to end the conversation."
                       ++ PyStr.newline) ] |}.
Proof.
  intros Hr. unfold after_setup, bind at 1, call_Runner. rewrite Hr.
  cbn [fst snd].
  unfold bind at 1. unfold print at 1. cbn [fst snd].
  unfold bind at 1. unfold print at 1. cbn [fst snd].
  unfold log, set_world. cbn [world heap trace].
  rewrite <- !app_assoc. reflexivity.
Qed.

(** A turn begins with the prompt and the history update for the line
    typed, under the id of the current session. *)
Lemma conversation_loop_first_call USER_ID current_session line rest m :
  PyStr.str_in (PyStr.lower line) ["exit"; "quit"] = false ->
  exists r es,
    trace (fst (conversation_loop E USER_ID current_session (line :: rest) m))
    = trace m
      ++ Input (displayed_name E USER_ID current_session ++ ": ") (Some line)
         :: AddUserQueryToHistory APP_NAME USER_ID
              (Session.id current_session) line r
         :: es.
Proof.
  intros Hx. cbn [conversation_loop]. rewrite fmt_user_name.
  unfold bind at 1. unfold input at 1. cbn [fst snd]. rewrite Hx.
  unfold bind at 1. unfold call_add_user_query_to_history.
  cbn [world log].
  destruct (add_user_query_to_history E (world m) APP_NAME USER_ID
              (Session.id current_session) line) as [w1 [[]|e]].
  - match goal with
    | |- exists r es, trace (fst (?k ?m1)) = _ =>
        assert (Hk : emits (fun e => is_creation e = false) k)
    end.
    { apply emits_bind; [emits_step | intros _].
      apply emits_bind;
        [ eapply emits_weaken; [| apply refresh_session_emits];
          intros [] H; simpl in *; congruence
        | intros refreshed ].
      destruct refreshed as [[s|]|];
        [apply conversation_loop_emits | repeat emits_step ..]. }
    match goal with
    | |- exists r es, trace (fst (_ ?m1)) = _ =>
        destruct (Hk m1) as [es [Ht _]]
    end.
    exists (Returns tt), es. rewrite Ht. cbn [trace log set_world].
    rewrite <- !app_assoc. reflexivity.
  - exists (Raises e), []. cbn [fst trace log set_world].
    rewrite <- !app_assoc. reflexivity.
Qed.

(** The loop and PART 6 together: the prompt for the session the loop is
    entered with comes first, a line that is no exit or quit goes to the
    history under that session's id, and no session is created. *)
Lemma loop_then_examination_trace USER_ID s stdin m :
  exists es,
    trace (fst (bind (conversation_loop E USER_ID s stdin)
                     (state_examination E USER_ID) m))
    = trace m
      ++ Input (displayed_name E USER_ID s ++ ": ") (head stdin) :: es
    /\ Forall (fun ev => is_creation ev = false) es
    /\ (forall line rest,
          stdin = line :: rest ->
          PyStr.str_in (PyStr.lower line) ["exit"; "quit"] = false ->
          exists r es',
            es = AddUserQueryToHistory APP_NAME USER_ID (Session.id s) line r
                 :: es').
Proof.
  destruct (conversation_loop_prompt USER_ID s stdin m) as [es1 Ht1].
  destruct (conversation_loop_emits USER_ID s stdin m) as [es0 [Ht0 [_ HP0]]].
  assert (He : es0 = Input (displayed_name E USER_ID s ++ ": ") (head stdin)
                     :: es1).
  { rewrite Ht1 in Ht0. apply app_inv_head in Ht0. symmetry. exact Ht0. }
  subst es0. apply Forall_cons_1 in HP0 as [_ HP1].
  assert (Hfirst : forall line rest,
             stdin = line :: rest ->
             PyStr.str_in (PyStr.lower line) ["exit"; "quit"] = false ->
             exists r es', es1 = AddUserQueryToHistory APP_NAME USER_ID
                                   (Session.id s) line r :: es').
  { intros line rest -> Hx.
    destruct (conversation_loop_first_call USER_ID s line rest m Hx)
      as [r [es' Ht]].
    rewrite Ht1 in Ht. apply app_inv_head in Ht. cbn [head] in Ht.
    injection Ht as Ht. eauto. }
  unfold bind.
  destruct (conversation_loop E USER_ID s stdin m) as [m1 [cs|e]];
    cbn [fst] in Ht1 |- *.
  - destruct (state_examination_emits USER_ID cs m1) as [es2 [Ht2 [_ HP2]]].
    exists (es1 ++ es2). rewrite Ht2, Ht1. cbn [app].
    rewrite <- app_assoc. split; [reflexivity |]. split.
    + apply Forall_app. split; [exact HP1 |].
      eapply Forall_impl; [exact HP2 |].
      intros [] H; simpl in *; congruence.
    + intros line rest Hs Hx.
      destruct (Hfirst line rest Hs Hx) as [r [es' ->]].
      exists r, (es' ++ es2). reflexivity.
  - exists es1. split; [exact Ht1 | split; [exact HP1 | exact Hfirst]].
Qed.

(** One run when the first lookup finds a session: PART 3 hands that
    session on, and what follows is done with it. *)
Lemma run_found_adopts w w1 name lines s :
  get_session E w APP_NAME (current_user_name name)
              (session_id_for (current_user_name name))
  = (w1, Returns (Some s)) ->
  snd (session_setup E (current_user_name name)
         (log (name_prompt name) (boot w)))
  = Returns (current_user_name name, Some s)
  /\ exists es,
       trace (fst (run E w (name :: lines)))
       = name_prompt name
         ++ [ GetSession APP_NAME (current_user_name name)
                         (session_id_for (current_user_name name))
                         (Returns (Some s));
              Print ("Welcome back, "
                     ++ displayed_name E (current_user_name name) s
                     ++ "! Loaded existing session: " ++ Session.id s);
              NewRunner APP_NAME (snd (Runner E w1 APP_NAME)) ]
         ++ es
       /\ Forall (fun ev => is_creation ev = false) es
       /\ (snd (Runner E w1 APP_NAME) = Returns tt ->
           exists es',
             es = [ Print (PyStr.newline
                           ++ "Welcome to Customer Service Chat!");
                    Print ("Type 'exit' or 'quit' to end the conversation."
                           ++ PyStr.newline);
                    Input (displayed_name E (current_user_name name) s ++ ": ")
                          (head lines) ]
                  ++ es'
             /\ (forall line rest,
                   lines = line :: rest ->
                   PyStr.str_in (PyStr.lower line) ["exit"; "quit"] = false ->
                   exists r' es'',
                     es' = AddUserQueryToHistory APP_NAME
                             (current_user_name name) (Session.id s) line r'
                           :: es'')).
Proof.
  intros Hg.
  pose proof (session_setup_found (current_user_name name)
                (log (name_prompt name) (boot w)) w1 s Hg) as Hs.
  split; [rewrite Hs; reflexivity |].
  rewrite run_unfold. unfold bind at 1. rewrite Hs. cbn [fst snd].
  set (m1 := log _ (set_world w1 (log (name_prompt name) (boot w)))).
  assert (Hm1 : trace m1
                = name_prompt name
                  ++ [ GetSession APP_NAME (current_user_name name)
                                  (session_id_for (current_user_name name))
                                  (Returns (Some s));
                       Print ("Welcome back, "
                              ++ displayed_name E (current_user_name name) s
                              ++ "! Loaded existing session: "
                              ++ Session.id s) ]) by reflexivity.
  destruct (Runner E w1 APP_NAME) as [w2 [[]|e]] eqn:Hr; cbn [snd].
  - rewrite (after_setup_built (current_user_name name) s lines m1 w2 Hr).
    match goal with
    | |- context [bind _ _ ?mb] =>
        destruct (loop_then_examination_trace (current_user_name name) s
                    lines mb) as [es' [Ht [HP Hfirst]]]
    end.
    eexists. split; [| split].
    + rewrite Ht. cbn [trace]. rewrite Hm1, <- !app_assoc. cbn [app].
      reflexivity.
    + repeat (constructor; [reflexivity |]). exact HP.
    + intros _. exists es'. split; [reflexivity | exact Hfirst].
  - unfold after_setup, bind at 1, call_Runner.
    change (world m1) with w1. rewrite Hr.
    exists []. split; [| split].
    + cbn [fst trace log set_world]. rewrite Hm1, <- !app_assoc.
      reflexivity.
    + constructor.
    + intros [=].
Qed.

(** One run in which PART 3 returns with a session, the runner is built and
    the loop returns: it ends with PART 6 for what the loop returned. *)
Lemma run_then_examination w name lines ms U s wr m1 current_session :
  session_setup E (current_user_name name) (log (name_prompt name) (boot w))
  = (ms, Returns (U, Some s)) ->
  Runner E (world ms) APP_NAME = (wr, Returns tt) ->
  conversation_loop E U s lines
    {| world := wr; heap := heap ms;
       trace :=
         trace ms
         ++ [ NewRunner APP_NAME (Returns tt);
              Print (PyStr.newline ++ "Welcome to Customer Service Chat!");
              Print ("Type 'exit' or 'quit' to end the conversation."
                     ++ PyStr.newline) ] |}
  = (m1, Returns current_session) ->
  run E w (name :: lines) = state_examination E U current_session m1.
Proof.
  intros Hs Hr Hl. rewrite run_unfold. unfold bind at 1. rewrite Hs.
  cbn [fst snd]. rewrite (after_setup_built U s lines ms wr Hr).
  unfold bind. rewrite Hl. reflexivity.
Qed.

End ProgramFacts.

(** * The properties the specification states *)

(** C1.  When the session service does not know the session id made from
    the user name (the lookup raises SessionNotFoundError), the run creates
    a session whose state has exactly the three default keys: user_name set
    to the user id, purchased_courses and interaction_history each the empty
    list.  It is the only session the run creates. *)
Theorem C1_first_run_seeds_default_state :
  forall (World : Type) (E : Environment World) (w w1 : World)
         (name : string) (lines : list string) (e : PyExn),
    let USER_ID := current_user_name name in
    let SESSION_ID := (USER_ID ++ "_main_session")%string in
    get_session E w APP_NAME USER_ID SESSION_ID = (w1, Raises e) ->
    exn_class e = SessionNotFoundError ->
    exists r es,
      trace (fst (run E w (name :: lines)))
      = name_prompt name
        ++ [ GetSession APP_NAME USER_ID SESSION_ID (Raises e);
             Print ("Welcome, " ++ USER_ID ++ "! Creating new session...");
             CreateSession APP_NAME USER_ID SESSION_ID
               [ ("user_name", DStr USER_ID);
                 ("purchased_courses", DList []);
                 ("interaction_history", DList []) ]
               r ]
        ++ es
      /\ Forall (fun ev => is_creation ev = false) es.
Proof.
  intros World E w w1 name lines e USER_ID SESSION_ID Hg He.
  destruct (run_not_found E w w1 name lines e Hg) as [w2 [r [es H]]].
  { unfold is_session_not_found. rewrite He. reflexivity. }
  destruct H as [_ [Ht [HP _]]].
  exists r, es. split; [exact Ht | exact HP].
Qed.

Lemma C1_first_run_seeds_default_state_witness :
  exists r es,
    trace (fst (run Stub.env Stub.fresh ["Ada"; "exit"]))
    = name_prompt "Ada"
      ++ [ GetSession APP_NAME "Ada" "Ada_main_session"
                      (Raises Stub.not_found);
           Print "Welcome, Ada! Creating new session...";
           CreateSession APP_NAME "Ada" "Ada_main_session"
             [ ("user_name", DStr "Ada");
               ("purchased_courses", DList []);
               ("interaction_history", DList []) ]
             r ]
      ++ es
    /\ Forall (fun ev => is_creation ev = false) es.
Proof.
  apply (C1_first_run_seeds_default_state _ Stub.env Stub.fresh Stub.fresh
           "Ada" ["exit"] Stub.not_found); reflexivity.
Defined.

(** C2.  The session id of the lookup is the user id followed by
    _main_session, whatever the service and the rest of the input are; so
    two runs given the same name look up the same (app name, user id,
    session id).  When the lookup of the first run finds no session, that run
    creates one under the same three values, and no other.  When the lookup
    of the second run returns a session, PART 3 hands that session on as the
    current session: the run announces its id, creates none, builds the
    runner, and, with the runner built, prompts with the name that session
    holds and files the first line typed under that session's id. *)
Theorem C2_same_name_same_session_key :
  forall (W1 : Type) (E1 : Environment W1) (w1 : W1) (lines1 : list string)
         (W2 : Type) (E2 : Environment W2) (w2 : W2) (lines2 : list string)
         (name : string),
    let USER_ID := current_user_name name in
    let SESSION_ID := (USER_ID ++ "_main_session")%string in
    first_lookup (trace (fst (run E1 w1 (name :: lines1))))
    = Some (APP_NAME, USER_ID, SESSION_ID)
    /\ first_lookup (trace (fst (run E2 w2 (name :: lines2))))
       = first_lookup (trace (fst (run E1 w1 (name :: lines1))))
    /\ (forall (w1' : W1) (e : PyExn),
          get_session E1 w1 APP_NAME USER_ID SESSION_ID = (w1', Raises e) ->
          is_session_not_found e = true ->
          exists es,
            trace (fst (run E1 w1 (name :: lines1)))
            = name_prompt name
              ++ [ GetSession APP_NAME USER_ID SESSION_ID (Raises e);
                   Print ("Welcome, " ++ USER_ID
                          ++ "! Creating new session...");
                   CreateSession APP_NAME USER_ID SESSION_ID
                     (seeded_state USER_ID)
                     (snd (create_session E1 w1' APP_NAME USER_ID SESSION_ID
                             (seeded_state USER_ID))) ]
              ++ es
            /\ Forall (fun ev => is_creation ev = false) es)
    /\ (forall (w2' : W2) (s : Session.t),
          get_session E2 w2 APP_NAME USER_ID SESSION_ID
          = (w2', Returns (Some s)) ->
          snd (session_setup E2 USER_ID (log (name_prompt name) (boot w2)))
          = Returns (USER_ID, Some s)
          /\ exists es,
               trace (fst (run E2 w2 (name :: lines2)))
               = name_prompt name
                 ++ [ GetSession APP_NAME USER_ID SESSION_ID
                                 (Returns (Some s));
                      Print ("Welcome back, " ++ displayed_name E2 USER_ID s
                             ++ "! Loaded existing session: "
                             ++ Session.id s);
                      NewRunner APP_NAME (snd (Runner E2 w2' APP_NAME)) ]
                 ++ es
               /\ Forall (fun ev => is_creation ev = false) es)
    /\ (forall (w2' : W2) (s : Session.t),
          get_session E2 w2 APP_NAME USER_ID SESSION_ID
          = (w2', Returns (Some s)) ->
          snd (Runner E2 w2' APP_NAME) = Returns tt ->
          exists es,
            trace (fst (run E2 w2 (name :: lines2)))
            = name_prompt name
              ++ [ GetSession APP_NAME USER_ID SESSION_ID (Returns (Some s));
                   Print ("Welcome back, " ++ displayed_name E2 USER_ID s
                          ++ "! Loaded existing session: " ++ Session.id s);
                   NewRunner APP_NAME (Returns tt);
                   Print (PyStr.newline
                          ++ "Welcome to Customer Service Chat!");
                   Print ("Type 'exit' or 'quit' to end the conversation."
                          ++ PyStr.newline);
                   Input (displayed_name E2 USER_ID s ++ ": ")
                         (head lines2) ]
              ++ es
            /\ (forall (line : string) (rest : list string),
                  lines2 = line :: rest ->
                  PyStr.str_in (PyStr.lower line) ["exit"; "quit"] = false ->
                  exists r es',
                    es = AddUserQueryToHistory APP_NAME USER_ID
                           (Session.id s) line r
                         :: es')).
Proof.
  intros W1 E1 w1 lines1 W2 E2 w2 lines2 name USER_ID SESSION_ID.
  destruct (run_trace_lookup E1 w1 name lines1) as [r1 [es1 Ht1]].
  destruct (run_trace_lookup E2 w2 name lines2) as [r2 [es2 Ht2]].
  split; [| split; [| split; [| split]]].
  - rewrite Ht1. apply first_lookup_name_prompt.
  - rewrite Ht1, Ht2, !first_lookup_name_prompt. reflexivity.
  - intros w1' e Hg He.
    destruct (run_not_found E1 w1 w1' name lines1 e Hg He)
      as [w1'' [r [es [Hc [Ht [HP _]]]]]].
    exists es. fold USER_ID in Hc.
    change (session_id_for USER_ID) with SESSION_ID in Hc.
    rewrite Hc. split; [exact Ht | exact HP].
  - intros w2' s Hg.
    destruct (run_found_adopts E2 w2 w2' name lines2 s Hg)
      as [Hs [es [Ht [HP _]]]].
    split; [exact Hs |]. exists es. split; [exact Ht | exact HP].
  - intros w2' s Hg Hr.
    destruct (run_found_adopts E2 w2 w2' name lines2 s Hg)
      as [_ [es [Ht [_ Hb]]]].
    destruct (Hb Hr) as [es' [-> Hfirst]].
    exists es'. split; [| exact Hfirst].
    rewrite Ht, Hr. cbn [app]. reflexivity.
Qed.

Lemma C2_same_name_same_session_key_witness :
  let first_run := run Stub.env Stub.fresh ["Ada"; "hello"; "exit"] in
  let after_first_run := world (fst first_run) in
  let second_run :=
    run Stub.env after_first_run ["Ada"; "what did I say?"; "exit"] in
  let s :=
    Session.mk "Ada_main_session"
      [ ("user_name", DStr "Ada"); ("purchased_courses", DList []);
        ("interaction_history", DList [DStr "hello"]) ] in
  (exists es,
      trace (fst first_run)
      = name_prompt "Ada"
        ++ [ GetSession APP_NAME "Ada" "Ada_main_session"
                        (Raises Stub.not_found);
             Print "Welcome, Ada! Creating new session...";
             CreateSession APP_NAME "Ada" "Ada_main_session"
               (seeded_state "Ada")
               (Returns (Session.mk "Ada_main_session" (seeded_state "Ada"))) ]
        ++ es
      /\ Forall (fun ev => is_creation ev = false) es)
  /\ snd (session_setup Stub.env "Ada"
            (log (name_prompt "Ada") (boot after_first_run)))
     = Returns ("Ada", Some s)
  /\ (exists es,
        trace (fst second_run)
        = name_prompt "Ada"
          ++ [ GetSession APP_NAME "Ada" "Ada_main_session" (Returns (Some s));
               Print "Welcome back, Ada! Loaded existing session: Ada_main_session";
               NewRunner APP_NAME (Returns tt);
               Print (PyStr.newline ++ "Welcome to Customer Service Chat!");
               Print ("Type 'exit' or 'quit' to end the conversation."
                      ++ PyStr.newline);
               Input "Ada: " (Some "what did I say?") ]
          ++ es
        /\ exists r es',
             es = AddUserQueryToHistory APP_NAME "Ada" "Ada_main_session"
                    "what did I say?" r
                  :: es').
Proof.
  intros first_run after_first_run second_run s.
  destruct (C2_same_name_same_session_key
              _ Stub.env Stub.fresh ["hello"; "exit"]
              _ Stub.env after_first_run ["what did I say?"; "exit"] "Ada")
    as [_ [_ [Hcreate [Hadopt Hturn]]]].
  split; [| split].
  - exact (Hcreate Stub.fresh Stub.not_found eq_refl eq_refl).
  - exact (proj1 (Hadopt after_first_run s eq_refl)).
  - destruct (Hturn after_first_run s eq_refl eq_refl) as [es [Ht Hfirst]].
    exists es. split; [exact Ht |].
    exact (Hfirst "what did I say?" ["exit"] eq_refl eq_refl).
Defined.

(** C3.  Every spelling of exit or quit in any mixture of upper and lower
    case lowers to the word, and an iteration whose input, lowercased, is
    exit or quit ends the loop at once: it reads the line, prints the
    farewell and leaves the current session as it was; from that input to
    the end of the program there is no call of add_user_query_to_history,
    no call of call_agent_async and no further input, only the final lookup
    and prints. *)
Theorem C3_exit_or_quit_ends_the_loop :
  forall (World : Type) (E : Environment World) (USER_ID : string)
         (current_session : Session.t) (line : string) (rest : list string)
         (m : Machine World),
    (PyStr.mixed_case "exit" line = true \/ PyStr.mixed_case "quit" line = true ->
     PyStr.lower line = "exit" \/ PyStr.lower line = "quit")
    /\ (PyStr.lower line = "exit" \/ PyStr.lower line = "quit" ->
        conversation_loop E USER_ID current_session (line :: rest) m
        = (log [ Input (displayed_name E USER_ID current_session ++ ": ")
                       (Some line);
                 Print "Ending conversation. Goodbye!" ] m,
           Returns (Some current_session))
        /\ exists es,
             trace (fst (bind (conversation_loop E USER_ID current_session
                                                 (line :: rest))
                              (state_examination E USER_ID) m))
             = trace m
               ++ [ Input (displayed_name E USER_ID current_session ++ ": ")
                          (Some line);
                    Print "Ending conversation. Goodbye!" ]
               ++ es
             /\ Forall (fun ev => is_turn_call ev = false
                                  /\ is_input ev = false) es).
Proof.
  intros World E USER_ID current_session line rest m.
  split; [apply mixed_case_exit_quit |]. intros Hx.
  pose proof (conversation_loop_exit E USER_ID current_session line rest m
                (str_in_exit_quit _ Hx)) as Hloop.
  split; [exact Hloop|].
  destruct (loop_then_examination E USER_ID m _ _ _ Hloop) as [es [Ht HP]].
  exists es. split.
  - rewrite Ht. cbn [trace log]. rewrite <- app_assoc. reflexivity.
  - eapply Forall_impl; [exact HP |].
    intros [] H; simpl in *; split; congruence.
Qed.

Lemma C3_exit_or_quit_ends_the_loop_witness :
  let s := Session.mk "Ada_main_session" (seeded_state "Ada") in
  conversation_loop Stub.env "Ada" s ["ExIt"; "hello"] (boot Stub.fresh)
  = (log [Input "Ada: " (Some "ExIt"); Print "Ending conversation. Goodbye!"]
         (boot Stub.fresh),
     Returns (Some s)).
Proof.
  intros s.
  pose proof (C3_exit_or_quit_ends_the_loop _ Stub.env "Ada" s "ExIt"
                ["hello"] (boot Stub.fresh)) as [Hspell Hloop].
  exact (proj1 (Hloop (Hspell (or_introl eq_refl)))).
Defined.

(** C4.  When the first lookup raises an exception other than
    SessionNotFoundError and a suffix is generated (by _generate_id, or by
    the random generator when _generate_id raises AttributeError), the run
    creates a session under the user id Guest_Error_ followed by that
    suffix, its session id made from that user id, its state the three
    default keys with user_name set to that guest id.  It is the only
    session the run creates, and when the creation returns PART 3 ends with
    the guest id as USER_ID and the new session as the current one. *)
Theorem C4_lookup_error_falls_back_to_guest_session :
  forall (World : Type) (E : Environment World) (w w1 w2 : World)
         (name : string) (lines : list string) (e : PyExn) (suffix : string),
    let USER_ID := current_user_name name in
    let GUEST := ("Guest_Error_" ++ suffix)%string in
    get_session E w APP_NAME USER_ID (USER_ID ++ "_main_session")
    = (w1, Raises e) ->
    exn_class e <> SessionNotFoundError ->
    (_generate_id E w1 = (w2, Returns suffix)
     \/ exists w1' e',
          _generate_id E w1 = (w1', Raises e')
          /\ exn_class e' = AttributeError
          /\ random_choices E w1' (ascii_lowercase ++ digits) 6
             = (w2, suffix)) ->
    exists gen r es,
      trace (fst (run E w (name :: lines)))
      = name_prompt name
        ++ [ GetSession APP_NAME USER_ID (USER_ID ++ "_main_session")
                        (Raises e);
             Print ("An unexpected error occurred during session handling: "
                    ++ exn_text e);
             Print "Proceeding with a temporary guest session due to error." ]
        ++ gen
        ++ [ CreateSession APP_NAME GUEST (GUEST ++ "_main_session")
               [ ("user_name", DStr GUEST);
                 ("purchased_courses", DList []);
                 ("interaction_history", DList []) ]
               r ]
        ++ es
      /\ Forall (fun ev => is_creation ev = false) gen
      /\ Forall (fun ev => is_creation ev = false) es
      /\ (forall s, r = Returns s ->
            snd (session_setup E USER_ID (log (name_prompt name) (boot w)))
            = Returns (GUEST, Some s)).
Proof.
  intros World E w w1 w2 name lines e suffix USER_ID GUEST Hg He Hgen.
  apply (run_fallback E w w1 w2 name lines e suffix Hg).
  - unfold is_session_not_found. destruct (exn_class e); congruence.
  - destruct Hgen as [H | [w1' [e' [H [Ha Hr]]]]]; [left; exact H | right].
    exists w1', e'. split; [exact H | split; [| exact Hr]].
    unfold is_attribute_error. rewrite Ha. reflexivity.
Qed.

Lemma C4_lookup_error_falls_back_to_guest_session_witness :
  exists gen r es,
    trace (fst (run Stub.env Stub.failing ["Ada"; "exit"]))
    = name_prompt "Ada"
      ++ [ GetSession APP_NAME "Ada" "Ada_main_session"
                      (Raises Stub.unavailable);
           Print "An unexpected error occurred during session handling: service unavailable";
           Print "Proceeding with a temporary guest session due to error." ]
      ++ gen
      ++ [ CreateSession APP_NAME "Guest_Error_7f3a"
             "Guest_Error_7f3a_main_session"
             [ ("user_name", DStr "Guest_Error_7f3a");
               ("purchased_courses", DList []);
               ("interaction_history", DList []) ]
             r ]
      ++ es
    /\ Forall (fun ev => is_creation ev = false) gen
    /\ Forall (fun ev => is_creation ev = false) es
    /\ (forall s, r = Returns s ->
          snd (session_setup Stub.env "Ada"
                 (log (name_prompt "Ada") (boot Stub.failing)))
          = Returns ("Guest_Error_7f3a", Some s)).
Proof.
  apply (C4_lookup_error_falls_back_to_guest_session _ Stub.env
           Stub.failing (Stub.with_outage None Stub.failing)
           (Stub.with_outage None Stub.failing)
           "Ada" ["exit"] Stub.unavailable "7f3a").
  - reflexivity.
  - discriminate.
  - left. reflexivity.
Defined.

(** C5.  When the first lookup raises SessionNotFoundError, the program
    creates a session under the app name, the user id and the session id of
    that lookup; when the creation returns, PART 3 ends with the same user
    id and the new session as the current one, and the program goes on to
    set up the runner. *)
Theorem C5_not_found_creates_under_same_ids :
  forall (World : Type) (E : Environment World) (w w1 : World)
         (name : string) (lines : list string) (e : PyExn),
    let USER_ID := current_user_name name in
    let SESSION_ID := (USER_ID ++ "_main_session")%string in
    get_session E w APP_NAME USER_ID SESSION_ID = (w1, Raises e) ->
    exn_class e = SessionNotFoundError ->
    exists state r es,
      trace (fst (run E w (name :: lines)))
      = name_prompt name
        ++ [ GetSession APP_NAME USER_ID SESSION_ID (Raises e);
             Print ("Welcome, " ++ USER_ID ++ "! Creating new session...");
             CreateSession APP_NAME USER_ID SESSION_ID state r ]
        ++ es
      /\ (forall s, r = Returns s ->
            snd (session_setup E USER_ID (log (name_prompt name) (boot w)))
            = Returns (USER_ID, Some s)
            /\ exists r' es',
                 es = Print ("New session created: " ++ Session.id s)
                      :: NewRunner APP_NAME r' :: es').
Proof.
  intros World E w w1 name lines e USER_ID SESSION_ID Hg He.
  destruct (run_not_found E w w1 name lines e Hg) as [w2 [r [es H]]].
  { unfold is_session_not_found. rewrite He. reflexivity. }
  destruct H as [_ [Ht [_ Hr]]].
  exists (seeded_state USER_ID), r, es. split; [exact Ht | exact Hr].
Qed.

Lemma C5_not_found_creates_under_same_ids_witness :
  exists state r es,
    trace (fst (run Stub.env Stub.fresh [" Ada "; "quit"]))
    = name_prompt " Ada "
      ++ [ GetSession APP_NAME "Ada" "Ada_main_session"
                      (Raises Stub.not_found);
           Print "Welcome, Ada! Creating new session...";
           CreateSession APP_NAME "Ada" "Ada_main_session" state r ]
      ++ es
    /\ (forall s, r = Returns s ->
          snd (session_setup Stub.env "Ada"
                 (log (name_prompt " Ada ") (boot Stub.fresh)))
          = Returns ("Ada", Some s)
          /\ exists r' es',
               es = Print ("New session created: " ++ Session.id s)
                    :: NewRunner APP_NAME r' :: es').
Proof.
  apply (C5_not_found_creates_under_same_ids _ Stub.env Stub.fresh Stub.fresh
           " Ada " ["quit"] Stub.not_found); reflexivity.
Defined.

(** C6.  When the refresh after an agent call raises, SessionNotFoundError
    or any other exception, the iteration prints one error message and the
    loop ends with the session it had: the lookup is not tried again inside
    the loop and no line is read any more.  From there to the end of the
    program no session is created and no turn is made, only the final
    lookup of PART 6 and prints. *)
Theorem C6_refresh_failure_ends_the_loop :
  forall (World : Type) (E : Environment World) (USER_ID : string)
         (current_session : Session.t) (line : string) (rest : list string)
         (m : Machine World) (w1 w2 w3 : World) (e : PyExn),
    PyStr.str_in (PyStr.lower line) ["exit"; "quit"] = false ->
    add_user_query_to_history E (world m) APP_NAME USER_ID
      (Session.id current_session) line = (w1, Returns tt) ->
    call_agent_async E w1 USER_ID (Session.id current_session) line
    = (w2, Returns tt) ->
    get_session E w2 APP_NAME USER_ID (Session.id current_session)
    = (w3, Raises e) ->
    let turn :=
      [ Input (displayed_name E USER_ID current_session ++ ": ") (Some line);
        AddUserQueryToHistory APP_NAME USER_ID (Session.id current_session)
                              line (Returns tt);
        CallAgent USER_ID (Session.id current_session) line (Returns tt);
        GetSession APP_NAME USER_ID (Session.id current_session) (Raises e);
        Print (if is_session_not_found e
               then "Error: Session lost during interaction. Exiting."
               else "Error refreshing session state: " ++ exn_text e
                    ++ ". Exiting.") ] in
    conversation_loop E USER_ID current_session (line :: rest) m
    = ({| world := w3; heap := heap m; trace := trace m ++ turn |},
       Returns (Some current_session))
    /\ exists es,
         trace (fst (bind (conversation_loop E USER_ID current_session
                                             (line :: rest))
                          (state_examination E USER_ID) m))
         = trace m ++ turn ++ es
         /\ Forall (fun ev => is_creation ev = false
                              /\ is_turn_call ev = false
                              /\ is_input ev = false) es.
Proof.
  intros World E USER_ID current_session line rest m w1 w2 w3 e Hx Ha Hc Hg
         turn.
  pose proof (conversation_loop_refresh_raises E USER_ID current_session line
                rest m w1 w2 w3 e Hx Ha Hc Hg) as Hloop.
  split; [exact Hloop|].
  destruct (loop_then_examination E USER_ID m _ _ _ Hloop) as [es [Ht HP]].
  exists es. split.
  - rewrite Ht. cbn [trace]. rewrite <- app_assoc. reflexivity.
  - eapply Forall_impl; [exact HP |].
    intros [] H; simpl in *; repeat split; congruence.
Qed.

Lemma C6_refresh_failure_ends_the_loop_witness :
  let s := Session.mk "Ada_main_session" (seeded_state "Ada") in
  let w := world (fst (run Stub.env Stub.fresh ["Ada"; "exit"])) in
  exists m',
    conversation_loop Stub.env "Ada" s ["close my account"; "hello"]
                      (set_world w (boot Stub.fresh))
    = (m', Returns (Some s))
    /\ trace m'
       = [ Input "Ada: " (Some "close my account");
           AddUserQueryToHistory APP_NAME "Ada" "Ada_main_session"
                                 "close my account" (Returns tt);
           CallAgent "Ada" "Ada_main_session" "close my account" (Returns tt);
           GetSession APP_NAME "Ada" "Ada_main_session"
                      (Raises Stub.not_found);
           Print "Error: Session lost during interaction. Exiting." ].
Proof.
  intros s w. eexists. split.
  - apply (proj1 (C6_refresh_failure_ends_the_loop _ Stub.env "Ada" s
                    "close my account" ["hello"]
                    (set_world w (boot Stub.fresh))
                    _ _ _ Stub.not_found
                    eq_refl eq_refl eq_refl eq_refl)).
  - reflexivity.
Defined.

(** C7.  A run in which PART 3 leaves a session, the runner is built and
    the loop ends with a current session goes on to PART 6 with that
    session: it looks the session up once more under its id.  When the
    lookup returns a session, the run ends with the heading and then one
    line, key: value, for every entry of that session's state, in order.
    When the lookup raises, the run ends with one error message and no
    heading and no entry. *)
Theorem C7_final_state_dump :
  forall (World : Type) (E : Environment World) (w : World) (name : string)
         (lines : list string) (after_part3 : Machine World)
         (USER_ID : string) (s : Session.t) (w_runner : World)
         (after_loop : Machine World) (current_session : Session.t),
    session_setup E (current_user_name name) (log (name_prompt name) (boot w))
    = (after_part3, Returns (USER_ID, Some s)) ->
    Runner E (world after_part3) APP_NAME = (w_runner, Returns tt) ->
    conversation_loop E USER_ID s lines
      {| world := w_runner; heap := heap after_part3;
         trace :=
           trace after_part3
           ++ [ NewRunner APP_NAME (Returns tt);
                Print (PyStr.newline ++ "Welcome to Customer Service Chat!");
                Print ("Type 'exit' or 'quit' to end the conversation."
                       ++ PyStr.newline) ] |}
    = (after_loop, Returns (Some current_session)) ->
    (forall (w1 : World) (final_session : Session.t),
        get_session E (world after_loop) APP_NAME USER_ID
                    (Session.id current_session)
        = (w1, Returns (Some final_session)) ->
        run E w (name :: lines)
        = ({| world := w1; heap := heap after_loop;
              trace :=
                trace after_loop
                ++ [ GetSession APP_NAME USER_ID (Session.id current_session)
                                (Returns (Some final_session));
                     Print (PyStr.newline ++ "Final Session State:") ]
                ++ map (fun kv => Print (fst kv ++ ": " ++ fmt E (snd kv)))
                       (Session.state final_session) |},
           Returns tt))
    /\ (forall (w1 : World) (e : PyExn),
          get_session E (world after_loop) APP_NAME USER_ID
                      (Session.id current_session)
          = (w1, Raises e) ->
          run E w (name :: lines)
          = ({| world := w1; heap := heap after_loop;
                trace :=
                  trace after_loop
                  ++ [ GetSession APP_NAME USER_ID (Session.id current_session)
                                  (Raises e);
                       Print (if is_session_not_found e
                              then "Could not retrieve final session state for "
                                   ++ Session.id current_session
                                   ++ ". It might have been deleted or an error occurred."
                              else "Error retrieving final session state: "
                                   ++ exn_text e) ] |},
             Returns tt)).
Proof.
  intros World E w name lines after_part3 USER_ID s w_runner after_loop
         current_session Hs Hr Hl.
  rewrite (run_then_examination E w name lines after_part3 USER_ID s w_runner
             after_loop (Some current_session) Hs Hr Hl).
  split.
  - intros w1 final_session Hg.
    rewrite (state_examination_dump E USER_ID current_session after_loop w1
               final_session Hg).
    reflexivity.
  - intros w1 e Hg.
    rewrite (state_examination_raises E USER_ID current_session after_loop w1
               e Hg).
    reflexivity.
Qed.

Lemma C7_final_state_dump_witness :
  let s := Session.mk "Ada_main_session" (seeded_state "Ada") in
  let created :=
    [ Input "Please enter your name: " (Some "Ada");
      GetSession APP_NAME "Ada" "Ada_main_session" (Raises Stub.not_found);
      Print "Welcome, Ada! Creating new session...";
      CreateSession APP_NAME "Ada" "Ada_main_session" (seeded_state "Ada")
                    (Returns s);
      Print "New session created: Ada_main_session";
      NewRunner APP_NAME (Returns tt);
      Print (PyStr.newline ++ "Welcome to Customer Service Chat!");
      Print ("Type 'exit' or 'quit' to end the conversation."
             ++ PyStr.newline) ] in
  trace (fst (run Stub.env Stub.fresh ["Ada"; "exit"]))
  = created
    ++ [ Input "Ada: " (Some "exit");
         Print "Ending conversation. Goodbye!";
         GetSession APP_NAME "Ada" "Ada_main_session" (Returns (Some s));
         Print (PyStr.newline ++ "Final Session State:");
         Print "user_name: Ada";
         Print "purchased_courses: []";
         Print "interaction_history: []" ]
  /\ trace (fst (run Stub.env Stub.fresh ["Ada"; "close my account"]))
     = created
       ++ [ Input "Ada: " (Some "close my account");
            AddUserQueryToHistory APP_NAME "Ada" "Ada_main_session"
                                  "close my account" (Returns tt);
            CallAgent "Ada" "Ada_main_session" "close my account"
                      (Returns tt);
            GetSession APP_NAME "Ada" "Ada_main_session"
                       (Raises Stub.not_found);
            Print "Error: Session lost during interaction. Exiting.";
            GetSession APP_NAME "Ada" "Ada_main_session"
                       (Raises Stub.not_found);
            Print "Could not retrieve final session state for Ada_main_session. It might have been deleted or an error occurred." ].
Proof.
  intros s created. split.
  - rewrite (proj1 (C7_final_state_dump _ Stub.env Stub.fresh "Ada" ["exit"]
                      _ "Ada" s _ _ s eq_refl eq_refl eq_refl)
               _ s eq_refl).
    reflexivity.
  - rewrite (proj2 (C7_final_state_dump _ Stub.env Stub.fresh "Ada"
                      ["close my account"]
                      _ "Ada" s _ _ s eq_refl eq_refl eq_refl)
               _ Stub.not_found eq_refl).
    reflexivity.
Defined.

(** C8.  A name that is empty or all whitespace makes the program go on
    under the user id Guest (and say so); any other name makes it go on
    under the name with the whitespace at both ends taken off: the name is
    that user id between two runs of whitespace, and the user id neither
    begins nor ends with whitespace.  In both cases the session lookup is
    made under that user id. *)
Theorem C8_guest_or_stripped_name :
  forall (World : Type) (E : Environment World) (w : World)
         (name : string) (lines : list string),
    (PyStr.all_space name = true ->
     current_user_name name = "Guest"
     /\ exists r es,
          trace (fst (run E w (name :: lines)))
          = [ Input "Please enter your name: " (Some name);
              Print "No valid name entered, proceeding as 'Guest'.";
              GetSession APP_NAME "Guest" "Guest_main_session" r ] ++ es)
    /\ (PyStr.all_space name = false ->
        current_user_name name = PyStr.strip name
        /\ (exists p q, name = (p ++ PyStr.strip name ++ q)%string
                        /\ PyStr.all_space p = true
                        /\ PyStr.all_space q = true)
        /\ (forall c, PyStr.first_char (PyStr.strip name) = Some c ->
                      PyStr.is_space c = false)
        /\ (forall c, PyStr.last_char (PyStr.strip name) = Some c ->
                      PyStr.is_space c = false)
        /\ exists r es,
             trace (fst (run E w (name :: lines)))
             = [ Input "Please enter your name: " (Some name);
                 GetSession APP_NAME (PyStr.strip name)
                            (PyStr.strip name ++ "_main_session") r ] ++ es).
Proof.
  intros World E w name lines.
  destruct (run_trace_lookup E w name lines) as [r [es Ht]].
  assert (Hu : current_user_name name
               = if PyStr.all_space name then "Guest" else PyStr.strip name).
  { unfold current_user_name. rewrite strip_is_empty. reflexivity. }
  destruct (strip_spec name) as [Hsplit [Hfirst Hlast]].
  unfold name_prompt in Ht. rewrite Hu in *. split; intros Hs; rewrite Hs in *.
  - split; [reflexivity|]. exists r, es. exact Ht.
  - repeat (split; [assumption || reflexivity|]). exists r, es. exact Ht.
Qed.

Lemma C8_guest_or_stripped_name_witness :
  current_user_name "   " = "Guest"
  /\ current_user_name "  Ada Lovelace " = PyStr.strip "  Ada Lovelace ".
Proof.
  split.
  - apply (proj1 (C8_guest_or_stripped_name _ Stub.env Stub.fresh "   " [])).
    reflexivity.
  - apply (proj2 (C8_guest_or_stripped_name _ Stub.env Stub.fresh
                    "  Ada Lovelace " [])).
    reflexivity.
Defined.

(** C9.  At the end of every run the module's template dictionary still has
    the empty string under user_name.  Each creation of a session, on the
    normal path and on the error fallback alike, copies the template into a
    new object and writes the user id into that copy: the copy carries the
    user id, it is what create_session gets, and the template keeps the
    empty string. *)
Theorem C9_template_keeps_empty_user_name :
  forall (World : Type) (E : Environment World),
    (forall (w : World) (stdin : list string),
        exists items,
          heap (fst (run E w stdin)) !! initial_state_template
          = Some (ODict items)
          /\ dict_get items "user_name" = Some (VStr ""))
    /\ (forall (USER_ID SESSION_ID : string) (m : Machine World),
          template_intact (heap m) ->
          let m' := fst (create_for E USER_ID SESSION_ID m) in
          let copy := length (heap m) in
          copy <> initial_state_template
          /\ (exists items,
                heap m' !! copy = Some (ODict items)
                /\ dict_get items "user_name" = Some (VStr USER_ID))
          /\ (exists items,
                heap m' !! initial_state_template = Some (ODict items)
                /\ dict_get items "user_name" = Some (VStr ""))
          /\ (exists state r,
                trace m'
                = trace m
                  ++ [CreateSession APP_NAME USER_ID SESSION_ID state r]
                /\ dict_get state "user_name" = Some (DStr USER_ID))).
Proof.
  intros World E. split.
  - intros w stdin.
    destruct (grows_main_async E stdin (boot w)) as [_ Hi].
    specialize (Hi eq_refl). unfold template_intact in Hi. cbn in Hi.
    eexists. split; [exact Hi | reflexivity].
  - intros USER_ID SESSION_ID m Hi. exact (create_for_copy E _ _ m Hi).
Qed.

Lemma C9_template_keeps_empty_user_name_witness :
  let m' := fst (create_for Stub.env "Ada" "Ada_main_session"
                            (boot Stub.fresh)) in
  heap m' !! 3
  = Some (ODict [ ("user_name", VStr "Ada");
                  ("purchased_courses", VRef 0);
                  ("interaction_history", VRef 1) ])
  /\ exists items,
       heap m' !! initial_state_template = Some (ODict items)
       /\ dict_get items "user_name" = Some (VStr "").
Proof.
  intros m'. split; [reflexivity|].
  exact (proj1 (proj2 (proj2 (proj2 (C9_template_keeps_empty_user_name
                                       _ Stub.env)
                                    "Ada" "Ada_main_session"
                                    (boot Stub.fresh) eq_refl)))).
Defined.

(** C10, as first stated, fails: after the error fallback the prompt of a
    session without user_name shows the guest id, not the user id made from
    the name that was typed.  Here the service fails at the first lookup,
    the user types Ada, then asks the agent to forget the name. *)
Lemma C10_counterexample : ~ prompt_falls_back_to_entered_name.
Proof.
  intros H.
  pose (t := trace (fst (run Stub.env Stub.failing
                           ["Ada"; "forget my name"; "exit"]))).
  specialize (H _ Stub.env Stub.failing "Ada" ["forget my name"; "exit"]
                (firstn 13 t) (skipn 15 t)
                "Customer Support" "Guest_Error_7f3a"
                "Guest_Error_7f3a_main_session"
                (Session.mk "Guest_Error_7f3a_main_session"
                   [ ("purchased_courses", DList []);
                     ("interaction_history", DList [DStr "forget my name"]) ])
                "Guest_Error_7f3a: " (Some "exit") eq_refl eq_refl).
  discriminate H.
Qed.

(** C10, amended.  The name shown for a session is what its state keeps
    under user_name and, when the state has no such key, the USER_ID in
    force: the welcome-back message shows it for the session just loaded,
    under the user id of the lookup, and every iteration of the loop begins
    with a prompt that shows it for the current session, an iteration that
    refreshes the session handing the same USER_ID on to the next.  The
    USER_ID in force after PART 3 is the one made from the name typed, or a
    Guest_Error_ id. *)
Theorem C10_displayed_name_falls_back_to_current_user_id :
  forall (World : Type) (E : Environment World) (USER_ID : string),
    (forall s : Session.t,
        (dict_get (Session.state s) "user_name" = None ->
         displayed_name E USER_ID s = USER_ID)
        /\ (forall v, dict_get (Session.state s) "user_name" = Some v ->
                      displayed_name E USER_ID s = fmt E v))
    /\ (forall (m : Machine World) (w1 : World) (s : Session.t),
          get_session E (world m) APP_NAME USER_ID
                      (USER_ID ++ "_main_session")
          = (w1, Returns (Some s)) ->
          session_setup E USER_ID m
          = (log [ GetSession APP_NAME USER_ID (USER_ID ++ "_main_session")
                              (Returns (Some s));
                   Print ("Welcome back, " ++ displayed_name E USER_ID s
                          ++ "! Loaded existing session: " ++ Session.id s) ]
                 (set_world w1 m),
             Returns (USER_ID, Some s)))
    /\ (forall (current_session : Session.t) (stdin : list string)
               (m : Machine World),
          exists es,
            trace (fst (conversation_loop E USER_ID current_session stdin m))
            = trace m
              ++ Input (displayed_name E USER_ID current_session ++ ": ")
                       (head stdin)
                 :: es)
    /\ (forall (current_session s : Session.t) (line : string)
               (rest : list string) (m : Machine World) (w1 w2 w3 : World),
          PyStr.str_in (PyStr.lower line) ["exit"; "quit"] = false ->
          add_user_query_to_history E (world m) APP_NAME USER_ID
            (Session.id current_session) line = (w1, Returns tt) ->
          call_agent_async E w1 USER_ID (Session.id current_session) line
          = (w2, Returns tt) ->
          get_session E w2 APP_NAME USER_ID (Session.id current_session)
          = (w3, Returns (Some s)) ->
          exists m3,
            conversation_loop E USER_ID current_session (line :: rest) m
            = conversation_loop E USER_ID s rest m3)
    /\ (forall (m m' : Machine World) (U : string)
               (current_session : option Session.t),
          session_setup E USER_ID m = (m', Returns (U, current_session)) ->
          U = USER_ID
          \/ exists suffix, U = ("Guest_Error_" ++ suffix)%string).
Proof.
  intros World E USER_ID. repeat split.
  - intros H. unfold displayed_name. rewrite H. reflexivity.
  - intros v H. unfold displayed_name. rewrite H. reflexivity.
  - intros m w1 s Hg. exact (session_setup_found E USER_ID m w1 s Hg).
  - intros current_session stdin m.
    exact (conversation_loop_prompt E USER_ID current_session stdin m).
  - intros current_session s line rest m w1 w2 w3 Hx Ha Hc Hg.
    eexists.
    exact (conversation_loop_continues E USER_ID current_session line rest m
             w1 w2 w3 s Hx Ha Hc Hg).
  - intros m m' U current_session H.
    exact (session_setup_user_id E USER_ID m m' (U, current_session) H).
Qed.

Lemma C10_displayed_name_falls_back_to_current_user_id_witness :
  displayed_name Stub.env "Guest_Error_7f3a"
    (Session.mk "Guest_Error_7f3a_main_session"
       [("purchased_courses", DList [])])
  = "Guest_Error_7f3a"
  /\ displayed_name Stub.env "ada"
       (Session.mk "ada_main_session" [("user_name", DStr "Ada Lovelace")])
     = "Ada Lovelace".
Proof.
  split.
  - apply (proj1 (proj1 (C10_displayed_name_falls_back_to_current_user_id
                           _ Stub.env "Guest_Error_7f3a") _)).
    reflexivity.
  - apply (proj2 (proj1 (C10_displayed_name_falls_back_to_current_user_id
                           _ Stub.env "ada") _) (DStr "Ada Lovelace")).
    reflexivity.
Defined.

(** * Further properties of [main.py] *)

(** ** More on text *)

Section MoreStripFacts.

Import PyStr.

Lemma lstrip_fixed (s : string) :
  (forall c, first_char s = Some c -> is_space c = false) -> lstrip s = s.
Proof.
  destruct s as [|c s]; [reflexivity|]. intros H. simpl.
  rewrite (H c eq_refl). reflexivity.
Qed.

Lemma rstrip_fixed (s : string) :
  (forall c, last_char s = Some c -> is_space c = false) -> rstrip s = s.
Proof.
  induction s as [|c s IH]; [reflexivity|]. intros H.
  destruct s as [|d s].
  - simpl. rewrite (H c eq_refl). reflexivity.
  - assert (Hr : rstrip (String d s) = String d s) by (apply IH; exact H).
    change (rstrip (String c (String d s)))
      with (match rstrip (String d s) with
            | EmptyString =>
                if is_space c then EmptyString else String c EmptyString
            | r => String c r
            end).
    rewrite Hr. reflexivity.
Qed.

(** Stripping what is already stripped changes nothing. *)
Lemma strip_strip (s : string) : strip (strip s) = strip s.
Proof.
  destruct (strip_spec s) as [_ [Hfirst Hlast]].
  unfold strip at 1. rewrite (lstrip_fixed _ Hfirst).
  apply rstrip_fixed. exact Hlast.
Qed.

Lemma nat_of_ascii_bound (c : ascii) : nat_of_ascii c < 256.
Proof.
  destruct c as [[] [] [] [] [] [] [] []]; vm_compute;
    repeat (apply le_n || apply le_S).
Qed.

(** A character that lowers to a letter a..z is that letter or its
    capital. *)
Lemma lower_char_inv (c d : ascii) :
  (97 <=? nat_of_ascii c)%nat && (nat_of_ascii c <=? 122)%nat = true ->
  lower_char d = c ->
  Ascii.eqb d c || Ascii.eqb d (upper_char c) = true.
Proof.
  intros Hc Hd.
  pose proof Hc as Hc'.
  apply andb_true_iff in Hc' as [Hlo Hhi].
  apply Nat.leb_le in Hlo. apply Nat.leb_le in Hhi.
  pose proof (nat_of_ascii_bound d) as Hbd.
  unfold lower_char in Hd.
  destruct (((65 <=? nat_of_ascii d) && (nat_of_ascii d <=? 90))
            || ((192 <=? nat_of_ascii d) && (nat_of_ascii d <=? 222)
                && negb (nat_of_ascii d =? 215)))%nat eqn:Hup.
  - assert (Hn : nat_of_ascii c = nat_of_ascii d + 32).
    { rewrite <- Hd. apply nat_ascii_embedding.
      apply orb_true_iff in Hup as [Hup | Hup].
      - apply andb_true_iff in Hup as [_ Hup]. apply Nat.leb_le in Hup. lia.
      - apply andb_true_iff in Hup as [Hup _].
        apply andb_true_iff in Hup as [_ Hup]. apply Nat.leb_le in Hup. lia. }
    apply orb_true_iff. right. apply Ascii.eqb_eq.
    unfold upper_char. rewrite Hc.
    replace (nat_of_ascii c - 32) with (nat_of_ascii d) by lia.
    symmetry. apply ascii_nat_embedding.
  - subst d. apply orb_true_iff. left. apply Ascii.eqb_refl.
Qed.

(** Only the spellings of exit and quit lower to them. *)
Lemma lower_exit_quit_inv (line : string) :
  lower line = "exit" \/ lower line = "quit" ->
  mixed_case "exit" line = true \/ mixed_case "quit" line = true.
Proof.
  intros [H | H]; [left | right];
    destruct line as [|c1 [|c2 [|c3 [|c4 [|c5 line]]]]];
    try discriminate H; cbn [lower] in H;
    injection H as H1 H2 H3 H4;
    cbn [mixed_case];
    repeat (apply andb_true_iff; split);
    try reflexivity;
    (apply lower_char_inv; [reflexivity | assumption]).
Qed.

End MoreStripFacts.

(** ** More on the monad *)

Section MoreLaws.

Context {World : Type}.

Implicit Types (m : Machine World) (es : list Event).

Lemma creations_app es1 es2 :
  creations (es1 ++ es2) = creations es1 + creations es2.
Proof.
  induction es1 as [|e es1 IH]; [reflexivity|].
  simpl. rewrite IH. lia.
Qed.

Lemma creations_none es :
  Forall (fun e => is_creation e = false) es -> creations es = 0.
Proof.
  induction 1 as [|e es He _ IH]; [reflexivity|].
  simpl. rewrite He, IH. reflexivity.
Qed.

Lemma traces_of_emits P {A : Type} (c : M World A) : emits P c -> traces P c.
Proof.
  intros Hc m. destruct (Hc m) as [es [Ht [_ HP]]]. exists es. auto.
Qed.

Lemma traces_bind P {A B : Type} (c : M World A) (k : A -> M World B) :
  traces P c -> (forall a, traces P (k a)) -> traces P (bind c k).
Proof.
  intros Hc Hk m. unfold bind.
  destruct (Hc m) as [es1 [Ht1 HP1]].
  destruct (c m) as [m1 [a|e]]; simpl in *.
  - destruct (Hk a m1) as [es2 [Ht2 HP2]].
    exists (es1 ++ es2). rewrite Ht2, Ht1, app_assoc.
    split; [reflexivity | apply Forall_app; auto].
  - exists es1. auto.
Qed.

Lemma traces_try P {A : Type} (c : M World A)
    (handler : PyExn -> option (M World A)) :
  traces P c ->
  (forall e k, handler e = Some k -> traces P k) ->
  traces P (try_except c handler).
Proof.
  intros Hc Hh m. unfold try_except.
  destruct (Hc m) as [es1 [Ht1 HP1]].
  destruct (c m) as [m1 [a|e]]; simpl in *.
  - exists es1. auto.
  - destruct (handler e) as [k|] eqn:Hk; simpl.
    + destruct (Hh e k Hk m1) as [es2 [Ht2 HP2]].
      exists (es1 ++ es2). rewrite Ht2, Ht1, app_assoc.
      split; [reflexivity | apply Forall_app; auto].
    + exists es1. auto.
Qed.

Lemma traces_dict_copy P (l : nat) : traces P (@dict_copy World l).
Proof.
  intros m. unfold dict_copy. exists [].
  destruct (heap m !! l) as [[items|xs]|]; simpl; rewrite app_nil_r; auto.
Qed.

Lemma traces_dict_setitem P (l : nat) (k : string) (v : PyVal) :
  traces P (@dict_setitem World l k v).
Proof.
  intros m. unfold dict_setitem. exists [].
  destruct (heap m !! l) as [[items|xs]|]; simpl; rewrite app_nil_r; auto.
Qed.

Lemma creates_of_emits {A : Type} (c : M World A) :
  emits (fun e => is_creation e = false) c -> creates_at_most 0 c.
Proof.
  intros Hc m. destruct (Hc m) as [es [Ht [_ HP]]]. exists es.
  split; [exact Ht | rewrite (creations_none es HP); lia].
Qed.

Lemma creates_of_traces {A : Type} (c : M World A) :
  traces (fun e => is_creation e = false) c -> creates_at_most 0 c.
Proof.
  intros Hc m. destruct (Hc m) as [es [Ht HP]]. exists es.
  split; [exact Ht | rewrite (creations_none es HP); lia].
Qed.

Lemma creates_weaken {A : Type} (n n' : nat) (c : M World A) :
  n <= n' -> creates_at_most n c -> creates_at_most n' c.
Proof.
  intros Hn Hc m. destruct (Hc m) as [es [Ht Hle]]. exists es.
  split; [exact Ht | lia].
Qed.

Lemma creates_bind {A B : Type} (n1 n2 : nat) (c : M World A)
    (k : A -> M World B) :
  creates_at_most n1 c -> (forall a, creates_at_most n2 (k a)) ->
  creates_at_most (n1 + n2) (bind c k).
Proof.
  intros Hc Hk m. unfold bind.
  destruct (Hc m) as [es1 [Ht1 H1]].
  destruct (c m) as [m1 [a|e]]; simpl in *.
  - destruct (Hk a m1) as [es2 [Ht2 H2]].
    exists (es1 ++ es2). rewrite Ht2, Ht1, app_assoc, creations_app.
    split; [reflexivity | lia].
  - exists es1. split; [exact Ht1 | lia].
Qed.

Lemma creates_try {A : Type} (n1 n2 : nat) (c : M World A)
    (handler : PyExn -> option (M World A)) :
  creates_at_most n1 c ->
  (forall e k, handler e = Some k -> creates_at_most n2 k) ->
  creates_at_most (n1 + n2) (try_except c handler).
Proof.
  intros Hc Hh m. unfold try_except.
  destruct (Hc m) as [es1 [Ht1 H1]].
  destruct (c m) as [m1 [a|e]]; simpl in *.
  - exists es1. split; [exact Ht1 | lia].
  - destruct (handler e) as [k|] eqn:Hk; simpl.
    + destruct (Hh e k Hk m1) as [es2 [Ht2 H2]].
      exists (es1 ++ es2). rewrite Ht2, Ht1, app_assoc, creations_app.
      split; [reflexivity | lia].
    + exists es1. split; [exact Ht1 | lia].
Qed.

End MoreLaws.

(** ** More on the parts of [main_async] *)

Section MoreProgramFacts.

Context {World : Type} (E : Environment World).

Implicit Types (m : Machine World) (es : list Event) (P : Event -> Prop).

Ltac side := intros; simpl; auto.

Ltac split_handler :=
  let e := fresh "e" in
  let k := fresh "k" in
  let H := fresh "H" in
  intros e k H;
  match type of H with
  | context [is_session_not_found e] => destruct (is_session_not_found e)
  | context [is_attribute_error e] => destruct (is_attribute_error e)
  end;
  inversion H; subst; clear H.

(** One step of a proof that a part of the program leaves the store alone
    and emits events of a given kind, the side conditions by [auto]. *)
Ltac emits_auto :=
  first
    [ apply emits_ret
    | apply emits_raise
    | apply emits_print; side
    | apply emits_input; side
    | apply emits_state_of
    | apply emits_id_of
    | apply emits_call_get_session; side
    | apply emits_call_Runner; side
    | apply emits_call_add_user_query_to_history; side
    | apply emits_call_call_agent_async; side
    | apply emits_call_generate_id; side
    | apply emits_call_random_choices; side
    | apply emits_for_each; intros ?
    | apply emits_bind; [| intros ?]
    | apply emits_try; [| split_handler] ].

Lemma emits_bind_input P {B : Type} (prompt line : string)
    (k : string -> M World B) :
  P (Input prompt (Some line)) -> emits P (k line) ->
  emits P (bind (input prompt (Some line)) k).
Proof.
  intros HP Hk m. unfold bind, input. cbn [fst snd].
  destruct (Hk (log [Input prompt (Some line)] m)) as [es [Ht [Hh HPs]]].
  exists (Input prompt (Some line) :: es).
  rewrite Ht, Hh. cbn [trace heap log]. rewrite <- app_assoc.
  split; [reflexivity | split; [reflexivity | constructor; assumption]].
Qed.

Lemma loop_event_more app USER_ID line stdin e :
  loop_event app USER_ID stdin e -> loop_event app USER_ID (line :: stdin) e.
Proof.
  destruct e; simpl; intuition.
Qed.

(** What the loop emits: see [loop_event]. *)
Lemma conversation_loop_events USER_ID current_session stdin :
  emits (loop_event APP_NAME USER_ID stdin)
        (conversation_loop E USER_ID current_session stdin).
Proof.
  revert current_session.
  induction stdin as [|line stdin IH]; intros current_session;
    cbn [conversation_loop].
  - repeat emits_auto.
  - apply emits_bind_input; [exact I|].
    destruct (PyStr.str_in (PyStr.lower line) ["exit"; "quit"]) eqn:Hx.
    + repeat emits_auto.
    + apply emits_bind; [emits_auto | intros _].
      apply emits_bind; [emits_auto | intros _].
      apply emits_bind; [unfold refresh_session; repeat emits_auto |].
      intros [[s|]|]; [| repeat emits_auto ..].
      eapply emits_weaken; [| apply IH]. apply loop_event_more.
Qed.

Lemma state_examination_under_app USER_ID current_session :
  emits (under_app APP_NAME) (state_examination E USER_ID current_session).
Proof.
  unfold state_examination. destruct current_session; repeat emits_auto.
Qed.

Lemma after_setup_under_app USER_ID current_session stdin :
  emits (under_app APP_NAME) (after_setup E USER_ID current_session stdin).
Proof.
  unfold after_setup. destruct current_session as [s|]; [| repeat emits_auto].
  do 3 (apply emits_bind; [emits_auto | intros _]).
  apply emits_bind; [| intros s'; apply state_examination_under_app].
  eapply emits_weaken; [| apply conversation_loop_events].
  intros []; simpl; intuition.
Qed.

Lemma read_user_name_emits P line :
  (forall p l, P (Input p l)) -> (forall t, P (Print t)) ->
  emits P (@read_user_name World line).
Proof.
  intros HI HPr. unfold read_user_name.
  apply emits_bind; [apply emits_input; apply HI | intros s].
  destruct (PyStr.is_empty (PyStr.strip s)).
  - apply emits_bind; [apply emits_print; apply HPr | intros _; apply emits_ret].
  - apply emits_ret.
Qed.

Lemma traces_call_create_session P a u i l :
  (forall st r, P (CreateSession a u i st r)) ->
  traces P (call_create_session E a u i l).
Proof.
  intros H m. unfold call_create_session.
  destruct (create_session E (world m) a u i (view_dict (heap m) l))
    as [w r].
  eexists [_]. simpl. split; [reflexivity | auto].
Qed.

Lemma traces_create_for P USER_ID SESSION_ID :
  (forall st r, P (CreateSession APP_NAME USER_ID SESSION_ID st r)) ->
  traces P (create_for E USER_ID SESSION_ID).
Proof.
  intros H. unfold create_for.
  apply traces_bind; [apply traces_dict_copy | intros l].
  apply traces_bind; [apply traces_dict_setitem | intros _].
  apply traces_call_create_session. exact H.
Qed.

Ltac traces_auto :=
  first
    [ apply traces_create_for; side
    | apply traces_bind; [| intros ?]
    | apply traces_try; [| split_handler]
    | apply traces_of_emits; solve [repeat emits_auto] ].

Lemma session_setup_under_app USER_ID :
  traces (under_app APP_NAME) (session_setup E USER_ID).
Proof.
  unfold session_setup, error_id_suffix. repeat traces_auto.
Qed.

(** Every call a run makes that names an app names [APP_NAME]. *)
Lemma main_async_under_app stdin :
  traces (under_app APP_NAME) (main_async E stdin).
Proof.
  unfold main_async.
  apply traces_bind.
  - apply traces_of_emits. apply read_user_name_emits; side.
  - intros n. apply traces_bind; [apply session_setup_under_app |].
    intros [U cs]. apply traces_of_emits. apply after_setup_under_app.
Qed.

Lemma creates_create_for USER_ID SESSION_ID :
  creates_at_most 1 (create_for E USER_ID SESSION_ID).
Proof.
  unfold create_for.
  apply (creates_bind 0 1);
    [apply creates_of_traces, traces_dict_copy | intros l].
  apply (creates_bind 0 1);
    [apply creates_of_traces, traces_dict_setitem | intros _].
  intros m. unfold call_create_session.
  destruct (create_session E (world m) APP_NAME USER_ID SESSION_ID
              (view_dict (heap m) l)) as [w r].
  eexists [_]. simpl. split; [reflexivity | simpl; lia].
Qed.

Ltac quiet := apply creates_of_emits; solve [repeat emits_auto].

(** PART 3 calls [create_session] at most once. *)
Lemma creates_session_setup USER_ID :
  creates_at_most 1 (session_setup E USER_ID).
Proof.
  unfold session_setup. apply (creates_try 0 1); [quiet | split_handler].
  - apply (creates_bind 0 1); [quiet | intros _].
    apply (creates_bind 1 0); [apply creates_create_for | intros s]. quiet.
  - apply (creates_bind 0 1); [quiet | intros _].
    apply (creates_bind 0 1); [quiet | intros _].
    apply (creates_bind 0 1);
      [apply creates_of_emits, error_id_suffix_emits | intros suffix].
    apply (creates_bind 1 0); [apply creates_create_for | intros s]. quiet.
Qed.

Lemma creates_main_async stdin : creates_at_most 1 (main_async E stdin).
Proof.
  unfold main_async. apply (creates_bind 0 1).
  - apply creates_of_emits. apply read_user_name_emits; side.
  - intros n. apply (creates_bind 1 0); [apply creates_session_setup |].
    intros [U cs]. apply creates_of_emits. apply after_setup_emits.
Qed.

Ltac machine_norm :=
  unfold print, input, ret, raise, state_of, id_of;
  unfold log, set_world, set_heap;
  cbn; rewrite <- ?app_assoc; cbn.

(** PART 3 never ends with no session: a lookup that returned [None] has
    raised by then, and each handler ends with the session it created. *)
Lemma session_setup_some USER_ID :
  gives (fun setup : string * option Session.t => snd setup <> None)
        (session_setup E USER_ID).
Proof.
  unfold session_setup. apply gives_try.
  - apply gives_bind. intros [s|].
    + repeat (apply gives_bind; intros ?). apply gives_ret. discriminate.
    + intros m m' a H. unfold bind, state_of, raise in H. discriminate H.
  - split_handler;
      repeat (apply gives_bind; intros ?); apply gives_ret; discriminate.
Qed.

(** PART 6 returns whatever the service does, after one lookup. *)
Lemma state_examination_shape USER_ID current_session m :
  exists r prints,
    state_examination E USER_ID (Some current_session) m
    = ({| world := fst (get_session E (world m) APP_NAME USER_ID
                                     (Session.id current_session));
          heap := heap m;
          trace := trace m
                   ++ GetSession APP_NAME USER_ID (Session.id current_session) r
                      :: map Print prints |},
       Returns tt).
Proof.
  destruct (get_session E (world m) APP_NAME USER_ID
              (Session.id current_session)) as [w1 [[fs|]|e]] eqn:Hg.
  - rewrite (state_examination_dump E USER_ID current_session m w1 fs Hg).
    exists (Returns (Some fs)),
           ((PyStr.newline ++ "Final Session State:")%string
            :: map (fun kv => (fst kv ++ ": " ++ fmt E (snd kv))%string)
                   (Session.state fs)).
    unfold log, set_world. cbn [world heap trace fst map app].
    rewrite map_map. reflexivity.
  - rewrite (state_examination_none E USER_ID current_session m w1 Hg).
    exists (Returns None),
           [ (PyStr.newline ++ "Final Session State:")%string;
             "Error retrieving final session state: 'NoneType' object has no attribute 'state'" ].
    reflexivity.
  - rewrite (state_examination_raises E USER_ID current_session m w1 e Hg).
    eexists (Raises e), [_]. reflexivity.
Qed.

(** An iteration whose history update raises. *)
Lemma conversation_loop_history_raises USER_ID current_session line rest m
    w1 e :
  PyStr.str_in (PyStr.lower line) ["exit"; "quit"] = false ->
  add_user_query_to_history E (world m) APP_NAME USER_ID
    (Session.id current_session) line = (w1, Raises e) ->
  conversation_loop E USER_ID current_session (line :: rest) m
  = ({| world := w1; heap := heap m;
        trace :=
          trace m
          ++ [ Input (displayed_name E USER_ID current_session ++ ": ")
                     (Some line);
               AddUserQueryToHistory APP_NAME USER_ID
                 (Session.id current_session) line (Raises e) ] |},
     Raises e).
Proof.
  intros Hx Ha. cbn [conversation_loop]. rewrite fmt_user_name.
  unfold bind at 1. unfold input at 1. cbn [fst snd]. rewrite Hx.
  unfold bind at 1. unfold call_add_user_query_to_history.
  cbn [world log]. rewrite Ha. machine_norm. reflexivity.
Qed.

(** An iteration whose agent call raises. *)
Lemma conversation_loop_agent_raises USER_ID current_session line rest m
    w1 w2 e :
  PyStr.str_in (PyStr.lower line) ["exit"; "quit"] = false ->
  add_user_query_to_history E (world m) APP_NAME USER_ID
    (Session.id current_session) line = (w1, Returns tt) ->
  call_agent_async E w1 USER_ID (Session.id current_session) line
  = (w2, Raises e) ->
  conversation_loop E USER_ID current_session (line :: rest) m
  = ({| world := w2; heap := heap m;
        trace :=
          trace m
          ++ [ Input (displayed_name E USER_ID current_session ++ ": ")
                     (Some line);
               AddUserQueryToHistory APP_NAME USER_ID
                 (Session.id current_session) line (Returns tt);
               CallAgent USER_ID (Session.id current_session) line
                         (Raises e) ] |},
     Raises e).
Proof.
  intros Hx Ha Hc. cbn [conversation_loop]. rewrite fmt_user_name.
  unfold bind at 1. unfold input at 1. cbn [fst snd]. rewrite Hx.
  unfold bind at 1. unfold call_add_user_query_to_history.
  cbn [world log]. rewrite Ha.
  unfold bind at 1. unfold call_call_agent_async.
  cbn [world log set_world]. rewrite Hc. machine_norm. reflexivity.
Qed.

(** An iteration whose refresh returns [None]. *)
Lemma conversation_loop_refresh_none USER_ID current_session line rest m
    w1 w2 w3 :
  PyStr.str_in (PyStr.lower line) ["exit"; "quit"] = false ->
  add_user_query_to_history E (world m) APP_NAME USER_ID
    (Session.id current_session) line = (w1, Returns tt) ->
  call_agent_async E w1 USER_ID (Session.id current_session) line
  = (w2, Returns tt) ->
  get_session E w2 APP_NAME USER_ID (Session.id current_session)
  = (w3, Returns None) ->
  conversation_loop E USER_ID current_session (line :: rest) m
  = ({| world := w3; heap := heap m;
        trace :=
          trace m
          ++ [ Input (displayed_name E USER_ID current_session ++ ": ")
                     (Some line);
               AddUserQueryToHistory APP_NAME USER_ID
                 (Session.id current_session) line (Returns tt);
               CallAgent USER_ID (Session.id current_session) line
                         (Returns tt);
               GetSession APP_NAME USER_ID (Session.id current_session)
                          (Returns None);
               Print "Critical error: Session became None during loop. Exiting." ] |},
     Returns None).
Proof.
  intros Hx Ha Hc Hg. cbn [conversation_loop]. rewrite fmt_user_name.
  unfold bind at 1. unfold input at 1. cbn [fst snd]. rewrite Hx.
  unfold bind at 1. unfold call_add_user_query_to_history.
  cbn [world log]. rewrite Ha.
  unfold bind at 1. unfold call_call_agent_async.
  cbn [world log set_world]. rewrite Hc.
  unfold bind at 1. unfold refresh_session, try_except, bind at 1.
  unfold call_get_session. cbn [world log set_world]. rewrite Hg.
  machine_norm. reflexivity.
Qed.


(** One run when the creation in the not-found handler raises: the
    exception leaves [main_async]. *)
Lemma run_create_raises w w1 w2 name lines e e' :
  get_session E w APP_NAME (current_user_name name)
              (session_id_for (current_user_name name)) = (w1, Raises e) ->
  is_session_not_found e = true ->
  create_session E w1 APP_NAME (current_user_name name)
                 (session_id_for (current_user_name name))
                 (seeded_state (current_user_name name)) = (w2, Raises e') ->
  snd (run E w (name :: lines)) = Raises e'
  /\ trace (fst (run E w (name :: lines)))
     = name_prompt name
       ++ [ GetSession APP_NAME (current_user_name name)
                       (session_id_for (current_user_name name)) (Raises e);
            Print ("Welcome, " ++ current_user_name name
                   ++ "! Creating new session...");
            CreateSession APP_NAME (current_user_name name)
                          (session_id_for (current_user_name name))
                          (seeded_state (current_user_name name))
                          (Raises e') ].
Proof.
  intros Hg He Hc. rewrite run_unfold.
  destruct (session_setup_not_found E (current_user_name name)
              (log (name_prompt name) (boot w)) w1 e eq_refl Hg He)
    as [h' [_ Hs]].
  rewrite Hc in Hs. unfold bind. rewrite Hs. split; reflexivity.
Qed.

(** PART 3 when the lookup raises something else and [_generate_id] raises
    something else than [AttributeError]. *)
Lemma session_setup_suffix_raises USER_ID m w1 w2 e e2 :
  get_session E (world m) APP_NAME USER_ID (session_id_for USER_ID)
  = (w1, Raises e) ->
  is_session_not_found e = false ->
  _generate_id E w1 = (w2, Raises e2) ->
  is_attribute_error e2 = false ->
  session_setup E USER_ID m
  = ({| world := w2; heap := heap m;
        trace :=
          trace m
          ++ [ GetSession APP_NAME USER_ID (session_id_for USER_ID)
                          (Raises e);
               Print ("An unexpected error occurred during session handling: "
                      ++ exn_text e);
               Print "Proceeding with a temporary guest session due to error.";
               GenerateId (Raises e2) ] |},
     Raises e2).
Proof.
  intros Hg He Hi Ha.
  unfold session_setup, try_except, bind at 1, call_get_session.
  rewrite Hg. cbn [fst snd]. rewrite He.
  unfold bind at 1. unfold print at 1. cbn [fst snd].
  unfold bind at 1. unfold print at 1. cbn [fst snd].
  unfold bind at 1. rewrite error_id_suffix_eq.
  cbn [world log set_world]. rewrite Hi, Ha.
  unfold log, set_world. cbn [world heap trace].
  rewrite <- !app_assoc. reflexivity.
Qed.

(** What follows PART 3 when the construction of the runner raises. *)
Lemma after_setup_runner_raises USER_ID s stdin m w1 e :
  Runner E (world m) APP_NAME = (w1, Raises e) ->
  after_setup E USER_ID (Some s) stdin m
  = (log [NewRunner APP_NAME (Raises e)] (set_world w1 m), Raises e).
Proof.
  intros Hr. unfold after_setup, bind at 1, call_Runner. rewrite Hr.
  reflexivity.
Qed.

(** What follows PART 3 when the runner is built and the first line is
    exit or quit. *)
Lemma after_setup_exit USER_ID s line rest m w1 :
  Runner E (world m) APP_NAME = (w1, Returns tt) ->
  PyStr.str_in (PyStr.lower line) ["exit"; "quit"] = true ->
  after_setup E USER_ID (Some s) (line :: rest) m
  = state_examination E USER_ID (Some s)
      {| world := w1; heap := heap m;
         trace :=
           trace m
           ++ [ NewRunner APP_NAME (Returns tt);
                Print (PyStr.newline ++ "Welcome to Customer Service Chat!");
                Print ("Type 'exit' or 'quit' to end the conversation."
                       ++ PyStr.newline);
                Input (displayed_name E USER_ID s ++ ": ") (Some line);
                Print "Ending conversation. Goodbye!" ] |}.
Proof.
  intros Hr Hx. unfold after_setup, bind at 1, call_Runner. rewrite Hr.
  cbn [fst snd].
  unfold bind at 1. unfold print at 1. cbn [fst snd].
  unfold bind at 1. unfold print at 1. cbn [fst snd].
  unfold bind at 1. rewrite (conversation_loop_exit E _ _ _ _ _ Hx).
  f_equal. unfold log, set_world. cbn [world heap trace].
  rewrite <- !app_assoc. reflexivity.
Qed.

(** The copy made for a new session holds the very list objects of the
    template: a change of one of them shows through both dictionaries. *)
Lemma create_for_shares_lists USER_ID SESSION_ID m (key : string)
    (xs : list PyData) :
  template_intact (heap m) ->
  key = "purchased_courses" \/ key = "interaction_history" ->
  exists l,
    let h' := heap (fst (create_for E USER_ID SESSION_ID m)) in
    let copy := length (heap m) in
    copy <> initial_state_template
    /\ dict_get (view_dict (<[l := OList xs]> h') initial_state_template) key
       = Some (DList xs)
    /\ dict_get (view_dict (<[l := OList xs]> h') copy) key
       = Some (DList xs).
Proof.
  intros Hi Hkey. unfold template_intact in Hi. cbn in Hi.
  pose proof (lookup_lt_Some _ _ _ Hi) as Hlt.
  assert (Hlt' : 2 < length (heap m)) by exact Hlt.
  unfold create_for, bind, dict_copy. rewrite Hi.
  unfold dict_setitem. cbn [heap set_heap].
  rewrite (list_lookup_middle (heap m) [] _ (length (heap m)) eq_refl).
  unfold call_create_session. cbn [heap set_heap world].
  match goal with
  | |- context [create_session E ?w ?a ?u ?i ?st] =>
      destruct (create_session E w a u i st) as [w' r]
  end.
  cbn [fst trace heap log set_world set_heap].
  set (h' := <[length (heap m) := _]> (heap m ++ [_])).
  assert (Hlen : length h' = S (length (heap m))).
  { unfold h'. rewrite length_insert, length_app. simpl. lia. }
  assert (Ht : h' !! initial_state_template = Some (ODict [ ("user_name", VStr "");
                                        ("purchased_courses", VRef 0);
                                        ("interaction_history", VRef 1) ])).
  { unfold h'. rewrite list_lookup_insert_ne by lia.
    rewrite lookup_app_l by exact Hlt. exact Hi. }
  assert (Hc : h' !! length (heap m)
               = Some (ODict [ ("user_name", VStr USER_ID);
                               ("purchased_courses", VRef 0);
                               ("interaction_history", VRef 1) ])).
  { unfold h'. apply list_lookup_insert_eq. rewrite length_app. simpl. lia. }
  unfold initial_state_template in *.
  destruct Hkey as [-> | ->]; [exists 0 | exists 1];
    (split; [lia |]);
    unfold view_dict;
    rewrite !list_lookup_insert_ne by lia;
    rewrite Ht, Hc; cbn [map fst snd view_val];
    rewrite list_lookup_insert_eq by lia;
    split; reflexivity.
Qed.

(** The exception Python raises for [None.state]. *)
Lemma none_state_error_not_found :
  is_session_not_found
    {| exn_class := AttributeError;
       exn_text := "'NoneType' object has no attribute 'state'" |} = false.
Proof. reflexivity. Qed.

(** PART 3 when the lookup returns [None] and a suffix comes out. *)
Lemma session_setup_none_fallback USER_ID m w1 m2 suffix :
  heap m = module_heap ->
  get_session E (world m) APP_NAME USER_ID (session_id_for USER_ID)
  = (w1, Returns None) ->
  error_id_suffix E
    (log [ GetSession APP_NAME USER_ID (session_id_for USER_ID)
                      (Returns None);
           Print "An unexpected error occurred during session handling: 'NoneType' object has no attribute 'state'";
           Print "Proceeding with a temporary guest session due to error." ]
         (set_world w1 m))
  = (m2, Returns suffix) ->
  exists h',
    session_setup E USER_ID m
    = let guest := ("Guest_Error_" ++ suffix)%string in
      let (w3, r) := create_session E (world m2) APP_NAME guest
                       (session_id_for guest) (seeded_state guest) in
      let t := trace m2
               ++ [ CreateSession APP_NAME guest (session_id_for guest)
                                  (seeded_state guest) r ] in
      match r with
      | Returns s =>
          ({| world := w3; heap := h';
              trace := t ++ [Print ("Error fallback session created: "
                                    ++ Session.id s)] |},
           Returns (guest, Some s))
      | Raises e' => ({| world := w3; heap := h'; trace := t |}, Raises e')
      end.
Proof.
  intros Hh Hg Hs.
  assert (Hh2 : heap m2 = module_heap).
  { match type of Hs with
    | error_id_suffix E ?m1 = _ =>
        destruct (error_id_suffix_emits E m1) as [es [_ [H _]]]
    end.
    rewrite Hs in H. simpl in H. rewrite H. exact Hh. }
  destruct (create_for_boot E ("Guest_Error_" ++ suffix)
              (session_id_for ("Guest_Error_" ++ suffix)) m2 Hh2)
    as [h' [_ Hc]].
  exists h'.
  unfold session_setup, try_except, bind at 1, call_get_session.
  rewrite Hg. cbn [fst snd state_of]. unfold bind at 1, raise at 1.
  cbn [fst snd]. rewrite none_state_error_not_found.
  unfold bind at 1. unfold print at 1. cbn [fst snd].
  unfold bind at 1. unfold print at 1. cbn [fst snd].
  rewrite !log_log. cbn [app exn_text].
  change ("An unexpected error occurred during session handling: "
          ++ "'NoneType' object has no attribute 'state'")%string
    with "An unexpected error occurred during session handling: 'NoneType' object has no attribute 'state'".
  unfold bind at 1. rewrite Hs.
  unfold bind at 1. rewrite Hc.
  destruct (create_session E (world m2) APP_NAME ("Guest_Error_" ++ suffix)
              (session_id_for ("Guest_Error_" ++ suffix))
              (seeded_state ("Guest_Error_" ++ suffix))) as [w3 [s|e']].
  - machine_norm. reflexivity.
  - reflexivity.
Qed.

(** One run when the first lookup returns [None] and a suffix comes out. *)
Lemma run_none_fallback w w1 w2 name lines suffix :
  get_session E w APP_NAME (current_user_name name)
              (session_id_for (current_user_name name))
  = (w1, Returns None) ->
  (_generate_id E w1 = (w2, Returns suffix)
   \/ exists w1' e',
        _generate_id E w1 = (w1', Raises e')
        /\ is_attribute_error e' = true
        /\ random_choices E w1' (ascii_lowercase ++ digits) 6 = (w2, suffix)) ->
  exists gen r es,
    trace (fst (run E w (name :: lines)))
    = name_prompt name
      ++ [ GetSession APP_NAME (current_user_name name)
                      (session_id_for (current_user_name name))
                      (Returns None);
           Print "An unexpected error occurred during session handling: 'NoneType' object has no attribute 'state'";
           Print "Proceeding with a temporary guest session due to error." ]
      ++ gen
      ++ [ CreateSession APP_NAME ("Guest_Error_" ++ suffix)
                         (session_id_for ("Guest_Error_" ++ suffix))
                         (seeded_state ("Guest_Error_" ++ suffix)) r ]
      ++ es
    /\ Forall (fun ev => is_creation ev = false) gen
    /\ Forall (fun ev => is_creation ev = false) es.
Proof.
  intros Hg Hgen. rewrite run_unfold.
  set (USER_ID := current_user_name name) in *.
  set (m0 := log (name_prompt name) (boot w)).
  set (m1 := log [ GetSession APP_NAME USER_ID (session_id_for USER_ID)
                              (Returns None);
                   Print "An unexpected error occurred during session handling: 'NoneType' object has no attribute 'state'";
                   Print "Proceeding with a temporary guest session due to error." ]
                 (set_world w1 m0)).
  assert (Hsuffix : exists gen,
             error_id_suffix E m1 = (log gen (set_world w2 m1), Returns suffix)
             /\ Forall (fun ev => is_creation ev = false) gen).
  { rewrite error_id_suffix_eq. cbn [world m1 log set_world].
    destruct Hgen as [H | [w1' [e' [H [Ha Hr]]]]]; rewrite H.
    - eexists. split; [reflexivity | repeat constructor].
    - rewrite Ha, Hr. eexists. split; [reflexivity | repeat constructor]. }
  destruct Hsuffix as [gen [Hs Hgen']].
  destruct (session_setup_none_fallback USER_ID m0 w1 _ suffix eq_refl Hg Hs)
    as [h' Hsetup].
  exists gen. unfold bind. rewrite Hsetup. clear Hsetup.
  cbn [world log set_world].
  destruct (create_session E w2 APP_NAME ("Guest_Error_" ++ suffix)
              (session_id_for ("Guest_Error_" ++ suffix))
              (seeded_state ("Guest_Error_" ++ suffix))) as [w3 [s|e']].
  - cbn [fst snd].
    match goal with
    | |- context [after_setup E ?U (Some s) lines ?m] =>
        destruct (after_setup_emits E U (Some s) lines m) as [es [Ht [_ HP]]];
        rewrite Ht
    end.
    exists (Returns s),
           (Print ("Error fallback session created: " ++ Session.id s) :: es).
    split; [| split; [exact Hgen' |]].
    + cbn [trace m1 m0 log set_world boot app]. rewrite <- !app_assoc.
      reflexivity.
    + constructor; [reflexivity | exact HP].
  - exists (Raises e'), []. split; [| split; [exact Hgen' | constructor]].
    cbn [fst trace m1 m0 log set_world boot app]. rewrite <- !app_assoc.
    rewrite ?app_nil_r. reflexivity.
Qed.

(** One run when the lookup finds a session, the runner is built and the
    first line is exit or quit. *)
Lemma run_found_exit w w1 w2 name line rest s :
  get_session E w APP_NAME (current_user_name name)
              (session_id_for (current_user_name name))
  = (w1, Returns (Some s)) ->
  Runner E w1 APP_NAME = (w2, Returns tt) ->
  PyStr.str_in (PyStr.lower line) ["exit"; "quit"] = true ->
  exists r prints,
    snd (run E w (name :: line :: rest)) = Returns tt
    /\ trace (fst (run E w (name :: line :: rest)))
       = name_prompt name
         ++ [ GetSession APP_NAME (current_user_name name)
                         (session_id_for (current_user_name name))
                         (Returns (Some s));
              Print ("Welcome back, "
                     ++ displayed_name E (current_user_name name) s
                     ++ "! Loaded existing session: " ++ Session.id s);
              NewRunner APP_NAME (Returns tt);
              Print (PyStr.newline ++ "Welcome to Customer Service Chat!");
              Print ("Type 'exit' or 'quit' to end the conversation."
                     ++ PyStr.newline);
              Input (displayed_name E (current_user_name name) s ++ ": ")
                    (Some line);
              Print "Ending conversation. Goodbye!";
              GetSession APP_NAME (current_user_name name) (Session.id s) r ]
         ++ map Print prints.
Proof.
  intros Hg Hr Hx. rewrite run_unfold. unfold bind.
  rewrite (session_setup_found E (current_user_name name)
             (log (name_prompt name) (boot w)) w1 s Hg).
  cbn [fst snd].
  rewrite (after_setup_exit (current_user_name name) s line rest
             (log [ GetSession APP_NAME (current_user_name name)
                               (session_id_for (current_user_name name))
                               (Returns (Some s));
                    Print ("Welcome back, "
                           ++ displayed_name E (current_user_name name) s
                           ++ "! Loaded existing session: " ++ Session.id s) ]
                  (set_world w1 (log (name_prompt name) (boot w))))
             w2 Hr Hx).
  match goal with
  | |- context [state_examination E ?U (Some s) ?m] =>
      destruct (state_examination_shape U s m) as [r [prints Hse]]
  end.
  exists r, prints. rewrite Hse. split; [reflexivity|].
  cbn [fst trace log set_world boot app]. rewrite <- !app_assoc. reflexivity.
Qed.



End MoreProgramFacts.

(** A spelling of exit or quit has no whitespace around it. *)
Lemma exit_spelling_unpadded (line : string) :
  PyStr.mixed_case "exit" line = true \/ PyStr.mixed_case "quit" line = true ->
  PyStr.strip line = line.
Proof.
  intros [H | H];
    destruct line as [|c1 [|c2 [|c3 [|c4 [|c5 line]]]]];
    try discriminate H; cbn [PyStr.mixed_case] in H;
    repeat (apply andb_true_iff in H as [? H]);
    try discriminate H;
    repeat match goal with
           | Hc : _ || _ = true |- _ =>
               apply orb_true_iff in Hc as [Hc | Hc];
               apply Ascii.eqb_eq in Hc; subst
           end;
    reflexivity.
Qed.




(** * Further properties, stated *)

(** X1.  The user id made from the typed name (lines 29-38) is never empty,
    has no whitespace at either end, and typing a user id as the name gives
    that user id again. *)
Theorem X1_user_id_is_clean :
  forall name : string,
    PyStr.is_empty (current_user_name name) = false
    /\ PyStr.strip (current_user_name name) = current_user_name name
    /\ current_user_name (current_user_name name) = current_user_name name.
Proof.
  intros name.
  assert (H : PyStr.is_empty (current_user_name name) = false
              /\ PyStr.strip (current_user_name name) = current_user_name name).
  { unfold current_user_name.
    destruct (PyStr.is_empty (PyStr.strip name)) eqn:He.
    - split; reflexivity.
    - split; [exact He | apply strip_strip]. }
  destruct H as [Hne Hs]. split; [exact Hne | split; [exact Hs |]].
  unfold current_user_name at 1. rewrite Hs, Hne. reflexivity.
Qed.

(** X2.  The test of line 114 holds exactly for the spellings of exit and
    quit in any mixture of cases.  The line is compared as typed: a line
    that passes the test has no whitespace around it, so a padded exit is
    not taken for one. *)
Theorem X2_only_spellings_of_exit_quit_end_the_loop :
  forall line : string,
    (PyStr.str_in (PyStr.lower line) ["exit"; "quit"] = true
     <-> (PyStr.mixed_case "exit" line = true
          \/ PyStr.mixed_case "quit" line = true))
    /\ (PyStr.str_in (PyStr.lower line) ["exit"; "quit"] = true ->
        PyStr.strip line = line).
Proof.
  intros line.
  assert (Hiff : PyStr.str_in (PyStr.lower line) ["exit"; "quit"] = true
                 <-> (PyStr.mixed_case "exit" line = true
                      \/ PyStr.mixed_case "quit" line = true)).
  { split.
    - intros H. apply lower_exit_quit_inv.
      simpl in H. rewrite orb_false_r in H.
      apply orb_true_iff in H as [H | H]; apply String.eqb_eq in H; auto.
    - intros H. apply str_in_exit_quit, mixed_case_exit_quit, H. }
  split; [exact Hiff |].
  intros H. apply exit_spelling_unpadded, Hiff, H.
Qed.

Lemma X2_only_spellings_of_exit_quit_end_the_loop_witness :
  PyStr.str_in (PyStr.lower "QuIt") ["exit"; "quit"] = true
  /\ PyStr.strip "QuIt" = "QuIt".
Proof.
  pose proof (X2_only_spellings_of_exit_quit_end_the_loop "QuIt")
    as [[_ Hspell] Hpad].
  assert (H : PyStr.str_in (PyStr.lower "QuIt") ["exit"; "quit"] = true)
    by (apply Hspell; right; reflexivity).
  split; [exact H | exact (Hpad H)].
Defined.

(** X3.  Whatever the collaborators do and whatever is typed, one run
    calls create_session at most once. *)
Theorem X3_at_most_one_session_created :
  forall (World : Type) (E : Environment World) (w : World)
         (stdin : list string),
    creations (trace (fst (run E w stdin))) <= 1.
Proof.
  intros World E w stdin.
  destruct (creates_main_async E stdin (boot w)) as [es [Ht Hle]].
  unfold run. rewrite Ht. exact Hle.
Qed.

(** X4.  When PART 3 (lines 43-90) returns, it returns with a session: the
    test of line 92 for a missing session never succeeds. *)
Theorem X4_setup_never_returns_without_session :
  forall (World : Type) (E : Environment World) (USER_ID : string)
         (m m' : Machine World) (U : string)
         (current_session : option Session.t),
    session_setup E USER_ID m = (m', Returns (U, current_session)) ->
    exists s, current_session = Some s.
Proof.
  intros World E USER_ID m m' U current_session H.
  pose proof (session_setup_some E USER_ID m m' (U, current_session) H) as Hs.
  simpl in Hs. destruct current_session as [s|]; [eauto | congruence].
Qed.

Lemma X4_setup_never_returns_without_session_witness :
  exists s,
    Some (Session.mk "Ada_main_session" (seeded_state "Ada")) = Some s.
Proof.
  apply (X4_setup_never_returns_without_session _ Stub.env "Ada"
           (boot Stub.fresh)
           (fst (session_setup Stub.env "Ada" (boot Stub.fresh))) "Ada").
  reflexivity.
Defined.

(** X5.  The copy of the template made for a new session (lines 55 and 82)
    is shallow: it is another dictionary, but under purchased_courses and
    under interaction_history it holds the list objects of the template, so
    that new contents of such a list show through the template and through
    the copy alike. *)
Theorem X5_copy_shares_the_template_lists :
  forall (World : Type) (E : Environment World) (USER_ID SESSION_ID : string)
         (m : Machine World) (key : string) (xs : list PyData),
    template_intact (heap m) ->
    key = "purchased_courses" \/ key = "interaction_history" ->
    exists l,
      let h' := heap (fst (create_for E USER_ID SESSION_ID m)) in
      let copy := length (heap m) in
      copy <> initial_state_template
      /\ dict_get (view_dict (<[l := OList xs]> h') initial_state_template)
                  key = Some (DList xs)
      /\ dict_get (view_dict (<[l := OList xs]> h') copy) key
         = Some (DList xs).
Proof.
  intros World E USER_ID SESSION_ID m key xs Hi Hkey.
  exact (create_for_shares_lists E USER_ID SESSION_ID m key xs Hi Hkey).
Qed.

Lemma X5_copy_shares_the_template_lists_witness :
  exists l,
    let h' := heap (fst (create_for Stub.env "Ada" "Ada_main_session"
                                    (boot Stub.fresh))) in
    3 <> initial_state_template
    /\ dict_get (view_dict (<[l := OList [DStr "Rocq 101"]]> h')
                           initial_state_template)
                "purchased_courses" = Some (DList [DStr "Rocq 101"])
    /\ dict_get (view_dict (<[l := OList [DStr "Rocq 101"]]> h') 3)
                "purchased_courses" = Some (DList [DStr "Rocq 101"]).
Proof.
  exact (X5_copy_shares_the_template_lists _ Stub.env "Ada" "Ada_main_session"
           (boot Stub.fresh) "purchased_courses" [DStr "Rocq 101"]
           eq_refl (or_introl eq_refl)).
Defined.

(** X6.  An exception raised by create_session in the handler for
    SessionNotFoundError (lines 52-65) is not caught by the handler for
    other exceptions: the run ends with it right after that call, and no
    guest session is tried. *)
Theorem X6_failed_creation_ends_the_run :
  forall (World : Type) (E : Environment World) (w w1 w2 : World)
         (name : string) (lines : list string) (e e' : PyExn),
    let USER_ID := current_user_name name in
    let SESSION_ID := (USER_ID ++ "_main_session")%string in
    get_session E w APP_NAME USER_ID SESSION_ID = (w1, Raises e) ->
    exn_class e = SessionNotFoundError ->
    create_session E w1 APP_NAME USER_ID SESSION_ID (seeded_state USER_ID)
    = (w2, Raises e') ->
    snd (run E w (name :: lines)) = Raises e'
    /\ trace (fst (run E w (name :: lines)))
       = name_prompt name
         ++ [ GetSession APP_NAME USER_ID SESSION_ID (Raises e);
              Print ("Welcome, " ++ USER_ID ++ "! Creating new session...");
              CreateSession APP_NAME USER_ID SESSION_ID (seeded_state USER_ID)
                            (Raises e') ].
Proof.
  intros World E w w1 w2 name lines e e' USER_ID SESSION_ID Hg He Hc.
  apply (run_create_raises E w w1 w2 name lines e e' Hg); [| exact Hc].
  unfold is_session_not_found. rewrite He. reflexivity.
Qed.

Lemma X6_failed_creation_ends_the_run_witness :
  let w := {| Fixed.lookup := Raises Stub.not_found;
              Fixed.creation := Some Fixed.timeout;
              Fixed.generated := Returns "7f3a";
              Fixed.runner := None; Fixed.history := None;
              Fixed.agent := None |} in
  snd (run Fixed.env w ["Ada"; "hello"]) = Raises Fixed.timeout
  /\ trace (fst (run Fixed.env w ["Ada"; "hello"]))
     = name_prompt "Ada"
       ++ [ GetSession APP_NAME "Ada" "Ada_main_session"
                       (Raises Stub.not_found);
            Print "Welcome, Ada! Creating new session...";
            CreateSession APP_NAME "Ada" "Ada_main_session"
                          (seeded_state "Ada") (Raises Fixed.timeout) ].
Proof.
  intros w.
  apply (X6_failed_creation_ends_the_run _ Fixed.env w w w "Ada" ["hello"]
           Stub.not_found Fixed.timeout); reflexivity.
Defined.

(** X7.  On the error fallback, an exception of _generate_id other than
    AttributeError is not caught (lines 73-78): the run ends with it, and no
    session has been created. *)
Theorem X7_failed_suffix_ends_the_run :
  forall (World : Type) (E : Environment World) (w w1 w2 : World)
         (name : string) (lines : list string) (e e2 : PyExn),
    let USER_ID := current_user_name name in
    let SESSION_ID := (USER_ID ++ "_main_session")%string in
    get_session E w APP_NAME USER_ID SESSION_ID = (w1, Raises e) ->
    exn_class e <> SessionNotFoundError ->
    _generate_id E w1 = (w2, Raises e2) ->
    exn_class e2 <> AttributeError ->
    snd (run E w (name :: lines)) = Raises e2
    /\ trace (fst (run E w (name :: lines)))
       = name_prompt name
         ++ [ GetSession APP_NAME USER_ID SESSION_ID (Raises e);
              Print ("An unexpected error occurred during session handling: "
                     ++ exn_text e);
              Print "Proceeding with a temporary guest session due to error.";
              GenerateId (Raises e2) ].
Proof.
  intros World E w w1 w2 name lines e e2 USER_ID SESSION_ID Hg He Hi Ha.
  subst USER_ID SESSION_ID.
  rewrite run_unfold. unfold bind.
  set (USER_ID := current_user_name name) in *.
  rewrite (session_setup_suffix_raises E USER_ID
             (log (name_prompt name) (boot w)) w1 w2 e e2 Hg).
  - split; reflexivity.
  - unfold is_session_not_found. destruct (exn_class e); congruence.
  - exact Hi.
  - unfold is_attribute_error. destruct (exn_class e2); congruence.
Qed.

Lemma X7_failed_suffix_ends_the_run_witness :
  let w := {| Fixed.lookup := Raises Stub.unavailable;
              Fixed.creation := None;
              Fixed.generated := Raises Fixed.timeout;
              Fixed.runner := None; Fixed.history := None;
              Fixed.agent := None |} in
  snd (run Fixed.env w ["Ada"]) = Raises Fixed.timeout
  /\ trace (fst (run Fixed.env w ["Ada"]))
     = name_prompt "Ada"
       ++ [ GetSession APP_NAME "Ada" "Ada_main_session"
                       (Raises Stub.unavailable);
            Print "An unexpected error occurred during session handling: service unavailable";
            Print "Proceeding with a temporary guest session due to error.";
            GenerateId (Raises Fixed.timeout) ].
Proof.
  intros w.
  apply (X7_failed_suffix_ends_the_run _ Fixed.env w w w "Ada" []
           Stub.unavailable Fixed.timeout);
    (reflexivity || discriminate).
Defined.

(** X8.  When the construction of the runner raises (lines 98-102) after a
    session was loaded, the run ends with that exception: the chat banner
    is not printed and no line is read. *)
Theorem X8_failed_runner_ends_the_run :
  forall (World : Type) (E : Environment World) (w w1 w2 : World)
         (name : string) (lines : list string) (s : Session.t) (e : PyExn),
    let USER_ID := current_user_name name in
    let SESSION_ID := (USER_ID ++ "_main_session")%string in
    get_session E w APP_NAME USER_ID SESSION_ID = (w1, Returns (Some s)) ->
    Runner E w1 APP_NAME = (w2, Raises e) ->
    snd (run E w (name :: lines)) = Raises e
    /\ trace (fst (run E w (name :: lines)))
       = name_prompt name
         ++ [ GetSession APP_NAME USER_ID SESSION_ID (Returns (Some s));
              Print ("Welcome back, " ++ displayed_name E USER_ID s
                     ++ "! Loaded existing session: " ++ Session.id s);
              NewRunner APP_NAME (Raises e) ].
Proof.
  intros World E w w1 w2 name lines s e USER_ID SESSION_ID Hg Hr.
  subst USER_ID SESSION_ID.
  rewrite run_unfold. unfold bind.
  set (USER_ID := current_user_name name) in *.
  rewrite (session_setup_found E USER_ID (log (name_prompt name) (boot w))
             w1 s Hg).
  cbn [fst snd].
  rewrite (after_setup_runner_raises E USER_ID s lines
             (log [ GetSession APP_NAME USER_ID (session_id_for USER_ID)
                               (Returns (Some s));
                    Print ("Welcome back, " ++ displayed_name E USER_ID s
                           ++ "! Loaded existing session: " ++ Session.id s) ]
                  (set_world w1 (log (name_prompt name) (boot w))))
             w2 e Hr).
  split; [reflexivity|].
  cbn [fst trace log set_world boot app]. rewrite <- !app_assoc. reflexivity.
Qed.

Lemma X8_failed_runner_ends_the_run_witness :
  let s := Session.mk "Ada_main_session" (seeded_state "Ada") in
  let w := {| Fixed.lookup := Returns (Some s); Fixed.creation := None;
              Fixed.generated := Returns "7f3a";
              Fixed.runner := Some Fixed.timeout; Fixed.history := None;
              Fixed.agent := None |} in
  snd (run Fixed.env w ["Ada"; "hello"]) = Raises Fixed.timeout
  /\ trace (fst (run Fixed.env w ["Ada"; "hello"]))
     = name_prompt "Ada"
       ++ [ GetSession APP_NAME "Ada" "Ada_main_session" (Returns (Some s));
            Print "Welcome back, Ada! Loaded existing session: Ada_main_session";
            NewRunner APP_NAME (Raises Fixed.timeout) ].
Proof.
  intros s w.
  apply (X8_failed_runner_ends_the_run _ Fixed.env w w w "Ada" ["hello"]
           s Fixed.timeout); reflexivity.
Defined.

(** X9.  An exception raised in a turn by add_user_query_to_history or by
    call_agent_async (lines 121-126) is not caught: the loop ends with it,
    the later steps of the turn are not made (no agent call after a failed
    history update, no refresh after a failed agent call), and PART 6 does
    not report the final state. *)
Theorem X9_turn_exceptions_escape :
  forall (World : Type) (E : Environment World) (USER_ID : string)
         (current_session : Session.t) (line : string) (rest : list string)
         (m : Machine World),
    PyStr.str_in (PyStr.lower line) ["exit"; "quit"] = false ->
    (forall (w1 : World) (e : PyExn),
        add_user_query_to_history E (world m) APP_NAME USER_ID
          (Session.id current_session) line = (w1, Raises e) ->
        bind (conversation_loop E USER_ID current_session (line :: rest))
             (state_examination E USER_ID) m
        = ({| world := w1; heap := heap m;
              trace :=
                trace m
                ++ [ Input (displayed_name E USER_ID current_session ++ ": ")
                           (Some line);
                     AddUserQueryToHistory APP_NAME USER_ID
                       (Session.id current_session) line (Raises e) ] |},
           Raises e))
    /\ (forall (w1 w2 : World) (e : PyExn),
          add_user_query_to_history E (world m) APP_NAME USER_ID
            (Session.id current_session) line = (w1, Returns tt) ->
          call_agent_async E w1 USER_ID (Session.id current_session) line
          = (w2, Raises e) ->
          bind (conversation_loop E USER_ID current_session (line :: rest))
               (state_examination E USER_ID) m
          = ({| world := w2; heap := heap m;
                trace :=
                  trace m
                  ++ [ Input (displayed_name E USER_ID current_session ++ ": ")
                             (Some line);
                       AddUserQueryToHistory APP_NAME USER_ID
                         (Session.id current_session) line (Returns tt);
                       CallAgent USER_ID (Session.id current_session) line
                                 (Raises e) ] |},
             Raises e)).
Proof.
  intros World E USER_ID current_session line rest m Hx. split.
  - intros w1 e Ha. unfold bind.
    rewrite (conversation_loop_history_raises E USER_ID current_session line
               rest m w1 e Hx Ha).
    reflexivity.
  - intros w1 w2 e Ha Hc. unfold bind.
    rewrite (conversation_loop_agent_raises E USER_ID current_session line
               rest m w1 w2 e Hx Ha Hc).
    reflexivity.
Qed.

Lemma X9_turn_exceptions_escape_witness :
  let s := Session.mk "Ada_main_session" (seeded_state "Ada") in
  let w := {| Fixed.lookup := Returns (Some s); Fixed.creation := None;
              Fixed.generated := Returns "7f3a"; Fixed.runner := None;
              Fixed.history := None; Fixed.agent := Some Fixed.timeout |} in
  bind (conversation_loop Fixed.env "Ada" s ["hello"; "exit"])
       (state_examination Fixed.env "Ada") (boot w)
  = ({| world := w; heap := module_heap;
        trace := [ Input "Ada: " (Some "hello");
                   AddUserQueryToHistory APP_NAME "Ada" "Ada_main_session"
                                         "hello" (Returns tt);
                   CallAgent "Ada" "Ada_main_session" "hello"
                             (Raises Fixed.timeout) ] |},
     Raises Fixed.timeout).
Proof.
  intros s w.
  apply (proj2 (X9_turn_exceptions_escape _ Fixed.env "Ada" s "hello" ["exit"]
                  (boot w) eq_refl) w w Fixed.timeout);
    reflexivity.
Defined.

(** X10.  When the refresh of a turn returns None without raising (lines
    131-143), the loop prints its critical error and ends with no current
    session; PART 6 then makes no lookup and only says that there is no
    active session (lines 160-161), and the run returns. *)
Theorem X10_refresh_none_ends_without_report :
  forall (World : Type) (E : Environment World) (USER_ID : string)
         (current_session : Session.t) (line : string) (rest : list string)
         (m : Machine World) (w1 w2 w3 : World),
    PyStr.str_in (PyStr.lower line) ["exit"; "quit"] = false ->
    add_user_query_to_history E (world m) APP_NAME USER_ID
      (Session.id current_session) line = (w1, Returns tt) ->
    call_agent_async E w1 USER_ID (Session.id current_session) line
    = (w2, Returns tt) ->
    get_session E w2 APP_NAME USER_ID (Session.id current_session)
    = (w3, Returns None) ->
    bind (conversation_loop E USER_ID current_session (line :: rest))
         (state_examination E USER_ID) m
    = ({| world := w3; heap := heap m;
          trace :=
            trace m
            ++ [ Input (displayed_name E USER_ID current_session ++ ": ")
                       (Some line);
                 AddUserQueryToHistory APP_NAME USER_ID
                   (Session.id current_session) line (Returns tt);
                 CallAgent USER_ID (Session.id current_session) line
                           (Returns tt);
                 GetSession APP_NAME USER_ID (Session.id current_session)
                            (Returns None);
                 Print "Critical error: Session became None during loop. Exiting.";
                 Print "No active session to examine at the end." ] |},
       Returns tt).
Proof.
  intros World E USER_ID current_session line rest m w1 w2 w3 Hx Ha Hc Hg.
  unfold bind.
  rewrite (conversation_loop_refresh_none E USER_ID current_session line rest
             m w1 w2 w3 Hx Ha Hc Hg).
  unfold state_examination, print, log. cbn [world heap trace].
  rewrite <- !app_assoc. reflexivity.
Qed.

Lemma X10_refresh_none_ends_without_report_witness :
  let s := Session.mk "Ada_main_session" (seeded_state "Ada") in
  let w := Fixed.with_lookup (Returns None) Fixed.calm in
  snd (bind (conversation_loop Fixed.env "Ada" s ["hello"; "exit"])
            (state_examination Fixed.env "Ada") (boot w))
  = Returns tt.
Proof.
  intros s w.
  rewrite (X10_refresh_none_ends_without_report _ Fixed.env "Ada" s "hello"
             ["exit"] (boot w) w w w eq_refl eq_refl eq_refl eq_refl).
  reflexivity.
Defined.



(** X12.  When the first lookup returns None instead of raising (lines
    46-50), reading the state of the result raises AttributeError, which
    the handler for other exceptions takes: given a suffix, the run creates
    a session for Guest_Error_ followed by the suffix, seeded with that
    guest id, and none for the name that was typed. *)
Theorem X12_lookup_none_falls_back_to_guest_session :
  forall (World : Type) (E : Environment World) (w w1 w2 : World)
         (name : string) (lines : list string) (suffix : string),
    let USER_ID := current_user_name name in
    let GUEST := ("Guest_Error_" ++ suffix)%string in
    get_session E w APP_NAME USER_ID (USER_ID ++ "_main_session")
    = (w1, Returns None) ->
    (_generate_id E w1 = (w2, Returns suffix)
     \/ exists w1' e',
          _generate_id E w1 = (w1', Raises e')
          /\ exn_class e' = AttributeError
          /\ random_choices E w1' (ascii_lowercase ++ digits) 6
             = (w2, suffix)) ->
    exists gen r es,
      trace (fst (run E w (name :: lines)))
      = name_prompt name
        ++ [ GetSession APP_NAME USER_ID (USER_ID ++ "_main_session")
                        (Returns None);
             Print "An unexpected error occurred during session handling: 'NoneType' object has no attribute 'state'";
             Print "Proceeding with a temporary guest session due to error." ]
        ++ gen
        ++ [ CreateSession APP_NAME GUEST (GUEST ++ "_main_session")
               [ ("user_name", DStr GUEST);
                 ("purchased_courses", DList []);
                 ("interaction_history", DList []) ]
               r ]
        ++ es
      /\ Forall (fun ev => is_creation ev = false) gen
      /\ Forall (fun ev => is_creation ev = false) es.
Proof.
  intros World E w w1 w2 name lines suffix USER_ID GUEST Hg Hgen.
  apply (run_none_fallback E w w1 w2 name lines suffix Hg).
  destruct Hgen as [H | [w1' [e' [H [Ha Hr]]]]]; [left; exact H | right].
  exists w1', e'. split; [exact H | split; [| exact Hr]].
  unfold is_attribute_error. rewrite Ha. reflexivity.
Qed.

Lemma X12_lookup_none_falls_back_to_guest_session_witness :
  let w := Fixed.with_lookup (Returns None) Fixed.calm in
  exists gen r es,
    trace (fst (run Fixed.env w ["Ada"; "exit"]))
    = name_prompt "Ada"
      ++ [ GetSession APP_NAME "Ada" "Ada_main_session" (Returns None);
           Print "An unexpected error occurred during session handling: 'NoneType' object has no attribute 'state'";
           Print "Proceeding with a temporary guest session due to error." ]
      ++ gen
      ++ [ CreateSession APP_NAME "Guest_Error_abcdef"
             "Guest_Error_abcdef_main_session"
             [ ("user_name", DStr "Guest_Error_abcdef");
               ("purchased_courses", DList []);
               ("interaction_history", DList []) ]
             r ]
      ++ es
    /\ Forall (fun ev => is_creation ev = false) gen
    /\ Forall (fun ev => is_creation ev = false) es.
Proof.
  intros w.
  apply (X12_lookup_none_falls_back_to_guest_session _ Fixed.env w w w
           "Ada" ["exit"] "abcdef").
  - reflexivity.
  - right. exists w, Fixed.no_such_method. repeat split.
Defined.

(** X13.  When the final lookup of PART 6 returns None instead of raising
    (lines 149-159), the heading of the report is already printed when
    reading the state raises; the error message follows it. *)
Theorem X13_final_lookup_none_prints_heading_then_error :
  forall (World : Type) (E : Environment World) (USER_ID : string)
         (current_session : Session.t) (m : Machine World) (w1 : World),
    get_session E (world m) APP_NAME USER_ID (Session.id current_session)
    = (w1, Returns None) ->
    state_examination E USER_ID (Some current_session) m
    = ({| world := w1; heap := heap m;
          trace :=
            trace m
            ++ [ GetSession APP_NAME USER_ID (Session.id current_session)
                            (Returns None);
                 Print (PyStr.newline ++ "Final Session State:");
                 Print "Error retrieving final session state: 'NoneType' object has no attribute 'state'" ] |},
       Returns tt).
Proof.
  intros World E USER_ID current_session m w1 Hg.
  rewrite (state_examination_none E USER_ID current_session m w1 Hg).
  reflexivity.
Qed.

Lemma X13_final_lookup_none_prints_heading_then_error_witness :
  let s := Session.mk "Ada_main_session" (seeded_state "Ada") in
  let w := Fixed.with_lookup (Returns None) Fixed.calm in
  trace (fst (state_examination Fixed.env "Ada" (Some s) (boot w)))
  = [ GetSession APP_NAME "Ada" "Ada_main_session" (Returns None);
      Print (PyStr.newline ++ "Final Session State:");
      Print "Error retrieving final session state: 'NoneType' object has no attribute 'state'" ].
Proof.
  intros s w.
  rewrite (X13_final_lookup_none_prints_heading_then_error _ Fixed.env "Ada"
             s (boot w) w eq_refl).
  reflexivity.
Defined.

(** X14.  PART 6 (lines 147-161) never raises, whatever the final lookup
    does: with a current session it makes that one lookup, under the user
    id in force and the id of the current session, and then only prints;
    without one it only prints. *)
Theorem X14_final_report_never_raises :
  forall (World : Type) (E : Environment World) (USER_ID : string)
         (m : Machine World),
    (forall current_session : Session.t,
        exists r prints,
          state_examination E USER_ID (Some current_session) m
          = ({| world := fst (get_session E (world m) APP_NAME USER_ID
                                           (Session.id current_session));
                heap := heap m;
                trace :=
                  trace m
                  ++ GetSession APP_NAME USER_ID (Session.id current_session)
                                r
                     :: map Print prints |},
             Returns tt))
    /\ state_examination E USER_ID None m
       = (log [Print "No active session to examine at the end."] m,
          Returns tt).
Proof.
  intros World E USER_ID m. split.
  - intros current_session.
    exact (state_examination_shape E USER_ID current_session m).
  - reflexivity.
Qed.

(** X15.  What the loop (lines 108-143) emits, for whatever the
    collaborators do: every history update and every agent call is made
    under the USER_ID the loop was entered with, for a query that is one of
    the lines typed, unchanged, and that does not lower to exit or quit;
    every lookup is under that USER_ID; and the loop creates no session,
    builds no runner and generates no suffix. *)
Theorem X15_loop_sends_typed_lines_under_one_user_id :
  forall (World : Type) (E : Environment World) (USER_ID : string)
         (current_session : Session.t) (stdin : list string)
         (m : Machine World),
    exists es,
      trace (fst (conversation_loop E USER_ID current_session stdin m))
      = trace m ++ es
      /\ heap (fst (conversation_loop E USER_ID current_session stdin m))
         = heap m
      /\ Forall (loop_event APP_NAME USER_ID stdin) es.
Proof.
  intros World E USER_ID current_session stdin m.
  exact (conversation_loop_events E USER_ID current_session stdin m).
Qed.

(** X16.  Every call of one run that names an app (get_session,
    create_session, add_user_query_to_history, the runner) names Customer
    Support (line 37), whatever the collaborators do and whatever is
    typed. *)
Theorem X16_every_call_names_the_app :
  forall (World : Type) (E : Environment World) (w : World)
         (stdin : list string),
    Forall (under_app "Customer Support") (trace (fst (run E w stdin))).
Proof.
  intros World E w stdin.
  destruct (main_async_under_app E stdin (boot w)) as [es [Ht HP]].
  unfold run. rewrite Ht. exact HP.
Qed.

(** X17.  The shortest complete run: the lookup finds a session, the
    runner is built and the first line is exit or quit.  The run returns;
    it shows the welcome back, the banner, one prompt and the farewell, and
    ends with the lookup of PART 6 under the id of the loaded session and
    its prints; no turn is made. *)
Theorem X17_loaded_session_and_immediate_exit :
  forall (World : Type) (E : Environment World) (w w1 w2 : World)
         (name line : string) (rest : list string) (s : Session.t),
    let USER_ID := current_user_name name in
    let SESSION_ID := (USER_ID ++ "_main_session")%string in
    get_session E w APP_NAME USER_ID SESSION_ID = (w1, Returns (Some s)) ->
    Runner E w1 APP_NAME = (w2, Returns tt) ->
    PyStr.str_in (PyStr.lower line) ["exit"; "quit"] = true ->
    exists r prints,
      snd (run E w (name :: line :: rest)) = Returns tt
      /\ trace (fst (run E w (name :: line :: rest)))
         = name_prompt name
           ++ [ GetSession APP_NAME USER_ID SESSION_ID (Returns (Some s));
                Print ("Welcome back, " ++ displayed_name E USER_ID s
                       ++ "! Loaded existing session: " ++ Session.id s);
                NewRunner APP_NAME (Returns tt);
                Print (PyStr.newline ++ "Welcome to Customer Service Chat!");
                Print ("Type 'exit' or 'quit' to end the conversation."
                       ++ PyStr.newline);
                Input (displayed_name E USER_ID s ++ ": ") (Some line);
                Print "Ending conversation. Goodbye!";
                GetSession APP_NAME USER_ID (Session.id s) r ]
           ++ map Print prints.
Proof.
  intros World E w w1 w2 name line rest s USER_ID SESSION_ID Hg Hr Hx.
  exact (run_found_exit E w w1 w2 name line rest s Hg Hr Hx).
Qed.

Lemma X17_loaded_session_and_immediate_exit_witness :
  let s := Session.mk "session-42" [("user_name", DStr "Ada Lovelace")] in
  let w := Fixed.with_lookup (Returns (Some s)) Fixed.calm in
  exists r prints,
    snd (run Fixed.env w ["ada"; "Quit"]) = Returns tt
    /\ trace (fst (run Fixed.env w ["ada"; "Quit"]))
       = name_prompt "ada"
         ++ [ GetSession APP_NAME "ada" "ada_main_session" (Returns (Some s));
              Print "Welcome back, Ada Lovelace! Loaded existing session: session-42";
              NewRunner APP_NAME (Returns tt);
              Print (PyStr.newline ++ "Welcome to Customer Service Chat!");
              Print ("Type 'exit' or 'quit' to end the conversation."
                     ++ PyStr.newline);
              Input "Ada Lovelace: " (Some "Quit");
              Print "Ending conversation. Goodbye!";
              GetSession APP_NAME "ada" "session-42" r ]
         ++ map Print prints.
Proof.
  intros s w.
  apply (X17_loaded_session_and_immediate_exit _ Fixed.env w w w "ada" "Quit"
           [] s); reflexivity.
Defined.


